(** * CO2-equivalent metric converters of [co2eq_analysis.ipynb]

    A shallow embedding of the function-definition cell of the notebook
    (the loader [load_rf_dt] and the seven converters [rf_co2eq],
    [gwp_co2eq], [egwp_co2eq], [gtp_co2eq], [atr_co2eq], [gwps_co2eq],
    [egwps_co2eq]) and the properties of the specification that concern
    them.

    Modelling conventions.
    - A NumPy [float64] is a real number ([R]); rounding, overflow and the
      IEEE values NaN and Inf are outside the model, and [x / 0] is the
      field's total division.  Where a division by zero decides a
      property, the five ratio converters are also given over binary64
      ([Generic] at [Float64.arith]).
    - A one-dimensional array is a [list R], a two-dimensional array is
      the list of its rows.
    - Python integers are [Z]; slices, [range], integer indexing and index
      arrays follow Python's rules, negative indices included.
    - A Python exception is the [Raise] case of [result]. *)

From Stdlib Require Import String.
From Stdlib Require Floats.PrimFloat.
From Stdlib Require Import Reals List ZArith Lia Lra Bool.
Import ListNotations.

(** ** Exceptions *)

Inductive exn : Type :=
| IndexError
| ValueError
| TypeError
| OSError.

Inductive result (A : Type) : Type :=
| Ok (a : A)
| Raise (e : exn).

Arguments Ok {A} a.
Arguments Raise {A} e.

Definition bind {A B : Type} (c : result A) (k : A -> result B) : result B :=
  match c with
  | Ok a => k a
  | Raise e => Raise e
  end.

Notation "x <- c ;; k" := (bind c (fun x => k))
  (at level 61, c at next level, right associativity).

(** Evaluation of a comprehension, left to right, stopping at the first
    exception. *)
Fixpoint mapM {A B : Type} (f : A -> result B) (l : list A) : result (list B) :=
  match l with
  | [] => Ok []
  | a :: l' => b <- f a ;; bs <- mapM f l' ;; Ok (b :: bs)
  end.

(** ** Python sequences *)

Module Py.

Definition len {A : Type} (l : list A) : Z := Z.of_nat (length l).

(** Adjustment of one slice bound to a sequence of length [n]
    (step 1): a negative bound counts from the end, and the result is
    clamped to [0..n]. *)
Definition adjust (n v : Z) : Z :=
  if (v <? 0)%Z then Z.max 0 (v + n) else Z.min v n.

(** [l[start:stop]]; [None] is an omitted bound. *)
Definition slice {A : Type} (start stop : option Z) (l : list A) : list A :=
  let n := len l in
  let a := match start with None => 0%Z | Some v => adjust n v end in
  let b := match stop with None => n | Some v => adjust n v end in
  firstn (Z.to_nat (b - a)) (skipn (Z.to_nat a) l).

(** [l[i]] for an integer [i]. *)
Definition getitem {A : Type} (l : list A) (i : Z) : result A :=
  let j := if (i <? 0)%Z then (i + len l)%Z else i in
  if (j <? 0)%Z then Raise IndexError
  else match nth_error l (Z.to_nat j) with
       | Some x => Ok x
       | None => Raise IndexError
       end.

(** [range(a, b)], also [np.arange(a, b)]. *)
Definition range (a b : Z) : list Z :=
  map (fun k => (a + Z.of_nat k)%Z) (seq 0 (Z.to_nat (b - a))).

(** The built-in [sum]: a left fold from 0. *)
Definition sum (l : list R) : R := fold_left Rplus l 0%R.

End Py.

(** ** NumPy arrays *)

Module Np.

Definition ndarray1 : Type := list R.
Definition ndarray2 : Type := list (list R).

(** [a[idx]] for an integer index array (or a [range]) [idx]. *)
Definition take {A : Type} (a : list A) (idx : list Z) : result (list A) :=
  mapM (Py.getitem a) idx.

(** [a[:, idx]]. *)
Definition take_cols (a : ndarray2) (idx : list Z) : result ndarray2 :=
  mapM (fun row => take row idx) a.

(** [np.sum] of a one-dimensional array. *)
Definition sum (l : ndarray1) : R := fold_left Rplus l 0%R.

Fixpoint map2 {A B C : Type} (f : A -> B -> C) (l : list A) (l' : list B) : list C :=
  match l, l' with
  | a :: t, b :: t' => f a b :: map2 f t t'
  | _, _ => []
  end.

(** Elementwise operation on two one-dimensional arrays, with
    broadcasting of a length-one operand. *)
Definition bcast1 (op : R -> R -> R) (a v : ndarray1) : result ndarray1 :=
  if Nat.eqb (length a) (length v) then Ok (map2 op a v)
  else match a, v with
       | _, [y] => Ok (map (fun x => op x y) a)
       | [x], _ => Ok (map (op x) v)
       | _, _ => Raise ValueError
       end.

(** Elementwise operation of a two-dimensional array with a
    one-dimensional one: the latter is broadcast along the rows. *)
Definition bcast_rows (op : R -> R -> R) (m : ndarray2) (v : ndarray1) : result ndarray2 :=
  mapM (fun row => bcast1 op row v) m.

(** Elementwise operation on two two-dimensional arrays, with
    broadcasting of a one-row operand. *)
Definition bcast2 (op : R -> R -> R) (a b : ndarray2) : result ndarray2 :=
  if Nat.eqb (length a) (length b)
  then mapM (fun p => bcast1 op (fst p) (snd p)) (combine a b)
  else match a, b with
       | _, [r] => mapM (fun row => bcast1 op row r) a
       | [r], _ => mapM (fun row => bcast1 op r row) b
       | _, _ => Raise ValueError
       end.

(** Operation with a scalar. *)
Definition scalar (f : R -> R) (m : ndarray2) : ndarray2 := map (map f) m.

(** [np.sum(m, axis=0)] of an array with [ncols] columns. *)
Definition sum_axis0 (ncols : nat) (m : ndarray2) : ndarray1 :=
  fold_left (map2 Rplus) m (repeat 0%R ncols).

(** Number of columns. *)
Definition ncols (m : ndarray2) : nat :=
  match m with
  | [] => 0
  | r :: _ => length r
  end.

(** [m[i, :] = v] on an array that has a row [i]. *)
Fixpoint set_row (m : ndarray2) (i : nat) (v : ndarray1) : ndarray2 :=
  match m, i with
  | [], _ => []
  | _ :: t, O => v :: t
  | r :: t, S i' => r :: set_row t i' v
  end.

(** Entry [m[i, c]], 0 outside the array. *)
Definition at2 (m : ndarray2) (i c : nat) : R := nth c (nth i m []) 0%R.

End Np.

(** ** The converters *)

Import Np.

(** Radiative forcing at the horizon (RF_H). *)
Definition rf_co2eq (H : Z) (forcing_profiles temperature_profiles : ndarray2)
    (years CO2_emissions : ndarray1) : result (ndarray2 * list Z) :=
  let rf_lst := forcing_profiles in
  let num := map (Py.slice (Some H) (Some (-1)%Z)) rf_lst in
  row1 <- Py.getitem rf_lst 1 ;;
  rfr_lst <- bcast_rows Rdiv num (Py.slice (Some H) (Some (-1)%Z) row1) ;;
  rf_CO2_eq <- bcast_rows Rmult rfr_lst
                 (Py.slice None (Some (Py.len years - H - 1)%Z) CO2_emissions) ;;
  let rf_years_idx := Py.range 0 (Py.len years - H - 1) in
  Ok (rf_CO2_eq, rf_years_idx).

(** The comprehension
    [[[np.sum(profiles[j, i:i + H]) for i in range(len(years) - H)] for j in range(7)]]
    shared by [gwp_co2eq] and [egwp_co2eq]. *)
Definition agwp_lst (H : Z) (forcing_profiles : ndarray2) (years : ndarray1) : result ndarray2 :=
  mapM (fun j =>
          mapM (fun i =>
                  row <- Py.getitem forcing_profiles j ;;
                  Ok (sum (Py.slice (Some i) (Some (i + H)%Z) row)))
               (Py.range 0 (Py.len years - H)))
       (Py.range 0 7).

(** The multipliers of [gwp_co2eq]. *)
Definition gwp_lst (H : Z) (forcing_profiles : ndarray2) (years : ndarray1) : result ndarray2 :=
  agwp_lst <- agwp_lst H forcing_profiles years ;;
  row1 <- Py.getitem agwp_lst 1 ;;
  bcast_rows Rdiv agwp_lst row1.

(** Global Warming Potential (GWP_H). *)
Definition gwp_co2eq (H : Z) (forcing_profiles temperature_profiles : ndarray2)
    (years CO2_emissions : ndarray1) : result (ndarray2 * list Z) :=
  gwp_lst <- gwp_lst H forcing_profiles years ;;
  e <- take CO2_emissions (Py.range 0 (Py.len years - H)) ;;
  gwp_CO2_eq <- bcast_rows Rmult gwp_lst e ;;
  let gwp_years_idx := Py.range 0 (Py.len years - H) in
  Ok (gwp_CO2_eq, gwp_years_idx).

(** Efficacies from Ponater et al. (2006). *)
Definition efficacies : ndarray1 := [1; 1.14; 1.37; 1.18; 0.59; 1]%R.

(** [m[1:, :] = m[1:, :] * efficacies.reshape((6, 1))]. *)
Definition scale_species (m : ndarray2) : result ndarray2 :=
  match m with
  | [] => Raise ValueError
  | total :: species =>
      if Nat.eqb (length species) 6
      then Ok (total :: map2 (fun row e => map (fun x => (x * e)%R) row) species efficacies)
      else Raise ValueError
  end.

(** [m[0, :] = np.sum(m[1:, :], axis=0)]. *)
Definition set_total (m : ndarray2) : ndarray2 :=
  set_row m 0 (sum_axis0 (ncols m) (tl m)).

(** The array [aegwp_lst] of [egwp_co2eq] once its species rows are
    scaled by the efficacies. *)
Definition aegwp_scaled (H : Z) (forcing_profiles : ndarray2) (years : ndarray1) : result ndarray2 :=
  aegwp_lst <- agwp_lst H forcing_profiles years ;;
  scale_species aegwp_lst.

(** Global Warming Potential including the efficacy (EGWP_H). *)
Definition egwp_co2eq (H : Z) (forcing_profiles temperature_profiles : ndarray2)
    (years CO2_emissions : ndarray1) : result (ndarray2 * list Z) :=
  aegwp_lst <- aegwp_scaled H forcing_profiles years ;;
  let aegwp_lst := set_total aegwp_lst in
  row1 <- Py.getitem aegwp_lst 1 ;;
  egwp_lst <- bcast_rows Rdiv aegwp_lst row1 ;;
  e <- take CO2_emissions (Py.range 0 (Py.len years - H)) ;;
  egwp_CO2_eq <- bcast_rows Rmult egwp_lst e ;;
  let egwp_years_idx := Py.range 0 (Py.len years - H) in
  Ok (egwp_CO2_eq, egwp_years_idx).

(** Global Temperature-Change Potential (GTP_H). *)
Definition gtp_co2eq (H : Z) (forcing_profiles temperature_profiles : ndarray2)
    (years CO2_emissions : ndarray1) : result (ndarray2 * list Z) :=
  let agtp_lst := temperature_profiles in
  let num := map (Py.slice (Some H) None) agtp_lst in
  row1 <- Py.getitem agtp_lst 1 ;;
  gtp_lst <- bcast_rows Rdiv num (Py.slice (Some H) None row1) ;;
  gtp_CO2_eq <- bcast_rows Rmult gtp_lst
                  (Py.slice None (Some (Py.len years - H)%Z) CO2_emissions) ;;
  let gtp_years_idx := Py.range 0 (Py.len years - H) in
  Ok (gtp_CO2_eq, gtp_years_idx).

(** The array [atr_lst] of [atr_co2eq]: forward means of the
    temperature change. *)
Definition atr_lst (H : Z) (temperature_profiles : ndarray2) (years : ndarray1) : result ndarray2 :=
  mapM (fun j =>
          mapM (fun i =>
                  row <- Py.getitem temperature_profiles j ;;
                  Ok (sum (Py.slice (Some i) (Some (i + H)%Z) row) / IZR H)%R)
               (Py.range 0 (Py.len years - H)))
       (Py.range 0 7).

(** The multipliers of [atr_co2eq]. *)
Definition atrp_lst (H : Z) (temperature_profiles : ndarray2) (years : ndarray1) : result ndarray2 :=
  atr_lst <- atr_lst H temperature_profiles years ;;
  row1 <- Py.getitem atr_lst 1 ;;
  bcast_rows Rdiv atr_lst row1.

(** Average Temperature Response (ATR_H). *)
Definition atr_co2eq (H : Z) (forcing_profiles temperature_profiles : ndarray2)
    (years CO2_emissions : ndarray1) : result (ndarray2 * list Z) :=
  atrp_lst <- atrp_lst H temperature_profiles years ;;
  e <- take CO2_emissions (Py.range 0 (Py.len years - H)) ;;
  atr_CO2_eq <- bcast_rows Rmult atrp_lst e ;;
  let atr_years_idx := Py.range 0 (Py.len years - H) in
  Ok (atr_CO2_eq, atr_years_idx).

(** *** GWP* and EGWP* *)

Definition dt : Z := 20.
Definition s : R := 0.25.
(** Extension by Smith et al. (2021). *)
Definition g : R := ((1 - exp (- s / (1 - s))) / s)%R.

(** [m[i, :] = v] for a one-dimensional [v]: the shapes must agree,
    up to broadcasting of a single value. *)
Definition assign_row (m : ndarray2) (i : Z) (v : ndarray1) : result ndarray2 :=
  row <- Py.getitem m i ;;
  let k := Z.to_nat (if (i <? 0)%Z then i + Py.len m else i) in
  if Nat.eqb (length v) (length row) then Ok (set_row m k v)
  else match v with
       | [x] => Ok (set_row m k (repeat x (length row)))
       | _ => Raise ValueError
       end.

(** The array [gwps_co2eq] of the two GWP* converters as the flow
    formula computes it, before any row is overwritten, and the index
    array [yr_idx1].  The table [agwph_co2] is the content of the
    file [agwph_co2_file]. *)
Definition gwps_formula (H : Z) (forcing_profiles : ndarray2) (years : ndarray1)
    (agwph_co2 : ndarray1) : result (ndarray2 * list Z) :=
  row0 <- Py.getitem forcing_profiles 0 ;;
  let yr_idx1 := Py.range dt (Py.len row0) in
  a <- Py.getitem agwph_co2 (H - 1) ;;
  let agwp_co2 := (a * 1e9)%R in
  hi <- take_cols forcing_profiles (Py.range dt (Py.len years)) ;;
  lo <- take_cols forcing_profiles (Py.range 0 (Py.len years - dt)) ;;
  d <- bcast2 Rminus hi lo ;;
  let dFdt := scalar (fun x => x / IZR dt / 1000)%R d in
  F <- mapM (fun j =>
               mapM (fun i =>
                       row <- Py.getitem forcing_profiles j ;;
                       Ok (Py.sum (Py.slice (Some (i - dt + 1)%Z) (Some (i + 1)%Z) row) / IZR dt)%R)
                    (Py.range dt (Py.len years)))
            (Py.range 0 7) ;;
  let F_av := scalar (fun x => x / 1000)%R F in
  r <- bcast2 Rplus (scalar (fun x => (1 - s) * x * IZR H / agwp_co2)%R dFdt)
                    (scalar (fun x => s * x / agwp_co2)%R F_av) ;;
  Ok (scalar (Rmult g) r, yr_idx1).

(** GWP*. *)
Definition gwps_co2eq (H : Z) (forcing_profiles temperature_profiles : ndarray2)
    (years CO2_emissions : ndarray1) (agwph_co2 : ndarray1) : result (ndarray2 * list Z) :=
  p <- gwps_formula H forcing_profiles years agwph_co2 ;;
  let '(gwps_co2eq, yr_idx1) := p in
  e <- take CO2_emissions yr_idx1 ;;
  gwps_co2eq <- assign_row gwps_co2eq 1 e ;;
  Ok (set_total gwps_co2eq, yr_idx1).

(** EGWP*. *)
Definition egwps_co2eq (H : Z) (forcing_profiles temperature_profiles : ndarray2)
    (years CO2_emissions : ndarray1) (agwph_co2 : ndarray1) : result (ndarray2 * list Z) :=
  p <- gwps_formula H forcing_profiles years agwph_co2 ;;
  let '(gwps_co2eq, yr_idx1) := p in
  e <- take CO2_emissions yr_idx1 ;;
  gwps_co2eq <- assign_row gwps_co2eq 1 e ;;
  gwps_co2eq <- scale_species gwps_co2eq ;;
  Ok (set_total gwps_co2eq, yr_idx1).

(** ** The loader *)

(** A text file is the list of its lines, a line the list of its
    whitespace-separated numeric fields; the content of the lines that
    [skiprows] drops is irrelevant.  A file system maps a path to the
    file stored there. *)
Definition line : Type := list R.
Definition file : Type := list line.
Definition filesystem : Type := string -> option file.

(** The value of [np.loadtxt]: the column read is squeezed, so a file
    with a single data line gives a zero-dimensional array. *)
Inductive loaded : Type :=
| Scalar0 (x : R)
| Vec1 (l : ndarray1).

Definition is_blank (l : line) : bool :=
  match l with
  | [] => true
  | _ => false
  end.

(** The data lines of a file: blank lines are skipped. *)
Definition data_lines (skiprows : nat) (f : file) : list line :=
  filter (fun l => negb (is_blank l)) (skipn skiprows f).

(** [np.loadtxt(name, skiprows=skiprows, usecols=usecols)]. *)
Definition loadtxt (fs : filesystem) (name : string) (skiprows usecols : nat) : result loaded :=
  match fs name with
  | None => Raise OSError
  | Some f =>
      let rows := data_lines skiprows f in
      col <- mapM (fun l => match nth_error l usecols with
                            | Some x => Ok x
                            | None => Raise ValueError
                            end) rows ;;
      Ok (match col with
          | [x] => Scalar0 x
          | _ => Vec1 col
          end)
  end.

(** [len(a)]. *)
Definition loaded_len (a : loaded) : result nat :=
  match a with
  | Scalar0 _ => Raise TypeError
  | Vec1 l => Ok (length l)
  end.

(** [m[i, :] = a] for the value [a] of [np.loadtxt]. *)
Definition assign_loaded (m : ndarray2) (i : nat) (a : loaded) : result ndarray2 :=
  match a with
  | Scalar0 x => assign_row m (Z.of_nat i) [x]
  | Vec1 l => assign_row m (Z.of_nat i) l
  end.

Definition emission_species : list string :=
  ["CO2"; "H2O"; "O3"; "CH4"; "Cont"; "PMO"]%string.

(** The file names of a species. *)
Definition rf_name (species : string) : string :=
  ("RF_" ++ species ++ "_taumean_rfmean.txt")%string.
Definition dt_name (species : string) : string :=
  ("dT_" ++ species ++ "_taumean_rfmean_lammean.txt")%string.

(** The loop of [load_rf_dt] over the indices [idx], on the state
    [(rf_arr, dt_arr)]. *)
Fixpoint populate (fs : filesystem) (directory : string) (idx : list nat)
    (rf_arr dt_arr : ndarray2) : result (ndarray2 * ndarray2) :=
  match idx with
  | [] => Ok (rf_arr, dt_arr)
  | i :: idx' =>
      let rf_name := rf_name (nth i emission_species EmptyString) in
      let dt_name := dt_name (nth i emission_species EmptyString) in
      rf_lst <- loadtxt fs (directory ++ rf_name) 2 1 ;;
      dt_lst <- loadtxt fs (directory ++ dt_name) 2 1 ;;
      rf_arr <- assign_loaded rf_arr (i + 1) rf_lst ;;
      dt_arr <- assign_loaded dt_arr (i + 1) dt_lst ;;
      populate fs directory idx' rf_arr dt_arr
  end.

Definition zeros (rows cols : nat) : ndarray2 := repeat (repeat 0%R cols) rows.

Definition load_rf_dt (fs : filesystem) (directory : string)
    : result (ndarray2 * ndarray2 * ndarray1) :=
  y <- loadtxt fs (directory ++ "RF_CO2_taumean_rfmean.txt")%string 2 0 ;;
  n <- loaded_len y ;;
  let years := match y with Vec1 l => l | Scalar0 x => [x] end in
  let rf_arr := zeros 7 n in
  let dt_arr := zeros 7 n in
  p <- populate fs directory (seq 0 (length emission_species)) rf_arr dt_arr ;;
  let '(rf_arr, dt_arr) := p in
  let rf_arr := set_row rf_arr 0 (sum_axis0 n rf_arr) in
  let dt_arr := set_row dt_arr 0 (sum_axis0 n dt_arr) in
  Ok (rf_arr, dt_arr, years).

(** ** The ratio converters over an arbitrary arithmetic

    The five converters that divide by the CO2 response, written once
    more from the source with the number type and its operations as
    parameters.  At the real numbers they are the definitions above; at
    binary64 they show what the code returns where the CO2 response is
    zero. *)

Record arithmetic (N : Type) : Type := {
  n_add : N -> N -> N;
  n_mul : N -> N -> N;
  n_div : N -> N -> N;
  n_zero : N;
  n_of_int : Z -> N;
  n_efficacy : list N
}.

Arguments n_add {N} _ _ _.
Arguments n_mul {N} _ _ _.
Arguments n_div {N} _ _ _.
Arguments n_zero {N} _.
Arguments n_of_int {N} _ _.
Arguments n_efficacy {N} _.

Module Generic.
Section Converters.
Context {N : Type} (A : arithmetic N).

Definition sum (l : list N) : N := fold_left (n_add A) l (n_zero A).

Definition bcast1 (op : N -> N -> N) (a v : list N) : result (list N) :=
  if Nat.eqb (length a) (length v) then Ok (map2 op a v)
  else match a, v with
       | _, [y] => Ok (map (fun x => op x y) a)
       | [x], _ => Ok (map (op x) v)
       | _, _ => Raise ValueError
       end.

Definition bcast_rows (op : N -> N -> N) (m : list (list N)) (v : list N)
    : result (list (list N)) :=
  mapM (fun row => bcast1 op row v) m.

Definition sum_axis0 (ncols : nat) (m : list (list N)) : list N :=
  fold_left (map2 (n_add A)) m (repeat (n_zero A) ncols).

Definition ncols (m : list (list N)) : nat :=
  match m with
  | [] => 0
  | r :: _ => length r
  end.

Fixpoint set_row (m : list (list N)) (i : nat) (v : list N) : list (list N) :=
  match m, i with
  | [], _ => []
  | _ :: t, O => v :: t
  | r :: t, S i' => r :: set_row t i' v
  end.

Definition rf_co2eq (H : Z) (forcing_profiles temperature_profiles : list (list N))
    (years CO2_emissions : list N) : result (list (list N) * list Z) :=
  let rf_lst := forcing_profiles in
  let num := map (Py.slice (Some H) (Some (-1)%Z)) rf_lst in
  row1 <- Py.getitem rf_lst 1 ;;
  rfr_lst <- bcast_rows (n_div A) num (Py.slice (Some H) (Some (-1)%Z) row1) ;;
  rf_CO2_eq <- bcast_rows (n_mul A) rfr_lst
                 (Py.slice None (Some (Py.len years - H - 1)%Z) CO2_emissions) ;;
  let rf_years_idx := Py.range 0 (Py.len years - H - 1) in
  Ok (rf_CO2_eq, rf_years_idx).

Definition agwp_lst (H : Z) (forcing_profiles : list (list N)) (years : list N)
    : result (list (list N)) :=
  mapM (fun j =>
          mapM (fun i =>
                  row <- Py.getitem forcing_profiles j ;;
                  Ok (sum (Py.slice (Some i) (Some (i + H)%Z) row)))
               (Py.range 0 (Py.len years - H)))
       (Py.range 0 7).

Definition gwp_lst (H : Z) (forcing_profiles : list (list N)) (years : list N)
    : result (list (list N)) :=
  agwp_lst <- agwp_lst H forcing_profiles years ;;
  row1 <- Py.getitem agwp_lst 1 ;;
  bcast_rows (n_div A) agwp_lst row1.

Definition gwp_co2eq (H : Z) (forcing_profiles temperature_profiles : list (list N))
    (years CO2_emissions : list N) : result (list (list N) * list Z) :=
  gwp_lst <- gwp_lst H forcing_profiles years ;;
  e <- take CO2_emissions (Py.range 0 (Py.len years - H)) ;;
  gwp_CO2_eq <- bcast_rows (n_mul A) gwp_lst e ;;
  let gwp_years_idx := Py.range 0 (Py.len years - H) in
  Ok (gwp_CO2_eq, gwp_years_idx).

Definition scale_species (m : list (list N)) : result (list (list N)) :=
  match m with
  | [] => Raise ValueError
  | total :: species =>
      if Nat.eqb (length species) 6
      then Ok (total :: map2 (fun row e => map (fun x => n_mul A x e) row) species (n_efficacy A))
      else Raise ValueError
  end.

Definition set_total (m : list (list N)) : list (list N) :=
  set_row m 0 (sum_axis0 (ncols m) (tl m)).

Definition aegwp_scaled (H : Z) (forcing_profiles : list (list N)) (years : list N)
    : result (list (list N)) :=
  aegwp_lst <- agwp_lst H forcing_profiles years ;;
  scale_species aegwp_lst.

Definition egwp_co2eq (H : Z) (forcing_profiles temperature_profiles : list (list N))
    (years CO2_emissions : list N) : result (list (list N) * list Z) :=
  aegwp_lst <- aegwp_scaled H forcing_profiles years ;;
  let aegwp_lst := set_total aegwp_lst in
  row1 <- Py.getitem aegwp_lst 1 ;;
  egwp_lst <- bcast_rows (n_div A) aegwp_lst row1 ;;
  e <- take CO2_emissions (Py.range 0 (Py.len years - H)) ;;
  egwp_CO2_eq <- bcast_rows (n_mul A) egwp_lst e ;;
  let egwp_years_idx := Py.range 0 (Py.len years - H) in
  Ok (egwp_CO2_eq, egwp_years_idx).

Definition gtp_co2eq (H : Z) (forcing_profiles temperature_profiles : list (list N))
    (years CO2_emissions : list N) : result (list (list N) * list Z) :=
  let agtp_lst := temperature_profiles in
  let num := map (Py.slice (Some H) None) agtp_lst in
  row1 <- Py.getitem agtp_lst 1 ;;
  gtp_lst <- bcast_rows (n_div A) num (Py.slice (Some H) None row1) ;;
  gtp_CO2_eq <- bcast_rows (n_mul A) gtp_lst
                  (Py.slice None (Some (Py.len years - H)%Z) CO2_emissions) ;;
  let gtp_years_idx := Py.range 0 (Py.len years - H) in
  Ok (gtp_CO2_eq, gtp_years_idx).

Definition atr_lst (H : Z) (temperature_profiles : list (list N)) (years : list N)
    : result (list (list N)) :=
  mapM (fun j =>
          mapM (fun i =>
                  row <- Py.getitem temperature_profiles j ;;
                  Ok (n_div A (sum (Py.slice (Some i) (Some (i + H)%Z) row)) (n_of_int A H)))
               (Py.range 0 (Py.len years - H)))
       (Py.range 0 7).

Definition atrp_lst (H : Z) (temperature_profiles : list (list N)) (years : list N)
    : result (list (list N)) :=
  atr_lst <- atr_lst H temperature_profiles years ;;
  row1 <- Py.getitem atr_lst 1 ;;
  bcast_rows (n_div A) atr_lst row1.

Definition atr_co2eq (H : Z) (forcing_profiles temperature_profiles : list (list N))
    (years CO2_emissions : list N) : result (list (list N) * list Z) :=
  atrp_lst <- atrp_lst H temperature_profiles years ;;
  e <- take CO2_emissions (Py.range 0 (Py.len years - H)) ;;
  atr_CO2_eq <- bcast_rows (n_mul A) atrp_lst e ;;
  let atr_years_idx := Py.range 0 (Py.len years - H) in
  Ok (atr_CO2_eq, atr_years_idx).

(** Entry [m[i, c]]. *)
Definition entry (m : list (list N)) (i c : nat) : N :=
  nth c (nth i m []) (n_zero A).

(** The sum of rows 1 to 6 in column [c], added in row order. *)
Definition species_total (m : list (list N)) (c : nat) : N :=
  n_add A (n_add A (n_add A (n_add A (n_add A (entry m 1 c) (entry m 2 c)) (entry m 3 c))
                  (entry m 4 c)) (entry m 5 c)) (entry m 6 c).

End Converters.
End Generic.

(** The arithmetic of the real numbers. *)
Definition real_arithmetic : arithmetic R := {|
  n_add := Rplus; n_mul := Rmult; n_div := Rdiv; n_zero := 0%R; n_of_int := IZR;
  n_efficacy := efficacies
|}.

(** The arithmetic of binary64, the [float64] of NumPy. *)
Module Float64.
Import PrimFloat.
#[local] Set Warnings "-inexact-float".

(** An integer as a float; exact below [2^53]. *)
Fixpoint of_pos (p : positive) : float :=
  match p with
  | xH => 1%float
  | xO q => (2 * of_pos q)%float
  | xI q => (2 * of_pos q + 1)%float
  end.

Definition of_Z (z : Z) : float :=
  match z with
  | Z0 => 0%float
  | Zpos p => of_pos p
  | Zneg p => (- of_pos p)%float
  end.

Definition arith : arithmetic float := {|
  n_add := PrimFloat.add; n_mul := PrimFloat.mul; n_div := PrimFloat.div;
  n_zero := 0%float; n_of_int := of_Z;
  n_efficacy := [1; 1.14; 1.37; 1.18; 0.59; 1]%float
|}.

(** Row 0 is equal ([==]) to the sum of rows 1 to 6 in column [c]. *)
Definition total_eqb (m : list (list float)) (c : nat) : bool :=
  PrimFloat.eqb (Generic.entry arith m 0 c) (Generic.species_total arith m c).

(** Three years in which the CO2 forcing of the second year is zero;
    row 0 is the sum of the CO2 row and the H2O row. *)
Definition zero_co2_table : list (list float) :=
  [[2; 2; 2]; [1; 0; 1]; [1; 2; 1]; [0; 0; 0]; [0; 0; 0]; [0; 0; 0]; [0; 0; 0]]%float.
Definition three_years : list float := [2000; 2001; 2002]%float.
Definition ten_emissions : list float := [10; 10; 10]%float.

End Float64.

(** ** Vocabulary of the statements *)

(** [shape m r c]: [m] is an [r] x [c] array. *)
Definition shape (m : ndarray2) (r c : nat) : Prop :=
  length m = r /\ Forall (fun row => length row = c) m.

(** The sum of the six species rows in column [t]. *)
Definition species_sum (m : ndarray2) (t : nat) : R :=
  (at2 m 1 t + at2 m 2 t + at2 m 3 t + at2 m 4 t + at2 m 5 t + at2 m 6 t)%R.

(** Row 0 is the total of the species rows in the first [n] columns. *)
Definition total_is_sum (m : ndarray2) (n : nat) : Prop :=
  forall t, (t < n)%nat -> at2 m 0 t = species_sum m t.

(** [f 0 + f 1 + ... + f (n - 1)]. *)
Fixpoint big_sum (n : nat) (f : nat -> R) : R :=
  match n with
  | O => 0%R
  | S n' => (big_sum n' f + f n')%R
  end.

(** The one-dimensional array [f 0, ..., f (n - 1)]. *)
Definition tab (n : nat) (f : nat -> R) : ndarray1 := map f (seq 0 n).

(** The forward sum [row[c] + ... + row[c + h - 1]]. *)
Definition forward_sum (h : nat) (row : ndarray1) (c : nat) : R :=
  big_sum h (fun k => nth (c + k) row 0%R).

(** Entry [c] of a row of the flow formula: the value for year index
    [20 + c], for the CO2 value [agwp_co2] of the table. *)
Definition gwps_entry (H : Z) (agwp_co2 : R) (row : ndarray1) (c : nat) : R :=
  (g * ((1 - s) * ((nth (20 + c) row 0 - nth c row 0) / 20 / 1000) * IZR H / agwp_co2
        + s * (big_sum 20 (fun j => nth (c + 1 + j) row 0) / 20 / 1000) / agwp_co2))%R.

(** A converter returned, with the year indices [0 .. n-1], an array of
    seven rows and [n] columns whose row 0 is the sum of rows 1 to 6 in
    every column [c] where the CO2 response [response c], by which the
    column is divided, is not zero. *)
Definition returns_total_where (n : nat) (response : nat -> R)
    (r : result (ndarray2 * list Z)) : Prop :=
  exists out,
    r = Ok (out, Py.range 0 (Z.of_nat n))
    /\ shape out 7 n
    /\ forall c, (c < n)%nat -> response c <> 0%R -> at2 out 0 c = species_sum out c.

(** A GWP* converter returned, with the year indices [20 .. T-1], an
    array of seven rows and [T - 20] columns that has in every column
    the CO2 emission of its year index in row 1 and the sum of rows 1 to
    6 in row 0. *)
Definition returns_star_rows (T : nat) (CO2_emissions : ndarray1)
    (r : result (ndarray2 * list Z)) : Prop :=
  exists out,
    r = Ok (out, Py.range 20 (Z.of_nat T))
    /\ shape out 7 (T - 20)
    /\ forall c, (c < T - 20)%nat ->
         at2 out 1 c = nth (20 + c) CO2_emissions 0%R
         /\ at2 out 0 c = species_sum out c.

(** The number of year entries of a file: its data lines after the
    two header lines. *)
Definition entries (f : file) : nat := length (data_lines 2 f).

(** Column [k] of the data lines of a file. *)
Definition column (k : nat) (f : file) : ndarray1 :=
  map (fun l => nth k l 0%R) (data_lines 2 f).

(** A file with [n] year entries, each holding at least a year and a
    value. *)
Definition regular_file (n : nat) (f : file) : Prop :=
  entries f = n /\ Forall (fun l => (2 <= length l)%nat) (data_lines 2 f).

(** A converter returned an array of seven rows and [n] columns, with
    [n] year indices. *)
Definition returns_columns (n : nat) (r : result (ndarray2 * list Z)) : Prop :=
  exists out idx, r = Ok (out, idx) /\ shape out 7 n /\ length idx = n.

(** ** Example inputs *)

(** Five years; row 0 is the sum of the CO2 row and the H2O row. *)
Definition rfi_forcing : ndarray2 :=
  [[2; 3; 7; 5; 6]; [1; 1; 1; 1; 1]; [1; 2; 6; 4; 5];
   [0; 0; 0; 0; 0]; [0; 0; 0; 0; 0]; [0; 0; 0; 0; 0]; [0; 0; 0; 0; 0]]%R.
Definition rfi_years : ndarray1 := [2000; 2001; 2002; 2003; 2004]%R.
Definition rfi_emissions : ndarray1 := [10; 20; 30; 40; 50]%R.

(** Three years of constant species forcing 1. *)
Definition ones_forcing : ndarray2 :=
  [[6; 6; 6]; [1; 1; 1]; [1; 1; 1]; [1; 1; 1]; [1; 1; 1]; [1; 1; 1]; [1; 1; 1]]%R.

(** Twenty-one years of constant forcing. *)
Definition flow_forcing : ndarray2 :=
  map (fun x => repeat x 21) [3; 1; 2; 0; 0; 0; 0]%R.

(** A file with two header lines and one data line per value, the
    year in column 0. *)
Definition series_file (values : list R) : file :=
  [] :: [] :: map (fun x => [2000; x]%R) values.

(** A directory in which every file holds the same two entries. *)
Definition aligned_fs : filesystem := fun _ => Some (series_file [1; 2]%R).

(** A directory in which the H2O forcing file holds one entry and every
    other file two. *)
Definition misaligned_fs : filesystem := fun name =>
  if String.eqb name "CORSIA/RF_H2O_taumean_rfmean.txt"%string
  then Some (series_file [7]%R)
  else Some (series_file [1; 2]%R).

(** A directory in which the CH4 temperature file holds three entries
    and every other file two. *)
Definition short_fs : filesystem := fun name =>
  if String.eqb name "CORSIA/dT_CH4_taumean_rfmean_lammean.txt"%string
  then Some (series_file [7; 8; 9]%R)
  else Some (series_file [1; 2]%R).

(** A directory without the O3 temperature file. *)
Definition incomplete_fs : filesystem := fun name =>
  if String.eqb name "CORSIA/dT_O3_taumean_rfmean_lammean.txt"%string
  then None
  else Some (series_file [1; 2]%R).

(** A directory in which every file holds a single entry. *)
Definition one_year_fs : filesystem := fun _ => Some (series_file [1]%R).

(** ** Lemmas on the Python and NumPy layer *)

Section MapM.
Context {A B : Type}.

Lemma mapM_pure (f : A -> result B) (h : A -> B) (l : list A) :
  (forall a, In a l -> f a = Ok (h a)) -> mapM f l = Ok (map h l).
Proof.
  induction l as [|a l IH]; intros Hf; simpl; [reflexivity|].
  rewrite (Hf a (or_introl eq_refl)). simpl.
  rewrite IH by (intros; apply Hf; now right). reflexivity.
Qed.

Lemma mapM_length (f : A -> result B) (l : list A) (bs : list B) :
  mapM f l = Ok bs -> length bs = length l.
Proof.
  revert bs; induction l as [|a l IH]; intros bs; simpl.
  - intros [= <-]. reflexivity.
  - destruct (f a) as [b|e]; simpl; [|discriminate].
    destruct (mapM f l) as [bs'|e]; simpl; [|discriminate].
    intros [= <-]. simpl. now rewrite (IH bs').
Qed.
End MapM.

Lemma tab_length n f : length (tab n f) = n.
Proof. unfold tab. now rewrite length_map, length_seq. Qed.

Lemma nth_tab n f k d : (k < n)%nat -> nth k (tab n f) d = f k.
Proof.
  intros Hk. unfold tab.
  rewrite (nth_indep _ d (f 0%nat)) by (now rewrite length_map, length_seq).
  rewrite map_nth, seq_nth by exact Hk. reflexivity.
Qed.

Lemma tab_ext n f f' : (forall k, (k < n)%nat -> f k = f' k) -> tab n f = tab n f'.
Proof.
  intros Hf. unfold tab. apply map_ext_in. intros k Hk.
  apply in_seq in Hk. apply Hf. lia.
Qed.

Lemma tab_S n f : tab (S n) f = tab n f ++ [f n].
Proof. unfold tab. rewrite seq_S, map_app. reflexivity. Qed.

Lemma map_tab (h : R -> R) n f : map h (tab n f) = tab n (fun k => h (f k)).
Proof. unfold tab. now rewrite map_map. Qed.

Lemma map2_map {A : Type} (op : R -> R -> R) (f f' : A -> R) (l : list A) :
  map2 op (map f l) (map f' l) = map (fun k => op (f k) (f' k)) l.
Proof. induction l as [|a l IH]; simpl; [reflexivity|now rewrite IH]. Qed.

Lemma map2_tab op n f f' : map2 op (tab n f) (tab n f') = tab n (fun k => op (f k) (f' k)).
Proof. apply map2_map. Qed.

Lemma list_is_tab (l : list R) d : l = tab (length l) (fun k => nth k l d).
Proof.
  apply (nth_ext _ _ d d).
  - now rewrite tab_length.
  - intros k Hk. now rewrite nth_tab.
Qed.

Lemma firstn_skipn_tab (l : list R) (a m : nat) d :
  (a + m <= length l)%nat ->
  firstn m (skipn a l) = tab m (fun k => nth (a + k) l d).
Proof.
  intros Hlen. apply (nth_ext _ _ d d).
  - rewrite tab_length, length_firstn, length_skipn. lia.
  - intros k Hk. rewrite length_firstn, length_skipn in Hk.
    rewrite nth_tab by lia. rewrite nth_firstn.
    destruct (Nat.ltb_spec k m); [|lia]. now rewrite nth_skipn.
Qed.

(** A slice whose adjusted bounds are [a <= b]. *)
Lemma slice_tab (start stop : option Z) (l : list R) (a b : nat) d :
  match start with None => 0%Z | Some v => Py.adjust (Py.len l) v end = Z.of_nat a ->
  match stop with None => Py.len l | Some v => Py.adjust (Py.len l) v end = Z.of_nat b ->
  (a <= b <= length l)%nat ->
  Py.slice start stop l = tab (b - a) (fun k => nth (a + k) l d).
Proof.
  intros Ha Hb Hab. unfold Py.slice. rewrite Ha, Hb.
  replace (Z.to_nat (Z.of_nat b - Z.of_nat a)) with (b - a)%nat by lia.
  rewrite Nat2Z.id. apply firstn_skipn_tab. lia.
Qed.

Lemma getitem_nth {A : Type} (l : list A) (i : nat) (d : A) :
  (i < length l)%nat -> Py.getitem l (Z.of_nat i) = Ok (nth i l d).
Proof.
  intros Hi. unfold Py.getitem.
  destruct (Z.ltb_spec (Z.of_nat i) 0); [lia|].
  destruct (Z.ltb_spec (Z.of_nat i) 0); [lia|].
  rewrite Nat2Z.id.
  destruct (nth_error l i) as [x|] eqn:Hx.
  - now rewrite (nth_error_nth _ _ d Hx).
  - apply nth_error_None in Hx. lia.
Qed.

Lemma range_length (a b : Z) : length (Py.range a b) = Z.to_nat (b - a).
Proof. unfold Py.range. now rewrite length_map, length_seq. Qed.

Lemma take_range (l : list R) (a b : Z) d :
  (0 <= a)%Z -> (b <= Py.len l)%Z ->
  take l (Py.range a b)
  = Ok (tab (Z.to_nat (b - a)) (fun k => nth (Z.to_nat a + k) l d)).
Proof.
  intros Ha Hb. unfold take, tab, Py.range.
  rewrite (mapM_pure _ (fun z => nth (Z.to_nat z) l d)).
  - rewrite map_map. apply f_equal. apply map_ext. intros k.
    now rewrite Z2Nat.inj_add, Nat2Z.id by lia.
  - intros z Hz. apply in_map_iff in Hz. destruct Hz as (k & <- & Hk).
    apply in_seq in Hk. unfold Py.len in Hb.
    replace (a + Z.of_nat k)%Z with (Z.of_nat (Z.to_nat a + k)) by lia.
    rewrite Nat2Z.id. apply getitem_nth. lia.
Qed.

Lemma bcast1_same op (a v : ndarray1) :
  length a = length v -> bcast1 op a v = Ok (map2 op a v).
Proof. intros Hl. unfold bcast1. now rewrite Hl, Nat.eqb_refl. Qed.

Lemma bcast_rows_same op (m : ndarray2) (v : ndarray1) :
  Forall (fun row => length row = length v) m ->
  bcast_rows op m v = Ok (map (fun row => map2 op row v) m).
Proof.
  intros Hm. unfold bcast_rows. apply mapM_pure.
  intros row Hrow. apply bcast1_same.
  rewrite Forall_forall in Hm. now apply Hm.
Qed.

Lemma sum_tab n f : sum (tab n f) = big_sum n f.
Proof.
  unfold sum. induction n as [|n IH]; [reflexivity|].
  rewrite tab_S, fold_left_app. simpl. now rewrite IH.
Qed.

Lemma big_sum_ext n f f' :
  (forall k, (k < n)%nat -> f k = f' k) -> big_sum n f = big_sum n f'.
Proof.
  induction n as [|n IH]; intros Hf; simpl; [reflexivity|].
  rewrite IH, Hf by (intros; try apply Hf; lia). reflexivity.
Qed.

Lemma big_sum_plus n f f' :
  big_sum n (fun k => f k + f' k)%R = (big_sum n f + big_sum n f')%R.
Proof. induction n as [|n IH]; simpl; [lra|rewrite IH; lra]. Qed.

Lemma big_sum_const n c : big_sum n (fun _ => c) = (INR n * c)%R.
Proof.
  induction n as [|n IH]; [simpl; lra|].
  change (big_sum (S n) (fun _ => c)) with (big_sum n (fun _ => c) + c)%R.
  rewrite IH, S_INR. lra.
Qed.

Lemma bcast_rows_tab {A : Type} op (m : list A) n (F : A -> nat -> R) (v : nat -> R) :
  bcast_rows op (map (fun a => tab n (F a)) m) (tab n v)
  = Ok (map (fun a => tab n (fun k => op (F a k) (v k))) m).
Proof.
  rewrite bcast_rows_same.
  - rewrite map_map. apply f_equal. apply map_ext. intros a. apply map2_tab.
  - apply Forall_forall. intros row Hrow. apply in_map_iff in Hrow.
    destruct Hrow as (a & <- & _). now rewrite !tab_length.
Qed.

Lemma at2_map_tab {A : Type} (m : list A) n (F : A -> nat -> R) (i c : nat) (d : A) :
  (i < length m)%nat -> (c < n)%nat ->
  at2 (map (fun a => tab n (F a)) m) i c = F (nth i m d) c.
Proof.
  intros Hi Hc. unfold at2.
  rewrite (nth_indep _ [] (tab n (F d))) by (now rewrite length_map).
  rewrite (map_nth (fun a => tab n (F a))). now apply nth_tab.
Qed.

(** ** The converters on well-formed input *)

(** On a table whose rows have [T] columns, with [T] years, at least
    [T] emission values and a horizon [h < T], [rf_co2eq] returns
    column [c] of every row as the forcing ratio of column [h + c]
    times the emission of index [c]. *)
Lemma rf_co2eq_closed (T h : nat) (fp tp : ndarray2) (years E : ndarray1) :
  Forall (fun row => length row = T) fp -> (2 <= length fp)%nat ->
  length years = T -> (T <= length E)%nat -> (h < T)%nat ->
  rf_co2eq (Z.of_nat h) fp tp years E
  = Ok (map (fun row => tab (T - h - 1)
                          (fun c => nth (h + c) row 0 / nth (h + c) (nth 1 fp []) 0 * nth c E 0)%R) fp,
        Py.range 0 (Z.of_nat (T - h - 1))).
Proof.
  intros Hrows Hfp Hy HE Hh. unfold rf_co2eq.
  change 1%Z with (Z.of_nat 1). rewrite (getitem_nth fp 1 [] Hfp). simpl bind.
  assert (Hsl : forall row, length row = T ->
            Py.slice (Some (Z.of_nat h)) (Some (-1)%Z) row
            = tab (T - h - 1) (fun k => nth (h + k) row 0%R)).
  { intros row Hrow.
    rewrite (slice_tab _ _ row h (T - 1) 0%R).
    - f_equal. lia.
    - unfold Py.adjust, Py.len. rewrite Hrow. destruct (Z.ltb_spec (Z.of_nat h) 0); lia.
    - unfold Py.adjust, Py.len. rewrite Hrow. destruct (Z.ltb_spec (-1) 0); lia.
    - lia. }
  rewrite (map_ext_in _ (fun row => tab (T - h - 1) (fun k => nth (h + k) row 0%R))).
  2:{ intros row Hrow. apply Hsl. rewrite Forall_forall in Hrows. now apply Hrows. }
  rewrite Hsl.
  2:{ rewrite Forall_forall in Hrows. apply Hrows. apply nth_In. lia. }
  rewrite bcast_rows_tab. simpl bind.
  rewrite (slice_tab None _ E 0 (T - h - 1) 0%R).
  - rewrite Nat.sub_0_r. rewrite bcast_rows_tab. simpl bind.
    unfold Py.len. rewrite Hy.
    replace (Z.of_nat T - Z.of_nat h - 1)%Z with (Z.of_nat (T - h - 1)) by lia.
    reflexivity.
  - reflexivity.
  - unfold Py.adjust, Py.len. rewrite Hy.
    destruct (Z.ltb_spec (Z.of_nat T - Z.of_nat h - 1) 0); lia.
  - lia.
Qed.

Lemma map_nth_seq {A B : Type} (h : A -> B) (l : list A) (d : A) :
  map (fun k => h (nth k l d)) (seq 0 (length l)) = map h l.
Proof.
  apply (nth_ext _ _ (h d) (h d)).
  - now rewrite !length_map, length_seq.
  - intros k Hk. rewrite length_map, length_seq in Hk.
    rewrite (map_nth h).
    rewrite (nth_indep _ (h d) (h (nth 0 l d))) by (now rewrite length_map, length_seq).
    rewrite (map_nth (fun k => h (nth k l d)) (seq 0 (length l)) 0%nat).
    now rewrite seq_nth.
Qed.

(** A comprehension over the seven rows. *)
Lemma comprehension_rows {B : Type} (m : ndarray2) (cols : list Z) (G : Z -> ndarray1 -> B) :
  length m = 7%nat ->
  mapM (fun j => mapM (fun i => row <- Py.getitem m j ;; Ok (G i row)) cols) (Py.range 0 7)
  = Ok (map (fun row => map (fun i => G i row) cols) m).
Proof.
  intros Hm.
  rewrite (mapM_pure _ (fun j => map (fun i => G i (nth (Z.to_nat j) m [])) cols)).
  - unfold Py.range. rewrite map_map.
    change (Z.to_nat (7 - 0)) with 7%nat. rewrite <- Hm.
    rewrite <- (map_nth_seq (fun row => map (fun i => G i row) cols) m []).
    apply f_equal. apply map_ext. intros k. now rewrite Z.add_0_l, Nat2Z.id.
  - intros j Hj. unfold Py.range in Hj. apply in_map_iff in Hj.
    destruct Hj as (k & <- & Hk). apply in_seq in Hk.
    change (Z.to_nat (7 - 0)) with 7%nat in Hk.
    apply mapM_pure. intros i _. rewrite Z.add_0_l.
    rewrite (getitem_nth m k []) by lia. simpl. now rewrite Nat2Z.id.
Qed.

Lemma range0_tab (n : Z) (G : Z -> R) :
  map G (Py.range 0 n) = tab (Z.to_nat n) (fun c => G (Z.of_nat c)).
Proof.
  unfold Py.range, tab. rewrite map_map, Z.sub_0_r. reflexivity.
Qed.

(** The sum of a window that lies inside the row. *)
Lemma sum_window (row : ndarray1) (c h : nat) :
  (c + h <= length row)%nat ->
  sum (Py.slice (Some (Z.of_nat c)) (Some (Z.of_nat c + Z.of_nat h)%Z) row)
  = forward_sum h row c.
Proof.
  intros Hc.
  rewrite (slice_tab _ _ row c (c + h) 0%R).
  - replace (c + h - c)%nat with h by lia. apply sum_tab.
  - unfold Py.adjust, Py.len. destruct (Z.ltb_spec (Z.of_nat c) 0); lia.
  - unfold Py.adjust, Py.len.
    destruct (Z.ltb_spec (Z.of_nat c + Z.of_nat h) 0); lia.
  - lia.
Qed.

Lemma agwp_lst_closed (T h : nat) (fp : ndarray2) (years : ndarray1) :
  shape fp 7 T -> length years = T -> (h <= T)%nat ->
  agwp_lst (Z.of_nat h) fp years
  = Ok (map (fun row => tab (T - h) (forward_sum h row)) fp).
Proof.
  intros [Hm Hrows] Hy Hh. unfold agwp_lst.
  rewrite (comprehension_rows fp _ (fun i row => sum (Py.slice (Some i) (Some (i + Z.of_nat h)%Z) row)) Hm).
  apply f_equal. apply map_ext_in. intros row Hrow.
  rewrite Forall_forall in Hrows. specialize (Hrows row Hrow).
  rewrite (range0_tab _ (fun i => sum (Py.slice (Some i) (Some (i + Z.of_nat h)%Z) row))).
  unfold Py.len. rewrite Hy.
  replace (Z.to_nat (Z.of_nat T - Z.of_nat h)) with (T - h)%nat by lia.
  apply tab_ext. intros c Hc. apply sum_window. lia.
Qed.

Lemma getitem_map_tab {A : Type} (m : list A) n (F : A -> nat -> R) (i : nat) (d : A) :
  (i < length m)%nat ->
  Py.getitem (map (fun a => tab n (F a)) m) (Z.of_nat i) = Ok (tab n (F (nth i m d))).
Proof.
  intros Hi. rewrite (getitem_nth _ _ (tab n (F d))) by (now rewrite length_map).
  now rewrite (map_nth (fun a => tab n (F a))).
Qed.

Lemma gwp_co2eq_closed (T h : nat) (fp tp : ndarray2) (years E : ndarray1) :
  shape fp 7 T -> length years = T -> (T <= length E)%nat -> (h <= T)%nat ->
  gwp_co2eq (Z.of_nat h) fp tp years E
  = Ok (map (fun row => tab (T - h)
              (fun c => forward_sum h row c / forward_sum h (nth 1 fp []) c * nth c E 0)%R) fp,
        Py.range 0 (Z.of_nat (T - h))).
Proof.
  intros Hs Hy HE Hh. unfold gwp_co2eq, gwp_lst.
  rewrite (agwp_lst_closed T h fp years Hs Hy Hh). simpl bind.
  destruct Hs as [Hm Hrows].
  change 1%Z with (Z.of_nat 1).
  rewrite (getitem_map_tab fp _ _ 1 []) by lia. simpl bind.
  rewrite bcast_rows_tab. simpl bind.
  unfold Py.len. rewrite Hy.
  replace (Z.of_nat T - Z.of_nat h)%Z with (Z.of_nat (T - h)) by lia.
  rewrite (take_range E 0 _ 0%R) by (unfold Py.len; lia). simpl bind.
  rewrite Z.sub_0_r, Nat2Z.id. simpl (Z.to_nat 0 + _)%nat.
  rewrite bcast_rows_tab. reflexivity.
Qed.

Lemma gtp_co2eq_closed (T h : nat) (fp tp : ndarray2) (years E : ndarray1) :
  Forall (fun row => length row = T) tp -> (2 <= length tp)%nat ->
  length years = T -> (T <= length E)%nat -> (h <= T)%nat ->
  gtp_co2eq (Z.of_nat h) fp tp years E
  = Ok (map (fun row => tab (T - h)
                          (fun c => nth (h + c) row 0 / nth (h + c) (nth 1 tp []) 0 * nth c E 0)%R) tp,
        Py.range 0 (Z.of_nat (T - h))).
Proof.
  intros Hrows Htp Hy HE Hh. unfold gtp_co2eq.
  change 1%Z with (Z.of_nat 1). rewrite (getitem_nth tp 1 [] Htp). simpl bind.
  assert (Hsl : forall row, length row = T ->
            Py.slice (Some (Z.of_nat h)) None row
            = tab (T - h) (fun k => nth (h + k) row 0%R)).
  { intros row Hrow.
    rewrite (slice_tab _ _ row h T 0%R).
    - reflexivity.
    - unfold Py.adjust, Py.len. rewrite Hrow. destruct (Z.ltb_spec (Z.of_nat h) 0); lia.
    - unfold Py.len. now rewrite Hrow.
    - lia. }
  rewrite (map_ext_in _ (fun row => tab (T - h) (fun k => nth (h + k) row 0%R))).
  2:{ intros row Hrow. apply Hsl. rewrite Forall_forall in Hrows. now apply Hrows. }
  rewrite Hsl.
  2:{ rewrite Forall_forall in Hrows. apply Hrows. apply nth_In. lia. }
  rewrite bcast_rows_tab. simpl bind.
  rewrite (slice_tab None _ E 0 (T - h) 0%R).
  - rewrite Nat.sub_0_r. rewrite bcast_rows_tab. simpl bind.
    unfold Py.len. rewrite Hy.
    replace (Z.of_nat T - Z.of_nat h)%Z with (Z.of_nat (T - h)) by lia.
    reflexivity.
  - reflexivity.
  - unfold Py.adjust, Py.len. rewrite Hy.
    destruct (Z.ltb_spec (Z.of_nat T - Z.of_nat h) 0); lia.
  - lia.
Qed.

Lemma atr_lst_closed (T h : nat) (tp : ndarray2) (years : ndarray1) :
  shape tp 7 T -> length years = T -> (h <= T)%nat ->
  atr_lst (Z.of_nat h) tp years
  = Ok (map (fun row => tab (T - h) (fun c => forward_sum h row c / IZR (Z.of_nat h))%R) tp).
Proof.
  intros [Hm Hrows] Hy Hh. unfold atr_lst.
  rewrite (comprehension_rows tp _
             (fun i row => sum (Py.slice (Some i) (Some (i + Z.of_nat h)%Z) row) / IZR (Z.of_nat h))%R Hm).
  apply f_equal. apply map_ext_in. intros row Hrow.
  rewrite Forall_forall in Hrows. specialize (Hrows row Hrow).
  rewrite (range0_tab _ (fun i => sum (Py.slice (Some i) (Some (i + Z.of_nat h)%Z) row)
                                  / IZR (Z.of_nat h))%R).
  unfold Py.len. rewrite Hy.
  replace (Z.to_nat (Z.of_nat T - Z.of_nat h)) with (T - h)%nat by lia.
  apply tab_ext. intros c Hc. rewrite sum_window by lia. reflexivity.
Qed.

Lemma atr_co2eq_closed (T h : nat) (fp tp : ndarray2) (years E : ndarray1) :
  shape tp 7 T -> length years = T -> (T <= length E)%nat -> (h <= T)%nat ->
  atr_co2eq (Z.of_nat h) fp tp years E
  = Ok (map (fun row => tab (T - h)
              (fun c => forward_sum h row c / IZR (Z.of_nat h)
                        / (forward_sum h (nth 1 tp []) c / IZR (Z.of_nat h)) * nth c E 0)%R) tp,
        Py.range 0 (Z.of_nat (T - h))).
Proof.
  intros Hs Hy HE Hh. unfold atr_co2eq, atrp_lst.
  rewrite (atr_lst_closed T h tp years Hs Hy Hh). simpl bind.
  destruct Hs as [Hm Hrows].
  change 1%Z with (Z.of_nat 1).
  rewrite (getitem_map_tab tp _ _ 1 []) by lia. simpl bind.
  rewrite bcast_rows_tab. simpl bind.
  unfold Py.len. rewrite Hy.
  replace (Z.of_nat T - Z.of_nat h)%Z with (Z.of_nat (T - h)) by lia.
  rewrite (take_range E 0 _ 0%R) by (unfold Py.len; lia). simpl bind.
  rewrite Z.sub_0_r, Nat2Z.id. simpl (Z.to_nat 0 + _)%nat.
  rewrite bcast_rows_tab. reflexivity.
Qed.

(** An array of seven rows, row by row. *)
Lemma seven_rows (m : ndarray2) :
  length m = 7%nat ->
  m = [nth 0 m []; nth 1 m []; nth 2 m []; nth 3 m []; nth 4 m []; nth 5 m []; nth 6 m []].
Proof.
  intros Hm.
  do 7 (destruct m as [|? m]; [discriminate|]).
  destruct m; [reflexivity|discriminate].
Qed.

Lemma repeat_tab (x : R) (n : nat) : repeat x n = tab n (fun _ => x).
Proof.
  apply (nth_ext _ _ x x).
  - now rewrite repeat_length, tab_length.
  - intros k Hk. rewrite repeat_length in Hk.
    rewrite nth_repeat, nth_tab by exact Hk. reflexivity.
Qed.

(** [set_total] on seven tabulated rows. *)
Lemma set_total_tab (n : nat) (f0 f1 f2 f3 f4 f5 f6 : nat -> R) :
  set_total [tab n f0; tab n f1; tab n f2; tab n f3; tab n f4; tab n f5; tab n f6]
  = [tab n (fun c => (0 + f1 c + f2 c + f3 c + f4 c + f5 c + f6 c)%R);
     tab n f1; tab n f2; tab n f3; tab n f4; tab n f5; tab n f6].
Proof.
  unfold set_total, sum_axis0. simpl. rewrite tab_length, repeat_tab.
  rewrite !map2_tab. reflexivity.
Qed.

(** [scale_species] on seven tabulated rows. *)
Lemma scale_species_tab (n : nat) (f0 f1 f2 f3 f4 f5 f6 : nat -> R) :
  scale_species [tab n f0; tab n f1; tab n f2; tab n f3; tab n f4; tab n f5; tab n f6]
  = Ok [tab n f0;
        tab n (fun c => (f1 c * 1)%R); tab n (fun c => (f2 c * 1.14)%R);
        tab n (fun c => (f3 c * 1.37)%R); tab n (fun c => (f4 c * 1.18)%R);
        tab n (fun c => (f5 c * 0.59)%R); tab n (fun c => (f6 c * 1)%R)].
Proof.
  unfold scale_species, efficacies. simpl. rewrite !map_tab. reflexivity.
Qed.

(** Broadcasting on seven tabulated rows. *)
Lemma bcast_rows_tab7 op (n : nat) (f0 f1 f2 f3 f4 f5 f6 v : nat -> R) :
  bcast_rows op [tab n f0; tab n f1; tab n f2; tab n f3; tab n f4; tab n f5; tab n f6] (tab n v)
  = Ok [tab n (fun c => op (f0 c) (v c)); tab n (fun c => op (f1 c) (v c));
        tab n (fun c => op (f2 c) (v c)); tab n (fun c => op (f3 c) (v c));
        tab n (fun c => op (f4 c) (v c)); tab n (fun c => op (f5 c) (v c));
        tab n (fun c => op (f6 c) (v c))].
Proof. exact (bcast_rows_tab op [f0; f1; f2; f3; f4; f5; f6] n (fun f => f) v). Qed.

Lemma getitem_1 {A : Type} (a b : A) (l : list A) : Py.getitem (a :: b :: l) 1 = Ok b.
Proof. reflexivity. Qed.

Lemma aegwp_scaled_closed (T h : nat) (fp : ndarray2) (years : ndarray1) :
  shape fp 7 T -> length years = T -> (h <= T)%nat ->
  let w i := forward_sum h (nth i fp []) in
  aegwp_scaled (Z.of_nat h) fp years
  = Ok [tab (T - h) (w 0%nat);
        tab (T - h) (fun c => (w 1%nat c * 1)%R);
        tab (T - h) (fun c => (w 2%nat c * 1.14)%R);
        tab (T - h) (fun c => (w 3%nat c * 1.37)%R);
        tab (T - h) (fun c => (w 4%nat c * 1.18)%R);
        tab (T - h) (fun c => (w 5%nat c * 0.59)%R);
        tab (T - h) (fun c => (w 6%nat c * 1)%R)].
Proof.
  intros Hs Hy Hh w. unfold aegwp_scaled.
  rewrite (agwp_lst_closed T h fp years Hs Hy Hh). cbn [bind].
  destruct Hs as [Hm _]. rewrite (seven_rows fp Hm) at 1. cbn [map].
  apply (scale_species_tab (T - h)).
Qed.

Lemma egwp_co2eq_closed (T h : nat) (fp tp : ndarray2) (years E : ndarray1) :
  shape fp 7 T -> length years = T -> (T <= length E)%nat -> (h <= T)%nat ->
  let w i c := forward_sum h (nth i fp []) c in
  let total c := (0 + w 1%nat c * 1 + w 2%nat c * 1.14 + w 3%nat c * 1.37
                  + w 4%nat c * 1.18 + w 5%nat c * 0.59 + w 6%nat c * 1)%R in
  egwp_co2eq (Z.of_nat h) fp tp years E
  = Ok ([tab (T - h) (fun c => (total c / (w 1%nat c * 1) * nth c E 0)%R);
         tab (T - h) (fun c => (w 1%nat c * 1 / (w 1%nat c * 1) * nth c E 0)%R);
         tab (T - h) (fun c => (w 2%nat c * 1.14 / (w 1%nat c * 1) * nth c E 0)%R);
         tab (T - h) (fun c => (w 3%nat c * 1.37 / (w 1%nat c * 1) * nth c E 0)%R);
         tab (T - h) (fun c => (w 4%nat c * 1.18 / (w 1%nat c * 1) * nth c E 0)%R);
         tab (T - h) (fun c => (w 5%nat c * 0.59 / (w 1%nat c * 1) * nth c E 0)%R);
         tab (T - h) (fun c => (w 6%nat c * 1 / (w 1%nat c * 1) * nth c E 0)%R)],
        Py.range 0 (Z.of_nat (T - h))).
Proof.
  intros Hs Hy HE Hh w total. unfold egwp_co2eq.
  rewrite (aegwp_scaled_closed T h fp years Hs Hy Hh). cbn [bind].
  rewrite set_total_tab, getitem_1. cbn [bind].
  rewrite bcast_rows_tab7. cbn [bind].
  unfold Py.len. rewrite Hy.
  replace (Z.of_nat T - Z.of_nat h)%Z with (Z.of_nat (T - h)) by lia.
  rewrite (take_range E 0 _ 0%R) by (unfold Py.len; lia). cbn [bind].
  rewrite Z.sub_0_r, Nat2Z.id. cbn [Z.to_nat Nat.add].
  rewrite bcast_rows_tab7. reflexivity.
Qed.

(** *** GWP* and EGWP* *)

Lemma take_cols_range (T : nat) (m : ndarray2) (a b : Z) :
  Forall (fun row => length row = T) m -> (0 <= a)%Z -> (b <= Z.of_nat T)%Z ->
  take_cols m (Py.range a b)
  = Ok (map (fun row => tab (Z.to_nat (b - a)) (fun k => nth (Z.to_nat a + k) row 0%R)) m).
Proof.
  intros Hrows Ha Hb. unfold take_cols. apply mapM_pure.
  intros row Hrow. rewrite Forall_forall in Hrows. specialize (Hrows row Hrow).
  apply take_range; [exact Ha|]. unfold Py.len. now rewrite Hrows.
Qed.

Lemma bcast2_tab {A : Type} op (m : list A) n (F F' : A -> nat -> R) :
  bcast2 op (map (fun a => tab n (F a)) m) (map (fun a => tab n (F' a)) m)
  = Ok (map (fun a => tab n (fun k => op (F a k) (F' a k))) m).
Proof.
  unfold bcast2. rewrite !length_map, Nat.eqb_refl.
  assert (Hc : @combine (list R) (list R)
                 (map (fun a => tab n (F a)) m) (map (fun a => tab n (F' a)) m)
               = map (fun a => (tab n (F a), tab n (F' a))) m).
  { induction m as [|a m IH]; simpl; [reflexivity|now rewrite IH]. }
  rewrite Hc.
  rewrite (mapM_pure _ (fun p => map2 op (fst p) (snd p))).
  - rewrite map_map. apply f_equal. apply map_ext. intros a. apply map2_tab.
  - intros p Hp. apply in_map_iff in Hp. destruct Hp as (a & <- & _).
    apply bcast1_same. cbn [fst snd]. now rewrite !tab_length.
Qed.

Lemma scalar_tab {A : Type} (f : R -> R) (m : list A) n (F : A -> nat -> R) :
  scalar f (map (fun a => tab n (F a)) m) = map (fun a => tab n (fun k => f (F a k))) m.
Proof.
  unfold scalar. rewrite map_map. apply map_ext. intros a. apply map_tab.
Qed.

Lemma gwps_formula_closed (T h : nat) (fp : ndarray2) (years agwph_co2 : ndarray1) :
  shape fp 7 T -> length years = T -> (1 <= h <= length agwph_co2)%nat ->
  gwps_formula (Z.of_nat h) fp years agwph_co2
  = Ok (map (fun row => tab (T - 20)
                          (gwps_entry (Z.of_nat h) (nth (h - 1) agwph_co2 0 * 1e9)%R row)) fp,
        Py.range 20 (Z.of_nat T)).
Proof.
  intros [Hm Hrows] Hy Hh. unfold gwps_formula.
  change 0%Z with (Z.of_nat 0) at 1.
  rewrite (getitem_nth fp 0 []) by lia. cbn [bind].
  assert (H0 : Py.len (nth 0 fp []) = Z.of_nat T).
  { unfold Py.len. f_equal. rewrite Forall_forall in Hrows. apply Hrows. apply nth_In. lia. }
  rewrite H0.
  replace (Z.of_nat h - 1)%Z with (Z.of_nat (h - 1)) by lia.
  rewrite (getitem_nth agwph_co2 (h - 1) 0%R) by lia. cbn [bind].
  unfold Py.len. rewrite Hy. unfold dt.
  rewrite (take_cols_range T fp 20 _ Hrows) by lia. cbn [bind].
  rewrite (take_cols_range T fp 0 _ Hrows) by lia. cbn [bind].
  replace (Z.to_nat (Z.of_nat T - 20 - 0)) with (T - 20)%nat by lia.
  replace (Z.to_nat (Z.of_nat T - 20)) with (T - 20)%nat by lia.
  rewrite bcast2_tab. cbn [bind].
  match goal with
  | |- context [mapM ?f (Py.range 0 7)] =>
      assert (HF : mapM f (Py.range 0 7)
                   = Ok (map (fun row => tab (T - 20)
                           (fun c => big_sum 20 (fun j => nth (c + 1 + j) row 0) / 20)%R) fp))
  end.
  { rewrite (comprehension_rows fp _
               (fun i row => Py.sum (Py.slice (Some (i - 20 + 1)%Z) (Some (i + 1)%Z) row) / 20)%R Hm).
    apply f_equal. apply map_ext_in.
    intros row Hrow. rewrite Forall_forall in Hrows. specialize (Hrows row Hrow).
    unfold Py.range, tab. rewrite map_map.
    replace (Z.to_nat (Z.of_nat T - 20)) with (T - 20)%nat by lia.
    apply map_ext_in. intros c Hc. apply in_seq in Hc.
    rewrite (slice_tab _ _ row (c + 1) (c + 21) 0%R).
    - replace (c + 21 - (c + 1))%nat with 20%nat by lia.
      change (Py.sum ?l) with (sum l). now rewrite sum_tab.
    - unfold Py.adjust, Py.len.
      destruct (Z.ltb_spec (20 + Z.of_nat c - 20 + 1) 0); lia.
    - unfold Py.adjust, Py.len.
      destruct (Z.ltb_spec (20 + Z.of_nat c + 1) 0); lia.
    - lia. }
  rewrite HF. cbn [bind].
  rewrite !scalar_tab. rewrite bcast2_tab. cbn [bind]. rewrite scalar_tab.
  reflexivity.
Qed.

(** The CO2 row of seven tabulated rows is overwritten. *)
Lemma assign_row1_tab (n : nat) (f0 f1 f2 f3 f4 f5 f6 e : nat -> R) :
  assign_row [tab n f0; tab n f1; tab n f2; tab n f3; tab n f4; tab n f5; tab n f6] 1 (tab n e)
  = Ok [tab n f0; tab n e; tab n f2; tab n f3; tab n f4; tab n f5; tab n f6].
Proof.
  unfold assign_row. simpl. rewrite !tab_length, Nat.eqb_refl. reflexivity.
Qed.

Lemma gwps_co2eq_closed (T h : nat) (fp tp : ndarray2) (years E agwph_co2 : ndarray1) :
  shape fp 7 T -> length years = T -> (T <= length E)%nat ->
  (1 <= h <= length agwph_co2)%nat ->
  let v i := gwps_entry (Z.of_nat h) (nth (h - 1) agwph_co2 0 * 1e9)%R (nth i fp []) in
  let e c := nth (20 + c) E 0%R in
  gwps_co2eq (Z.of_nat h) fp tp years E agwph_co2
  = Ok ([tab (T - 20)
           (fun c => (0 + e c + v 2%nat c + v 3%nat c + v 4%nat c + v 5%nat c + v 6%nat c)%R);
         tab (T - 20) e; tab (T - 20) (v 2%nat); tab (T - 20) (v 3%nat);
         tab (T - 20) (v 4%nat); tab (T - 20) (v 5%nat); tab (T - 20) (v 6%nat)],
        Py.range 20 (Z.of_nat T)).
Proof.
  intros Hs Hy HE Hh v e. unfold gwps_co2eq.
  rewrite (gwps_formula_closed T h fp years agwph_co2 Hs Hy Hh). cbn [bind].
  destruct Hs as [Hm Hrows].
  rewrite (take_range E 20 _ 0%R) by (unfold Py.len; lia). cbn [bind].
  replace (Z.to_nat (Z.of_nat T - 20)) with (T - 20)%nat by lia.
  change (Z.to_nat 20) with 20%nat.
  rewrite (seven_rows fp Hm) at 1. cbn [map].
  rewrite assign_row1_tab. cbn [bind]. rewrite set_total_tab. reflexivity.
Qed.

Lemma egwps_co2eq_closed (T h : nat) (fp tp : ndarray2) (years E agwph_co2 : ndarray1) :
  shape fp 7 T -> length years = T -> (T <= length E)%nat ->
  (1 <= h <= length agwph_co2)%nat ->
  let v i := gwps_entry (Z.of_nat h) (nth (h - 1) agwph_co2 0 * 1e9)%R (nth i fp []) in
  let e c := nth (20 + c) E 0%R in
  egwps_co2eq (Z.of_nat h) fp tp years E agwph_co2
  = Ok ([tab (T - 20)
           (fun c => (0 + e c * 1 + v 2%nat c * 1.14 + v 3%nat c * 1.37 + v 4%nat c * 1.18
                      + v 5%nat c * 0.59 + v 6%nat c * 1)%R);
         tab (T - 20) (fun c => (e c * 1)%R);
         tab (T - 20) (fun c => (v 2%nat c * 1.14)%R);
         tab (T - 20) (fun c => (v 3%nat c * 1.37)%R);
         tab (T - 20) (fun c => (v 4%nat c * 1.18)%R);
         tab (T - 20) (fun c => (v 5%nat c * 0.59)%R);
         tab (T - 20) (fun c => (v 6%nat c * 1)%R)],
        Py.range 20 (Z.of_nat T)).
Proof.
  intros Hs Hy HE Hh v e. unfold egwps_co2eq.
  rewrite (gwps_formula_closed T h fp years agwph_co2 Hs Hy Hh). cbn [bind].
  destruct Hs as [Hm Hrows].
  rewrite (take_range E 20 _ 0%R) by (unfold Py.len; lia). cbn [bind].
  replace (Z.to_nat (Z.of_nat T - 20)) with (T - 20)%nat by lia.
  change (Z.to_nat 20) with 20%nat.
  rewrite (seven_rows fp Hm) at 1. cbn [map].
  rewrite assign_row1_tab. cbn [bind].
  rewrite scale_species_tab. cbn [bind]. rewrite set_total_tab. reflexivity.
Qed.

(** ** Properties of the specification *)

(** *** RFI: the value of a column *)

(** C2, as stated, fails.  With [T = 5] and [H = 1] the index [t = 1]
    lies in [[H, T-2)]; for the species row 2 the claimed value is
    [RF_2[1] / RF_CO2[1] * CO2emissions[1] = 40].  The returned array
    holds neither in the column that the returned indices label 1
    (there it is [RF_2[2] / RF_CO2[2] * CO2emissions[1] = 120]) nor in
    the column [t - H = 0] that is computed from [RF[1]] (there it is
    [RF_2[1] / RF_CO2[1] * CO2emissions[0] = 20]). *)
Lemma rf_co2eq_same_year_counterexample :
  exists out,
    rf_co2eq 1 rfi_forcing [] rfi_years rfi_emissions = Ok (out, [0; 1; 2]%Z)
    /\ at2 out 2 1
       <> (at2 rfi_forcing 2 1 / at2 rfi_forcing 1 1 * nth 1 rfi_emissions 0)%R
    /\ at2 out 2 0
       <> (at2 rfi_forcing 2 1 / at2 rfi_forcing 1 1 * nth 1 rfi_emissions 0)%R.
Proof.
  eexists. split; [|split].
  - cbv -[Rdiv Rmult Rplus Rminus IZR]. reflexivity.
  - cbv -[Rdiv Rmult Rplus Rminus IZR]. intros Hc. lra.
  - cbv -[Rdiv Rmult Rplus Rminus IZR]. intros Hc. lra.
Qed.

(** C2, amended: on a well-formed input, [rf_co2eq] returns the year
    indices [0 .. T-H-2], and for every species row [i] and every
    forcing index [t] in [[H, T-1)] the column [t - H] of row [i] is
    [RF_i[t] / RF_CO2[t] * CO2emissions[t - H]]: the forcing is read [H]
    years after the emission it multiplies. *)
Theorem rf_co2eq_value (T : nat) (H : Z) (forcing_profiles temperature_profiles : ndarray2)
    (years CO2_emissions : ndarray1) :
  shape forcing_profiles 7 T -> length years = T -> (T <= length CO2_emissions)%nat ->
  (0 < H < Z.of_nat T)%Z ->
  exists out,
    rf_co2eq H forcing_profiles temperature_profiles years CO2_emissions
    = Ok (out, Py.range 0 (Z.of_nat T - H - 1))
    /\ forall i t, (i < 7)%nat -> (Z.to_nat H <= t < T - 1)%nat ->
         at2 out i (t - Z.to_nat H)
         = (at2 forcing_profiles i t / at2 forcing_profiles 1 t
            * nth (t - Z.to_nat H) CO2_emissions 0)%R.
Proof.
  intros [Hm Hrows] Hy HE HH.
  set (h := Z.to_nat H). replace H with (Z.of_nat h) by lia.
  rewrite (rf_co2eq_closed T h forcing_profiles temperature_profiles years CO2_emissions)
    by (try assumption; lia).
  eexists. split.
  - replace (Z.of_nat T - Z.of_nat h - 1)%Z with (Z.of_nat (T - h - 1)) by lia.
    reflexivity.
  - intros i t Hi Ht.
    rewrite (at2_map_tab forcing_profiles _ _ i _ []) by lia.
    unfold at2. replace (h + (t - h))%nat with t by lia. reflexivity.
Qed.

Lemma rf_co2eq_value_witness :
  exists out,
    rf_co2eq 1 rfi_forcing [] rfi_years rfi_emissions = Ok (out, Py.range 0 (Z.of_nat 5 - 1 - 1))
    /\ forall i t, (i < 7)%nat -> (Z.to_nat 1 <= t < 5 - 1)%nat ->
         at2 out i (t - Z.to_nat 1)
         = (at2 rfi_forcing i t / at2 rfi_forcing 1 t * nth (t - Z.to_nat 1) rfi_emissions 0)%R.
Proof.
  apply (rf_co2eq_value 5 1 rfi_forcing [] rfi_years rfi_emissions).
  - split; [reflexivity|repeat constructor].
  - reflexivity.
  - simpl; lia.
  - lia.
Defined.

(** *** RFI: the length of the output *)

(** C8: for a forcing table with [T] columns (aligned with [T] years and
    at least [T] emission values) and a horizon [0 < H < T - 1],
    [rf_co2eq] returns an array whose rows have exactly [T - H - 1]
    columns, and exactly [T - H - 1] year indices. *)
Theorem rf_co2eq_length (T : nat) (H : Z) (forcing_profiles temperature_profiles : ndarray2)
    (years CO2_emissions : ndarray1) :
  shape forcing_profiles 7 T -> length years = T -> (T <= length CO2_emissions)%nat ->
  (0 < H < Z.of_nat T - 1)%Z ->
  exists out idx,
    rf_co2eq H forcing_profiles temperature_profiles years CO2_emissions = Ok (out, idx)
    /\ shape out 7 (Z.to_nat (Z.of_nat T - H - 1))
    /\ Py.len idx = (Z.of_nat T - H - 1)%Z.
Proof.
  intros [Hm Hrows] Hy HE HH.
  set (h := Z.to_nat H). replace H with (Z.of_nat h) by lia.
  rewrite (rf_co2eq_closed T h forcing_profiles temperature_profiles years CO2_emissions)
    by (try assumption; lia).
  do 2 eexists. split; [reflexivity|]. split; [split|].
  - now rewrite length_map.
  - apply Forall_forall. intros row Hrow. apply in_map_iff in Hrow.
    destruct Hrow as (r & <- & _). rewrite tab_length. lia.
  - unfold Py.len. rewrite range_length. lia.
Qed.

Lemma rf_co2eq_length_witness :
  exists out idx,
    rf_co2eq 100 (repeat (repeat 1%R 200) 7) [] (repeat 0%R 200) (repeat 1%R 200) = Ok (out, idx)
    /\ shape out 7 99
    /\ Py.len idx = 99%Z.
Proof.
  apply (rf_co2eq_length 200 100 (repeat (repeat 1%R 200) 7) [] (repeat 0%R 200) (repeat 1%R 200)).
  - split; [reflexivity|]. apply Forall_forall. intros row Hrow.
    apply repeat_spec in Hrow. subst row. apply repeat_length.
  - apply repeat_length.
  - rewrite repeat_length. apply Nat.le_refl.
  - lia.
Defined.

(** *** The total row of the ratio metrics *)

Lemma at2_cons (r : ndarray1) (m : ndarray2) (i c : nat) :
  at2 (r :: m) (S i) c = at2 m i c.
Proof. reflexivity. Qed.

Lemma at2_tab (n : nat) (f : nat -> R) (m : ndarray2) (c : nat) :
  (c < n)%nat -> at2 (tab n f :: m) 0 c = f c.
Proof. intros Hc. unfold at2. cbn [nth]. now apply nth_tab. Qed.

(** Entry [c] of each of seven tabulated rows. *)
Ltac at2_rows :=
  unfold species_sum;
  repeat (rewrite ?at2_cons; rewrite at2_tab by lia).

Lemma forward_sum_total (T h c : nat) (m : ndarray2) :
  total_is_sum m T -> (c + h <= T)%nat ->
  forward_sum h (nth 0 m []) c
  = (forward_sum h (nth 1 m []) c + forward_sum h (nth 2 m []) c
     + forward_sum h (nth 3 m []) c + forward_sum h (nth 4 m []) c
     + forward_sum h (nth 5 m []) c + forward_sum h (nth 6 m []) c)%R.
Proof.
  intros Hsum Hc. unfold forward_sum.
  rewrite <- !big_sum_plus. apply big_sum_ext. intros k Hk.
  apply (Hsum (c + k)%nat). lia.
Qed.

(** The generic converters at the real numbers are the converters
    defined above. *)
Lemma generic_at_reals (H : Z) (fp tp : ndarray2) (years E : ndarray1) :
  Generic.rf_co2eq real_arithmetic H fp tp years E = rf_co2eq H fp tp years E
  /\ Generic.gwp_co2eq real_arithmetic H fp tp years E = gwp_co2eq H fp tp years E
  /\ Generic.egwp_co2eq real_arithmetic H fp tp years E = egwp_co2eq H fp tp years E
  /\ Generic.gtp_co2eq real_arithmetic H fp tp years E = gtp_co2eq H fp tp years E
  /\ Generic.atr_co2eq real_arithmetic H fp tp years E = atr_co2eq H fp tp years E.
Proof. repeat split; reflexivity. Qed.

(** C3, as stated, fails where the CO2 response is zero.  In the table
    [Float64.zero_co2_table] row 0 is the sum of rows 1 to 6 in every
    year and the CO2 forcing of the second year is 0.  With [H = 1], in
    binary64, each of the five converters returns, in the column that is
    divided by that zero, an infinity in row 0 (2/0, or 2.28/0 for EGWP)
    and a NaN in the CO2 row (0/0): the sum of rows 1 to 6 is NaN and
    is not equal to row 0. *)
Lemma ratio_metrics_total_counterexample :
  (forall t, (t < 3)%nat -> Float64.total_eqb Float64.zero_co2_table t = true)
  /\ exists out_rf out_gwp out_egwp out_gtp out_atr,
       Generic.rf_co2eq Float64.arith 1 Float64.zero_co2_table Float64.zero_co2_table
         Float64.three_years Float64.ten_emissions = Ok (out_rf, [0]%Z)
       /\ Float64.total_eqb out_rf 0 = false
       /\ Generic.gwp_co2eq Float64.arith 1 Float64.zero_co2_table Float64.zero_co2_table
            Float64.three_years Float64.ten_emissions = Ok (out_gwp, [0; 1]%Z)
       /\ Float64.total_eqb out_gwp 1 = false
       /\ Generic.egwp_co2eq Float64.arith 1 Float64.zero_co2_table Float64.zero_co2_table
            Float64.three_years Float64.ten_emissions = Ok (out_egwp, [0; 1]%Z)
       /\ Float64.total_eqb out_egwp 1 = false
       /\ Generic.gtp_co2eq Float64.arith 1 Float64.zero_co2_table Float64.zero_co2_table
            Float64.three_years Float64.ten_emissions = Ok (out_gtp, [0; 1]%Z)
       /\ Float64.total_eqb out_gtp 0 = false
       /\ Generic.atr_co2eq Float64.arith 1 Float64.zero_co2_table Float64.zero_co2_table
            Float64.three_years Float64.ten_emissions = Ok (out_atr, [0; 1]%Z)
       /\ Float64.total_eqb out_atr 1 = false.
Proof.
  split.
  - intros t Ht. do 3 (destruct t as [|t]; [vm_compute; reflexivity|]). lia.
  - do 5 eexists. repeat split; vm_compute; reflexivity.
Qed.

(** C3, amended: when row 0 of the forcing table and of the temperature
    table is the sum of the species rows, each of [rf_co2eq],
    [gwp_co2eq], [egwp_co2eq], [gtp_co2eq] and [atr_co2eq] returns, with
    the year indices of its valid range, an array of seven rows whose
    row 0 is the sum of rows 1 to 6 in every returned column where the
    CO2 response that the column is divided by is not zero. *)
Theorem ratio_metrics_total (T : nat) (H : Z) (forcing_profiles temperature_profiles : ndarray2)
    (years CO2_emissions : ndarray1) :
  shape forcing_profiles 7 T -> shape temperature_profiles 7 T ->
  length years = T -> (T <= length CO2_emissions)%nat -> (0 < H < Z.of_nat T)%Z ->
  total_is_sum forcing_profiles T -> total_is_sum temperature_profiles T ->
  let h := Z.to_nat H in
  returns_total_where (T - h - 1) (fun c => at2 forcing_profiles 1 (h + c))
    (rf_co2eq H forcing_profiles temperature_profiles years CO2_emissions)
  /\ returns_total_where (T - h) (forward_sum h (nth 1 forcing_profiles []))
       (gwp_co2eq H forcing_profiles temperature_profiles years CO2_emissions)
  /\ returns_total_where (T - h) (forward_sum h (nth 1 forcing_profiles []))
       (egwp_co2eq H forcing_profiles temperature_profiles years CO2_emissions)
  /\ returns_total_where (T - h) (fun c => at2 temperature_profiles 1 (h + c))
       (gtp_co2eq H forcing_profiles temperature_profiles years CO2_emissions)
  /\ returns_total_where (T - h)
       (fun c => (forward_sum h (nth 1 temperature_profiles []) c / IZR H)%R)
       (atr_co2eq H forcing_profiles temperature_profiles years CO2_emissions).
Proof.
  intros Hf Ht Hy HE HH Sf St h.
  replace H with (Z.of_nat h) by (subst h; lia).
  assert (Hh : (h < T)%nat) by (subst h; lia).
  pose proof Hf as [Hfm Hfrows]. pose proof Ht as [Htm Htrows].
  assert (Hmap : forall (m : ndarray2) n (F : ndarray1 -> nat -> R),
            length m = 7%nat -> shape (map (fun row => tab n (F row)) m) 7 n).
  { intros m n F Hm. split; [now rewrite length_map|].
    apply Forall_forall. intros row Hrow. apply in_map_iff in Hrow.
    destruct Hrow as (r & <- & _). apply tab_length. }
  unfold returns_total_where. repeat split.
  - rewrite (rf_co2eq_closed T h forcing_profiles temperature_profiles years CO2_emissions)
      by (try assumption; lia).
    eexists. split; [reflexivity|]. split; [now apply Hmap|].
    intros c Hc _. unfold species_sum.
    rewrite !(at2_map_tab forcing_profiles _ _ _ _ []) by lia.
    specialize (Sf (h + c)%nat). unfold species_sum, at2 in Sf.
    rewrite Sf by lia. unfold Rdiv. ring.
  - rewrite (gwp_co2eq_closed T h forcing_profiles temperature_profiles years CO2_emissions)
      by (try assumption; lia).
    eexists. split; [reflexivity|]. split; [now apply Hmap|].
    intros c Hc _. unfold species_sum.
    rewrite !(at2_map_tab forcing_profiles _ _ _ _ []) by lia.
    rewrite (forward_sum_total T h c forcing_profiles Sf) by lia.
    unfold Rdiv. ring.
  - rewrite (egwp_co2eq_closed T h forcing_profiles temperature_profiles years CO2_emissions)
      by (try assumption; lia).
    eexists. split; [reflexivity|].
    split; [split; [reflexivity|repeat constructor; apply tab_length]|].
    intros c Hc _. at2_rows. unfold Rdiv. ring.
  - rewrite (gtp_co2eq_closed T h forcing_profiles temperature_profiles years CO2_emissions)
      by (try assumption; lia).
    eexists. split; [reflexivity|]. split; [now apply Hmap|].
    intros c Hc _. unfold species_sum.
    rewrite !(at2_map_tab temperature_profiles _ _ _ _ []) by lia.
    specialize (St (h + c)%nat). unfold species_sum, at2 in St.
    rewrite St by lia. unfold Rdiv. ring.
  - rewrite (atr_co2eq_closed T h forcing_profiles temperature_profiles years CO2_emissions)
      by (try assumption; lia).
    eexists. split; [reflexivity|]. split; [now apply Hmap|].
    intros c Hc _. unfold species_sum.
    rewrite !(at2_map_tab temperature_profiles _ _ _ _ []) by lia.
    rewrite (forward_sum_total T h c temperature_profiles St) by lia.
    unfold Rdiv. ring.
Qed.

Lemma ratio_metrics_total_witness :
  returns_total_where (5 - Z.to_nat 1 - 1) (fun c => at2 rfi_forcing 1 (Z.to_nat 1 + c))
    (rf_co2eq 1 rfi_forcing rfi_forcing rfi_years rfi_emissions)
  /\ returns_total_where (5 - Z.to_nat 1) (forward_sum (Z.to_nat 1) (nth 1 rfi_forcing []))
       (gwp_co2eq 1 rfi_forcing rfi_forcing rfi_years rfi_emissions)
  /\ returns_total_where (5 - Z.to_nat 1) (forward_sum (Z.to_nat 1) (nth 1 rfi_forcing []))
       (egwp_co2eq 1 rfi_forcing rfi_forcing rfi_years rfi_emissions)
  /\ returns_total_where (5 - Z.to_nat 1) (fun c => at2 rfi_forcing 1 (Z.to_nat 1 + c))
       (gtp_co2eq 1 rfi_forcing rfi_forcing rfi_years rfi_emissions)
  /\ returns_total_where (5 - Z.to_nat 1)
       (fun c => (forward_sum (Z.to_nat 1) (nth 1 rfi_forcing []) c / IZR 1)%R)
       (atr_co2eq 1 rfi_forcing rfi_forcing rfi_years rfi_emissions).
Proof.
  assert (Hsum : total_is_sum rfi_forcing 5).
  { intros t Ht. do 5 (destruct t as [|t]; [cbv -[Rplus IZR]; lra|]). lia. }
  apply (ratio_metrics_total 5 1 rfi_forcing rfi_forcing rfi_years rfi_emissions).
  - split; [reflexivity|repeat constructor].
  - split; [reflexivity|repeat constructor].
  - reflexivity.
  - simpl; lia.
  - lia.
  - exact Hsum.
  - exact Hsum.
Defined.

(** *** The CO2 row of GWP and ATR *)

(** C7: when the CO2 response (the forward forcing sum for GWP, the
    forward temperature mean for ATR) is nonzero at every valid index,
    the CO2 multiplier is 1 and row 1 of the output is the CO2 emission,
    at every valid index. *)
Theorem co2_multiplier_one (T : nat) (H : Z) (forcing_profiles temperature_profiles : ndarray2)
    (years CO2_emissions : ndarray1) :
  shape forcing_profiles 7 T -> shape temperature_profiles 7 T ->
  length years = T -> (T <= length CO2_emissions)%nat -> (0 < H < Z.of_nat T)%Z ->
  (forall t, (t < T - Z.to_nat H)%nat ->
     forward_sum (Z.to_nat H) (nth 1 forcing_profiles []) t <> 0%R) ->
  (forall t, (t < T - Z.to_nat H)%nat ->
     (forward_sum (Z.to_nat H) (nth 1 temperature_profiles []) t / IZR H)%R <> 0%R) ->
  (exists m out,
     gwp_lst H forcing_profiles years = Ok m
     /\ gwp_co2eq H forcing_profiles temperature_profiles years CO2_emissions
        = Ok (out, Py.range 0 (Z.of_nat T - H))
     /\ forall t, (t < T - Z.to_nat H)%nat ->
          at2 m 1 t = 1%R /\ at2 out 1 t = nth t CO2_emissions 0%R)
  /\ (exists m out,
        atrp_lst H temperature_profiles years = Ok m
        /\ atr_co2eq H forcing_profiles temperature_profiles years CO2_emissions
           = Ok (out, Py.range 0 (Z.of_nat T - H))
        /\ forall t, (t < T - Z.to_nat H)%nat ->
             at2 m 1 t = 1%R /\ at2 out 1 t = nth t CO2_emissions 0%R).
Proof.
  intros Hf Ht Hy HE HH Nf Nt.
  set (h := Z.to_nat H) in *. replace H with (Z.of_nat h) in * by lia.
  replace (Z.of_nat T - Z.of_nat h)%Z with (Z.of_nat (T - h)) by lia.
  assert (Hh : (h <= T)%nat) by lia.
  pose proof Hf as [Hfm Hfrows]. pose proof Ht as [Htm Htrows].
  split.
  - pose proof (gwp_co2eq_closed T h forcing_profiles temperature_profiles years
                  CO2_emissions Hf Hy HE Hh) as Hc.
    unfold gwp_co2eq in Hc.
    destruct (gwp_lst (Z.of_nat h) forcing_profiles years) as [m|e] eqn:Hm; [|discriminate].
    exists m. eexists. split; [reflexivity|].
    split; [unfold gwp_co2eq; rewrite Hm; exact Hc|].
    intros t Hlt. split.
    + unfold gwp_lst in Hm.
      rewrite (agwp_lst_closed T h forcing_profiles years Hf Hy Hh) in Hm. cbn [bind] in Hm.
      change 1%Z with (Z.of_nat 1) in Hm.
      rewrite (getitem_map_tab forcing_profiles _ _ 1 []) in Hm by lia. cbn [bind] in Hm.
      rewrite bcast_rows_tab in Hm. injection Hm as <-.
      rewrite (at2_map_tab forcing_profiles _ _ 1 _ []) by lia.
      apply Rdiv_diag. now apply Nf.
    + rewrite (at2_map_tab forcing_profiles _ _ 1 _ []) by lia.
      rewrite Rdiv_diag by (now apply Nf). lra.
  - pose proof (atr_co2eq_closed T h forcing_profiles temperature_profiles years
                  CO2_emissions Ht Hy HE Hh) as Hc.
    unfold atr_co2eq in Hc.
    destruct (atrp_lst (Z.of_nat h) temperature_profiles years) as [m|e] eqn:Hm; [|discriminate].
    exists m. eexists. split; [reflexivity|].
    split; [unfold atr_co2eq; rewrite Hm; exact Hc|].
    intros t Hlt. split.
    + unfold atrp_lst in Hm.
      rewrite (atr_lst_closed T h temperature_profiles years Ht Hy Hh) in Hm. cbn [bind] in Hm.
      change 1%Z with (Z.of_nat 1) in Hm.
      rewrite (getitem_map_tab temperature_profiles _ _ 1 []) in Hm by lia. cbn [bind] in Hm.
      rewrite bcast_rows_tab in Hm. injection Hm as <-.
      rewrite (at2_map_tab temperature_profiles _ _ 1 _ []) by lia.
      apply Rdiv_diag. now apply Nt.
    + rewrite (at2_map_tab temperature_profiles _ _ 1 _ []) by lia.
      rewrite Rdiv_diag by (now apply Nt). lra.
Qed.

Lemma co2_multiplier_one_witness :
  (exists m out,
     gwp_lst 1 rfi_forcing rfi_years = Ok m
     /\ gwp_co2eq 1 rfi_forcing rfi_forcing rfi_years rfi_emissions
        = Ok (out, Py.range 0 (Z.of_nat 5 - 1))
     /\ forall t, (t < 5 - Z.to_nat 1)%nat ->
          at2 m 1 t = 1%R /\ at2 out 1 t = nth t rfi_emissions 0%R)
  /\ (exists m out,
        atrp_lst 1 rfi_forcing rfi_years = Ok m
        /\ atr_co2eq 1 rfi_forcing rfi_forcing rfi_years rfi_emissions
           = Ok (out, Py.range 0 (Z.of_nat 5 - 1))
        /\ forall t, (t < 5 - Z.to_nat 1)%nat ->
             at2 m 1 t = 1%R /\ at2 out 1 t = nth t rfi_emissions 0%R).
Proof.
  apply (co2_multiplier_one 5 1 rfi_forcing rfi_forcing rfi_years rfi_emissions).
  - split; [reflexivity|repeat constructor].
  - split; [reflexivity|repeat constructor].
  - reflexivity.
  - simpl; lia.
  - lia.
  - intros t Ht. do 4 (destruct t as [|t]; [cbv -[Rplus IZR]; lra|]). simpl in Ht. lia.
  - intros t Ht. do 4 (destruct t as [|t]; [cbv -[Rplus Rdiv IZR]; lra|]). simpl in Ht. lia.
Defined.

(** *** The efficacies of EGWP *)

(** C6: when every species row of the forcing table is constantly 1,
    the efficacy-scaled forward sum of the H2O row (row 2) is
    [1.14 * H] at every valid index: the efficacy 1.14 is the one applied
    to H2O. *)
Theorem egwp_h2o_scaled (T : nat) (H : Z) (forcing_profiles : ndarray2) (years : ndarray1)
    (t : nat) :
  shape forcing_profiles 7 T -> length years = T -> (0 < H < Z.of_nat T)%Z ->
  (forall i k, (1 <= i <= 6)%nat -> (k < T)%nat -> at2 forcing_profiles i k = 1%R) ->
  (t < T - Z.to_nat H)%nat ->
  exists aegwp_lst,
    aegwp_scaled H forcing_profiles years = Ok aegwp_lst
    /\ at2 aegwp_lst 2 t = (1.14 * IZR H)%R.
Proof.
  intros Hf Hy HH Hone Ht.
  set (h := Z.to_nat H) in *. replace H with (Z.of_nat h) by lia.
  rewrite (aegwp_scaled_closed T h forcing_profiles years Hf Hy) by lia.
  eexists. split; [reflexivity|].
  rewrite !at2_cons, at2_tab by exact Ht.
  unfold forward_sum.
  rewrite (big_sum_ext h _ (fun _ => 1%R)).
  - rewrite big_sum_const, <- INR_IZR_INZ. lra.
  - intros k Hk. apply (Hone 2%nat (t + k)%nat); lia.
Qed.

Lemma egwp_h2o_scaled_witness :
  exists aegwp_lst,
    aegwp_scaled 2 ones_forcing [2000; 2001; 2002]%R = Ok aegwp_lst
    /\ at2 aegwp_lst 2 0 = (1.14 * IZR 2)%R.
Proof.
  apply (egwp_h2o_scaled 3 2 ones_forcing [2000; 2001; 2002]%R 0).
  - split; [reflexivity|repeat constructor].
  - reflexivity.
  - lia.
  - intros i k Hi Hk.
    do 7 (destruct i as [|i]; [try lia; do 3 (destruct k as [|k]; [reflexivity|]); lia|]).
    lia.
  - simpl; lia.
Defined.

(** *** The table a converter does not read *)

(** C10: [rf_co2eq], [gwp_co2eq] and [egwp_co2eq] return the same
    result for any two temperature tables, [gtp_co2eq] and [atr_co2eq]
    for any two forcing tables. *)
Theorem unused_table_irrelevant (H : Z) (years CO2_emissions : ndarray1)
    (forcing_profiles forcing_profiles' temperature_profiles temperature_profiles' : ndarray2) :
  rf_co2eq H forcing_profiles temperature_profiles years CO2_emissions
  = rf_co2eq H forcing_profiles temperature_profiles' years CO2_emissions
  /\ gwp_co2eq H forcing_profiles temperature_profiles years CO2_emissions
     = gwp_co2eq H forcing_profiles temperature_profiles' years CO2_emissions
  /\ egwp_co2eq H forcing_profiles temperature_profiles years CO2_emissions
     = egwp_co2eq H forcing_profiles temperature_profiles' years CO2_emissions
  /\ gtp_co2eq H forcing_profiles temperature_profiles years CO2_emissions
     = gtp_co2eq H forcing_profiles' temperature_profiles years CO2_emissions
  /\ atr_co2eq H forcing_profiles temperature_profiles years CO2_emissions
     = atr_co2eq H forcing_profiles' temperature_profiles years CO2_emissions.
Proof. repeat split; reflexivity. Qed.

(** *** GWP*: the flow formula *)

Lemma range_from (a n : nat) :
  Py.range (Z.of_nat a) (Z.of_nat (a + n)) = map Z.of_nat (seq a n).
Proof.
  unfold Py.range.
  replace (Z.to_nat (Z.of_nat (a + n) - Z.of_nat a)) with n by lia.
  apply (nth_ext _ _ 0%Z 0%Z).
  - now rewrite !length_map, !length_seq.
  - intros k Hk. rewrite length_map, length_seq in Hk.
    rewrite (nth_indep _ 0%Z (Z.of_nat a + Z.of_nat 0)%Z)
      by (now rewrite length_map, length_seq).
    rewrite (map_nth (fun k => (Z.of_nat a + Z.of_nat k)%Z)), seq_nth by exact Hk.
    rewrite (nth_indep _ 0%Z (Z.of_nat 0)) by (now rewrite length_map, length_seq).
    rewrite (map_nth Z.of_nat), seq_nth by exact Hk. lia.
Qed.

(** C1: for a species row [i], a horizon [H] in [1..100] and an index
    [t] in [[20, T)], the array computed by the flow formula, before the
    CO2 row is overwritten, holds in the column of [t]
    [g * ((1-s) * (RF_i[t] - RF_i[t-20])/20/1000 * H / AGWP_CO2(H)
          + s * ((RF_i[t-19] + ... + RF_i[t])/20/1000) / AGWP_CO2(H))]
    with [AGWP_CO2(H)] the entry [H-1] of the table times [1e9], and
    the year indices returned by [gwps_co2eq] are [20, 21, ..., T-1]. *)
Theorem gwps_formula_value (T : nat) (H : Z) (forcing_profiles temperature_profiles : ndarray2)
    (years CO2_emissions agwph_co2 : ndarray1) (i t : nat) :
  shape forcing_profiles 7 T -> length years = T -> (T <= length CO2_emissions)%nat ->
  length agwph_co2 = 100%nat ->
  (1 <= H <= 100)%Z -> (i < 7)%nat -> (20 <= t < T)%nat ->
  let AGWP_CO2 := (nth (Z.to_nat (H - 1)) agwph_co2 0 * 1e9)%R in
  let RF k := at2 forcing_profiles i k in
  exists GWPstar yr_idx1 out,
    gwps_formula H forcing_profiles years agwph_co2 = Ok (GWPstar, yr_idx1)
    /\ at2 GWPstar i (t - 20)
       = (g * ((1 - s) * ((RF t - RF (t - 20)%nat) / 20 / 1000) * IZR H / AGWP_CO2
               + s * (big_sum 20 (fun k => RF (t - 19 + k)%nat) / 20 / 1000) / AGWP_CO2))%R
    /\ gwps_co2eq H forcing_profiles temperature_profiles years CO2_emissions agwph_co2
       = Ok (out, yr_idx1)
    /\ yr_idx1 = map Z.of_nat (seq 20 (T - 20)).
Proof.
  intros Hf Hy HE Htab HH Hi Ht AGWP_CO2 RF.
  set (h := Z.to_nat H). replace H with (Z.of_nat h) in * by lia.
  assert (Hh : (1 <= h <= length agwph_co2)%nat) by lia.
  rewrite (gwps_co2eq_closed T h forcing_profiles temperature_profiles years
             CO2_emissions agwph_co2 Hf Hy HE Hh).
  rewrite (gwps_formula_closed T h forcing_profiles years agwph_co2 Hf Hy Hh).
  do 3 eexists. split; [reflexivity|]. split; [|split; [reflexivity|]].
  - destruct Hf as [Hm _].
    rewrite (at2_map_tab forcing_profiles _ _ i _ []) by lia.
    unfold gwps_entry, RF, AGWP_CO2, at2.
    replace (Z.to_nat (H - 1)) with (h - 1)%nat by lia.
    replace (20 + (t - 20))%nat with t by lia.
    rewrite (big_sum_ext 20 _ (fun k => nth (t - 19 + k) (nth i forcing_profiles []) 0%R)).
    + reflexivity.
    + intros k Hk. f_equal. lia.
  - change 20%Z with (Z.of_nat 20).
    replace (Z.of_nat T) with (Z.of_nat (20 + (T - 20))) by lia.
    apply range_from.
Qed.

Lemma gwps_formula_value_witness :
  exists GWPstar yr_idx1 out,
    gwps_formula 100 flow_forcing (repeat 0%R 21) (repeat 1%R 100) = Ok (GWPstar, yr_idx1)
    /\ at2 GWPstar 2 (20 - 20)
       = (g * ((1 - s) * ((at2 flow_forcing 2 20 - at2 flow_forcing 2 (20 - 20)) / 20 / 1000)
               * IZR 100 / (nth (Z.to_nat (100 - 1)) (repeat 1%R 100) 0 * 1e9)
               + s * (big_sum 20 (fun k => at2 flow_forcing 2 (20 - 19 + k)) / 20 / 1000)
                 / (nth (Z.to_nat (100 - 1)) (repeat 1%R 100) 0 * 1e9)))%R
    /\ gwps_co2eq 100 flow_forcing [] (repeat 0%R 21) (repeat 5%R 21) (repeat 1%R 100)
       = Ok (out, yr_idx1)
    /\ yr_idx1 = map Z.of_nat (seq 20 (21 - 20)).
Proof.
  apply (gwps_formula_value 21 100 flow_forcing [] (repeat 0%R 21) (repeat 5%R 21)
           (repeat 1%R 100) 2 20).
  - split; [reflexivity|repeat constructor].
  - reflexivity.
  - simpl; lia.
  - reflexivity.
  - lia.
  - lia.
  - lia.
Defined.

(** *** GWP* and EGWP*: the CO2 row and the total row *)

(** C4: on every well-formed input, [gwps_co2eq] and [egwps_co2eq]
    return, with the year indices [20 .. T-1], an array of seven rows and
    [T - 20] columns whose row 1 is the raw CO2 emission of each
    returned year index and whose row 0 is the sum of rows 1 to 6 as
    returned, that is after the CO2 row is overwritten and, for EGWP*,
    after the rows are scaled by the efficacies. *)
Theorem star_metrics_rows (T : nat) (H : Z) (forcing_profiles temperature_profiles : ndarray2)
    (years CO2_emissions agwph_co2 : ndarray1) :
  shape forcing_profiles 7 T -> length years = T -> (T <= length CO2_emissions)%nat ->
  (1 <= H <= Py.len agwph_co2)%Z ->
  returns_star_rows T CO2_emissions
    (gwps_co2eq H forcing_profiles temperature_profiles years CO2_emissions agwph_co2)
  /\ returns_star_rows T CO2_emissions
       (egwps_co2eq H forcing_profiles temperature_profiles years CO2_emissions agwph_co2).
Proof.
  intros Hf Hy HE HH. unfold Py.len in HH.
  set (h := Z.to_nat H). replace H with (Z.of_nat h) in * by lia.
  assert (Hh : (1 <= h <= length agwph_co2)%nat) by lia.
  unfold returns_star_rows. split.
  - rewrite (gwps_co2eq_closed T h forcing_profiles temperature_profiles years
               CO2_emissions agwph_co2 Hf Hy HE Hh).
    eexists. split; [reflexivity|].
    split; [split; [reflexivity|repeat constructor; apply tab_length]|].
    intros c Hc. split; at2_rows; [reflexivity|lra].
  - rewrite (egwps_co2eq_closed T h forcing_profiles temperature_profiles years
               CO2_emissions agwph_co2 Hf Hy HE Hh).
    eexists. split; [reflexivity|].
    split; [split; [reflexivity|repeat constructor; apply tab_length]|].
    intros c Hc. split; at2_rows; lra.
Qed.

Lemma star_metrics_rows_witness :
  returns_star_rows 21 (repeat 5%R 21)
    (gwps_co2eq 100 flow_forcing [] (repeat 0%R 21) (repeat 5%R 21) (repeat 1%R 100))
  /\ returns_star_rows 21 (repeat 5%R 21)
       (egwps_co2eq 100 flow_forcing [] (repeat 0%R 21) (repeat 5%R 21) (repeat 1%R 100)).
Proof.
  apply (star_metrics_rows 21 100 flow_forcing [] (repeat 0%R 21) (repeat 5%R 21)
           (repeat 1%R 100)).
  - split; [reflexivity|repeat constructor].
  - reflexivity.
  - simpl; lia.
  - unfold Py.len. simpl. lia.
Defined.

(** *** The loader *)

Lemma getitem_inv {A : Type} (l : list A) (k : nat) (x d : A) :
  Py.getitem l (Z.of_nat k) = Ok x -> (k < length l)%nat /\ x = nth k l d.
Proof.
  unfold Py.getitem.
  destruct (Z.ltb_spec (Z.of_nat k) 0); [lia|].
  destruct (Z.ltb_spec (Z.of_nat k) 0); [lia|].
  rewrite Nat2Z.id.
  destruct (nth_error l k) as [y|] eqn:Hy; [|discriminate].
  intros [= <-]. split.
  - apply nth_error_Some. congruence.
  - symmetry. now apply nth_error_nth.
Qed.

Lemma set_row_shape (m : ndarray2) (r n k : nat) (v : ndarray1) :
  shape m r n -> length v = n -> shape (set_row m k v) r n.
Proof.
  intros [Hm Hrows] Hv. subst r. revert k.
  induction Hrows as [|row m Hrow Hrows IH]; intros k; [now split|].
  destruct k as [|k]; simpl.
  - split; [reflexivity|now constructor].
  - destruct (IH k) as [Hl Hf]. split; [simpl; now rewrite Hl|now constructor].
Qed.

Lemma set_row_nth0 (m : ndarray2) (k : nat) (v : ndarray1) :
  (1 <= k)%nat -> nth 0 (set_row m k v) [] = nth 0 m [].
Proof. intros Hk. destruct m as [|row m], k as [|k]; try reflexivity. lia. Qed.

Lemma assign_row_index (m : ndarray2) (k : nat) :
  Z.to_nat (if (Z.of_nat k <? 0)%Z then (Z.of_nat k + Py.len m)%Z else Z.of_nat k) = k.
Proof. destruct (Z.ltb_spec (Z.of_nat k) 0); lia. Qed.

Lemma assign_row_shape (m m' : ndarray2) (r n k : nat) (v : ndarray1) :
  shape m r n -> assign_row m (Z.of_nat k) v = Ok m' ->
  shape m' r n /\ ((1 <= k)%nat -> nth 0 m' [] = nth 0 m []).
Proof.
  intros Hs. unfold assign_row. rewrite assign_row_index.
  destruct (Py.getitem m (Z.of_nat k)) as [row|e] eqn:Hg; [|discriminate].
  apply (getitem_inv m k row []) in Hg. destruct Hg as [Hk ->]. cbn [bind].
  assert (Hrow : length (nth k m []) = n).
  { destruct Hs as [_ Hrows]. rewrite Forall_forall in Hrows. apply Hrows. now apply nth_In. }
  rewrite Hrow.
  destruct (Nat.eqb_spec (length v) n) as [Hv|Hv].
  - intros [= <-]. split; [now apply set_row_shape|apply set_row_nth0].
  - destruct v as [|x [|y v]]; try discriminate.
    intros [= <-]. split; [apply set_row_shape; [exact Hs|apply repeat_length]|apply set_row_nth0].
Qed.

Lemma assign_row_mismatch (m : ndarray2) (r n k : nat) (v : ndarray1) :
  shape m r n -> length v <> n -> length v <> 1%nat ->
  exists e, assign_row m (Z.of_nat k) v = Raise e.
Proof.
  intros Hs Hn H1. unfold assign_row. rewrite assign_row_index.
  destruct (Py.getitem m (Z.of_nat k)) as [row|e] eqn:Hg; [|now exists e].
  apply (getitem_inv m k row []) in Hg. destruct Hg as [Hk ->]. cbn [bind].
  assert (Hrow : length (nth k m []) = n).
  { destruct Hs as [_ Hrows]. rewrite Forall_forall in Hrows. apply Hrows. now apply nth_In. }
  rewrite Hrow.
  destruct (Nat.eqb_spec (length v) n) as [Hv|Hv]; [contradiction|].
  destruct v as [|x [|y v]]; [now exists ValueError|simpl in H1; lia|now exists ValueError].
Qed.

(** What [np.loadtxt] returns for a file with [entries f] data lines. *)
Lemma loadtxt_entries (fs : filesystem) (name : string) (f : file) (usecols : nat) (a : loaded) :
  fs name = Some f -> loadtxt fs name 2 usecols = Ok a ->
  match a with
  | Scalar0 _ => entries f = 1%nat
  | Vec1 l => length l = entries f /\ entries f <> 1%nat
  end.
Proof.
  intros Hf. unfold loadtxt, entries. rewrite Hf. cbv zeta.
  match goal with
  | |- context [mapM ?read ?rows] => destruct (mapM read rows) as [col|e] eqn:Hc
  end; [|discriminate].
  apply mapM_length in Hc. unfold line in *. rewrite <- Hc. cbn [bind].
  destruct col as [|x [|y col]]; intros [= <-]; simpl; auto.
Qed.

Lemma assign_loaded_shape (m m' : ndarray2) (r n k : nat) (a : loaded) :
  shape m r n -> assign_loaded m k a = Ok m' ->
  shape m' r n /\ ((1 <= k)%nat -> nth 0 m' [] = nth 0 m []).
Proof. intros Hs. destruct a; apply assign_row_shape; exact Hs. Qed.

(** The loop keeps the shape of both arrays and leaves their row 0
    alone. *)
Lemma populate_shape (fs : filesystem) (directory : string) (n : nat) (idx : list nat) :
  forall rf_arr dt_arr rf_arr' dt_arr',
    shape rf_arr 7 n -> shape dt_arr 7 n ->
    populate fs directory idx rf_arr dt_arr = Ok (rf_arr', dt_arr') ->
    (shape rf_arr' 7 n /\ nth 0 rf_arr' [] = nth 0 rf_arr [])
    /\ (shape dt_arr' 7 n /\ nth 0 dt_arr' [] = nth 0 dt_arr []).
Proof.
  induction idx as [|i idx IH]; intros rf dt rf' dt' Hrf Hdt; cbn [populate].
  - intros [= <- <-]. auto.
  - destruct (loadtxt fs (directory ++ rf_name (nth i emission_species EmptyString)) 2 1)
      as [rf_lst|e]; [|discriminate]. cbn [bind].
    destruct (loadtxt fs (directory ++ dt_name (nth i emission_species EmptyString)) 2 1)
      as [dt_lst|e]; [|discriminate]. cbn [bind].
    destruct (assign_loaded rf (i + 1) rf_lst) as [rf1|e] eqn:H1; [|discriminate]. cbn [bind].
    destruct (assign_loaded dt (i + 1) dt_lst) as [dt1|e] eqn:H2; [|discriminate]. cbn [bind].
    apply (assign_loaded_shape rf rf1 7 n) in H1; [|exact Hrf].
    apply (assign_loaded_shape dt dt1 7 n) in H2; [|exact Hdt].
    destruct H1 as [Hs1 Hz1], H2 as [Hs2 Hz2].
    intros Hp. apply (IH rf1 dt1 rf' dt' Hs1 Hs2) in Hp.
    rewrite Hz1, Hz2 in Hp by lia. exact Hp.
Qed.

Lemma zeros_shape (r n : nat) : shape (zeros r n) r n.
Proof.
  unfold zeros. split; [apply repeat_length|].
  apply Forall_forall. intros row Hrow. apply repeat_spec in Hrow. subst row.
  apply repeat_length.
Qed.

(** The total of an array of seven rows whose row 0 is zero. *)
Lemma total_of_loaded (n : nat) (arr : ndarray2) :
  shape arr 7 n -> nth 0 arr [] = repeat 0%R n ->
  total_is_sum (set_row arr 0 (sum_axis0 n arr)) n.
Proof.
  intros [Hm Hrows] Hz. rewrite Forall_forall in Hrows.
  assert (Hrow : forall i, (i < 7)%nat ->
            nth i arr [] = tab n (fun k => nth k (nth i arr []) 0%R)).
  { intros i Hi. pose proof (list_is_tab (nth i arr []) 0%R) as Hi'.
    rewrite (Hrows (nth i arr [])) in Hi' by (apply nth_In; lia). exact Hi'. }
  rewrite (seven_rows arr Hm). rewrite Hz.
  rewrite (Hrow 1%nat), (Hrow 2%nat), (Hrow 3%nat), (Hrow 4%nat), (Hrow 5%nat), (Hrow 6%nat)
    by lia.
  rewrite repeat_tab. unfold sum_axis0. rewrite repeat_tab. cbn [fold_left set_row].
  rewrite !map2_tab.
  intros t Ht. at2_rows. lra.
Qed.

Lemma map2_length {A B C : Type} (f : A -> B -> C) (l : list A) (l' : list B) :
  length l = length l' -> length (map2 f l l') = length l.
Proof.
  revert l'. induction l as [|a l IH]; intros [|b l'] Hl; simpl in *; try lia.
  now rewrite IH by lia.
Qed.

Lemma sum_axis0_length (n : nat) (m : ndarray2) :
  Forall (fun row => length row = n) m -> length (sum_axis0 n m) = n.
Proof.
  intros Hm. unfold sum_axis0.
  assert (Hacc : length (repeat 0%R n) = n) by apply repeat_length.
  revert Hacc. generalize (repeat 0%R n).
  induction Hm as [|row m Hrow Hm IH]; intros acc Hacc; [exact Hacc|].
  cbn [fold_left]. apply IH. rewrite map2_length; lia.
Qed.

(** The arrays [load_rf_dt] returns have seven rows and one column
    per year. *)
Lemma load_rf_dt_shape (fs : filesystem) (directory : string)
    (rf_arr dt_arr : ndarray2) (years : ndarray1) :
  load_rf_dt fs directory = Ok (rf_arr, dt_arr, years) ->
  shape rf_arr 7 (length years) /\ shape dt_arr 7 (length years).
Proof.
  unfold load_rf_dt.
  destruct (loadtxt fs _ 2 0) as [y|e]; [|discriminate]. cbn [bind].
  destruct y as [x|l]; [discriminate|]. cbn [bind loaded_len].
  destruct (populate fs directory _ _ _) as [[rf dt]|e] eqn:Hp; [|discriminate]. cbn [bind].
  intros [= <- <- <-].
  apply (populate_shape fs directory (length l)) in Hp; try apply zeros_shape.
  destruct Hp as [[Hrf _] [Hdt _]].
  split; apply set_row_shape; try assumption; apply sum_axis0_length.
  - apply Hrf.
  - apply Hdt.
Qed.

(** C5: whenever [load_rf_dt] returns, the forcing array and the
    temperature array have seven rows and one column per year, and row 0
    of each is, at every time step, the sum of rows 1 to 6 (the sum over
    all seven rows adds a row 0 that is still zero). *)
Theorem load_rf_dt_total (fs : filesystem) (directory : string)
    (rf_arr dt_arr : ndarray2) (years : ndarray1) :
  load_rf_dt fs directory = Ok (rf_arr, dt_arr, years) ->
  shape rf_arr 7 (length years) /\ shape dt_arr 7 (length years)
  /\ total_is_sum rf_arr (length years) /\ total_is_sum dt_arr (length years).
Proof.
  intros Hload.
  destruct (load_rf_dt_shape fs directory rf_arr dt_arr years Hload) as [Srf Sdt].
  split; [exact Srf|]. split; [exact Sdt|].
  revert Hload. unfold load_rf_dt.
  destruct (loadtxt fs _ 2 0) as [y|e]; [|discriminate]. cbn [bind].
  destruct y as [x|l]; [discriminate|]. cbn [bind loaded_len].
  destruct (populate fs directory _ _ _) as [[rf dt]|e] eqn:Hp; [|discriminate]. cbn [bind].
  intros [= <- <- <-].
  apply (populate_shape fs directory (length l)) in Hp; try apply zeros_shape.
  destruct Hp as [[Hrf Hrf0] [Hdt Hdt0]].
  split; apply total_of_loaded; assumption.
Qed.

Lemma load_rf_dt_total_witness :
  exists rf_arr dt_arr years,
    load_rf_dt aligned_fs "CORSIA/"%string = Ok (rf_arr, dt_arr, years)
    /\ shape rf_arr 7 (length years) /\ shape dt_arr 7 (length years)
    /\ total_is_sum rf_arr (length years) /\ total_is_sum dt_arr (length years).
Proof.
  do 3 eexists. split.
  - cbv -[Rplus IZR]. reflexivity.
  - apply (load_rf_dt_total aligned_fs "CORSIA/"%string). cbv -[Rplus IZR]. reflexivity.
Defined.

(** C9, as stated, fails: the H2O forcing file of [misaligned_fs] has
    one year entry, the CO2 forcing file two, and [load_rf_dt] returns;
    the single H2O value fills both years of row 2. *)
Lemma load_rf_dt_mismatch_counterexample :
  exists f_co2 f_h2o rf_arr dt_arr years,
    misaligned_fs "CORSIA/RF_CO2_taumean_rfmean.txt"%string = Some f_co2
    /\ misaligned_fs ("CORSIA/" ++ rf_name "H2O")%string = Some f_h2o
    /\ entries f_h2o <> entries f_co2
    /\ load_rf_dt misaligned_fs "CORSIA/"%string = Ok (rf_arr, dt_arr, years)
    /\ nth 2 rf_arr [] = [7; 7]%R.
Proof.
  do 5 eexists. split; [|split; [|split; [|split]]].
  - reflexivity.
  - reflexivity.
  - cbv. discriminate.
  - cbv -[Rplus IZR]. reflexivity.
  - reflexivity.
Qed.

(** The loop fails when it reaches a species one of whose files has a
    number of entries that is neither the number of columns nor 1. *)
Lemma populate_mismatch (fs : filesystem) (directory : string) (n i : nat) (f : file)
    (name : string) (idx : list nat) :
  (name = rf_name (nth i emission_species EmptyString)
   \/ name = dt_name (nth i emission_species EmptyString)) ->
  fs (directory ++ name)%string = Some f ->
  entries f <> n -> entries f <> 1%nat -> In i idx ->
  forall rf_arr dt_arr,
    shape rf_arr 7 n -> shape dt_arr 7 n ->
    exists e, populate fs directory idx rf_arr dt_arr = Raise e.
Proof.
  intros Hname Hf Hn H1. induction idx as [|j idx IH]; intros Hin rf dt Hrf Hdt; [contradiction|].
  cbn [populate].
  destruct (loadtxt fs (directory ++ rf_name (nth j emission_species EmptyString)) 2 1)
    as [rf_lst|e] eqn:Lrf; [|now exists e]. cbn [bind].
  destruct (loadtxt fs (directory ++ dt_name (nth j emission_species EmptyString)) 2 1)
    as [dt_lst|e] eqn:Ldt; [|now exists e]. cbn [bind].
  destruct (Nat.eq_dec j i) as [->|Hji].
  - destruct Hname as [-> | ->].
    + apply (loadtxt_entries fs _ f 1 rf_lst Hf) in Lrf.
      destruct rf_lst as [x|l]; [contradiction|]. destruct Lrf as [Hl _].
      destruct (assign_row_mismatch rf 7 n (i + 1) l Hrf) as [e He]; try congruence.
      exists e. unfold assign_loaded. now rewrite He.
    + apply (loadtxt_entries fs _ f 1 dt_lst Hf) in Ldt.
      destruct dt_lst as [x|l]; [contradiction|]. destruct Ldt as [Hl _].
      destruct (assign_loaded rf (i + 1) rf_lst) as [rf1|e]; [|now exists e]. cbn [bind].
      destruct (assign_row_mismatch dt 7 n (i + 1) l Hdt) as [e He]; try congruence.
      exists e. unfold assign_loaded. now rewrite He.
  - destruct (assign_loaded rf (j + 1) rf_lst) as [rf1|e] eqn:A1; [|now exists e]. cbn [bind].
    destruct (assign_loaded dt (j + 1) dt_lst) as [dt1|e] eqn:A2; [|now exists e]. cbn [bind].
    apply (assign_loaded_shape rf rf1 7 n) in A1; [|exact Hrf].
    apply (assign_loaded_shape dt dt1 7 n) in A2; [|exact Hdt].
    apply IH; [destruct Hin; [contradiction|assumption]|apply A1|apply A2].
Qed.

(** C9, amended: when a forcing or temperature file of some species has
    a number of year entries that differs from the number of years of
    the CO2 forcing file and is not 1, [load_rf_dt] raises an
    exception. *)
Theorem load_rf_dt_mismatch (fs : filesystem) (directory : string) (f_co2 f : file)
    (species name : string) :
  fs (directory ++ "RF_CO2_taumean_rfmean.txt"%string)%string = Some f_co2 ->
  In species emission_species ->
  name = rf_name species \/ name = dt_name species ->
  fs (directory ++ name)%string = Some f ->
  entries f <> entries f_co2 -> entries f <> 1%nat ->
  exists e, load_rf_dt fs directory = Raise e.
Proof.
  intros Hco2 Hsp Hname Hf Hn H1. unfold load_rf_dt.
  destruct (loadtxt fs _ 2 0) as [y|e] eqn:Ly; [|now exists e]. cbn [bind].
  apply (loadtxt_entries fs _ f_co2 0 y Hco2) in Ly.
  destruct y as [x|l]; [now exists TypeError|]. destruct Ly as [Hl _]. cbn [bind loaded_len].
  apply (In_nth _ _ EmptyString) in Hsp. destruct Hsp as (i & Hi & <-).
  assert (Hp : exists e, populate fs directory (seq 0 (length emission_species))
                           (zeros 7 (length l)) (zeros 7 (length l)) = Raise e).
  { apply (populate_mismatch fs directory (length l) i f name);
      try assumption; try congruence; try apply zeros_shape.
    apply in_seq. lia. }
  destruct Hp as [e He]. exists e. now rewrite He.
Qed.

Lemma load_rf_dt_mismatch_witness :
  exists e, load_rf_dt short_fs "CORSIA/"%string = Raise e.
Proof.
  apply (load_rf_dt_mismatch short_fs "CORSIA/"%string (series_file [1; 2]%R)
           (series_file [7; 8; 9]%R) "CH4"%string (dt_name "CH4"%string)).
  - reflexivity.
  - simpl. tauto.
  - right. reflexivity.
  - reflexivity.
  - cbv. discriminate.
  - cbv. discriminate.
Defined.

(** ** Further properties of the converters *)

(** *** Values of GWP and GTP *)

(** X1: on a well-formed input [gwp_co2eq] returns a [7 x (T-H)] array
    with the year indices [0 .. T-H-1]; entry [c] of row [i] is the
    forward forcing sum of row [i] over the forward sum of the CO2 row,
    times the emission of index [c]. *)
Theorem gwp_co2eq_value (T : nat) (H : Z) (forcing_profiles temperature_profiles : ndarray2)
    (years CO2_emissions : ndarray1) :
  shape forcing_profiles 7 T -> length years = T -> (T <= length CO2_emissions)%nat ->
  (0 < H < Z.of_nat T)%Z ->
  exists out,
    gwp_co2eq H forcing_profiles temperature_profiles years CO2_emissions
    = Ok (out, Py.range 0 (Z.of_nat T - H))
    /\ shape out 7 (T - Z.to_nat H)
    /\ forall i c, (i < 7)%nat -> (c < T - Z.to_nat H)%nat ->
         at2 out i c
         = (forward_sum (Z.to_nat H) (nth i forcing_profiles []) c
            / forward_sum (Z.to_nat H) (nth 1 forcing_profiles []) c
            * nth c CO2_emissions 0)%R.
Proof.
  intros Hf Hy HE HH.
  set (h := Z.to_nat H). replace H with (Z.of_nat h) by lia.
  rewrite (gwp_co2eq_closed T h forcing_profiles temperature_profiles years CO2_emissions)
    by (try assumption; lia).
  destruct Hf as [Hm Hrows].
  eexists. split; [|split; [split|]].
  - replace (Z.of_nat T - Z.of_nat h)%Z with (Z.of_nat (T - h)) by lia. reflexivity.
  - now rewrite length_map.
  - apply Forall_forall. intros row Hrow. apply in_map_iff in Hrow.
    destruct Hrow as (r & <- & _). apply tab_length.
  - intros i c Hi Hc. now rewrite (at2_map_tab forcing_profiles _ _ i _ []) by lia.
Qed.

Lemma gwp_co2eq_value_witness :
  exists out,
    gwp_co2eq 2 rfi_forcing [] rfi_years rfi_emissions = Ok (out, Py.range 0 (Z.of_nat 5 - 2))
    /\ shape out 7 (5 - Z.to_nat 2)
    /\ forall i c, (i < 7)%nat -> (c < 5 - Z.to_nat 2)%nat ->
         at2 out i c
         = (forward_sum (Z.to_nat 2) (nth i rfi_forcing []) c
            / forward_sum (Z.to_nat 2) (nth 1 rfi_forcing []) c
            * nth c rfi_emissions 0)%R.
Proof.
  apply (gwp_co2eq_value 5 2 rfi_forcing [] rfi_years rfi_emissions).
  - split; [reflexivity|repeat constructor].
  - reflexivity.
  - simpl; lia.
  - lia.
Defined.

(** X2: on a well-formed input [gtp_co2eq] returns a [7 x (T-H)] array
    with the year indices [0 .. T-H-1]; entry [c] of row [i] is the
    temperature ratio of index [H + c] times the emission of index
    [c]. *)
Theorem gtp_co2eq_value (T : nat) (H : Z) (forcing_profiles temperature_profiles : ndarray2)
    (years CO2_emissions : ndarray1) :
  shape temperature_profiles 7 T -> length years = T -> (T <= length CO2_emissions)%nat ->
  (0 < H < Z.of_nat T)%Z ->
  exists out,
    gtp_co2eq H forcing_profiles temperature_profiles years CO2_emissions
    = Ok (out, Py.range 0 (Z.of_nat T - H))
    /\ shape out 7 (T - Z.to_nat H)
    /\ forall i c, (i < 7)%nat -> (c < T - Z.to_nat H)%nat ->
         at2 out i c
         = (at2 temperature_profiles i (Z.to_nat H + c)
            / at2 temperature_profiles 1 (Z.to_nat H + c)
            * nth c CO2_emissions 0)%R.
Proof.
  intros [Hm Hrows] Hy HE HH.
  set (h := Z.to_nat H). replace H with (Z.of_nat h) by lia.
  rewrite (gtp_co2eq_closed T h forcing_profiles temperature_profiles years CO2_emissions)
    by (try assumption; lia).
  eexists. split; [|split; [split|]].
  - replace (Z.of_nat T - Z.of_nat h)%Z with (Z.of_nat (T - h)) by lia. reflexivity.
  - now rewrite length_map.
  - apply Forall_forall. intros row Hrow. apply in_map_iff in Hrow.
    destruct Hrow as (r & <- & _). apply tab_length.
  - intros i c Hi Hc. now rewrite (at2_map_tab temperature_profiles _ _ i _ []) by lia.
Qed.

Lemma gtp_co2eq_value_witness :
  exists out,
    gtp_co2eq 2 [] rfi_forcing rfi_years rfi_emissions = Ok (out, Py.range 0 (Z.of_nat 5 - 2))
    /\ shape out 7 (5 - Z.to_nat 2)
    /\ forall i c, (i < 7)%nat -> (c < 5 - Z.to_nat 2)%nat ->
         at2 out i c
         = (at2 rfi_forcing i (Z.to_nat 2 + c) / at2 rfi_forcing 1 (Z.to_nat 2 + c)
            * nth c rfi_emissions 0)%R.
Proof.
  apply (gtp_co2eq_value 5 2 [] rfi_forcing rfi_years rfi_emissions).
  - split; [reflexivity|repeat constructor].
  - reflexivity.
  - simpl; lia.
  - lia.
Defined.

(** X3: RFI is GTP on the forcing table without the last column: when
    [gtp_co2eq] is given the forcing table as its temperature table, the
    array of [rf_co2eq] agrees with it in all its [T-H-1] columns, and
    GTP has one column more. *)
Theorem rf_is_gtp_prefix (T : nat) (H : Z) (m other other' : ndarray2)
    (years CO2_emissions : ndarray1) :
  shape m 7 T -> length years = T -> (T <= length CO2_emissions)%nat ->
  (0 < H < Z.of_nat T)%Z ->
  exists out_rf out_gtp,
    rf_co2eq H m other years CO2_emissions = Ok (out_rf, Py.range 0 (Z.of_nat T - H - 1))
    /\ gtp_co2eq H other' m years CO2_emissions = Ok (out_gtp, Py.range 0 (Z.of_nat T - H))
    /\ forall i c, (i < 7)%nat -> (c < T - Z.to_nat H - 1)%nat ->
         at2 out_rf i c = at2 out_gtp i c.
Proof.
  intros [Hm Hrows] Hy HE HH.
  set (h := Z.to_nat H). replace H with (Z.of_nat h) by lia.
  rewrite (rf_co2eq_closed T h m other years CO2_emissions) by (try assumption; lia).
  rewrite (gtp_co2eq_closed T h other' m years CO2_emissions) by (try assumption; lia).
  do 2 eexists. split; [|split].
  - replace (Z.of_nat T - Z.of_nat h - 1)%Z with (Z.of_nat (T - h - 1)) by lia. reflexivity.
  - replace (Z.of_nat T - Z.of_nat h)%Z with (Z.of_nat (T - h)) by lia. reflexivity.
  - intros i c Hi Hc.
    now rewrite !(at2_map_tab m _ _ i _ []) by lia.
Qed.

Lemma rf_is_gtp_prefix_witness :
  exists out_rf out_gtp,
    rf_co2eq 2 rfi_forcing [] rfi_years rfi_emissions
    = Ok (out_rf, Py.range 0 (Z.of_nat 5 - 2 - 1))
    /\ gtp_co2eq 2 [] rfi_forcing rfi_years rfi_emissions
       = Ok (out_gtp, Py.range 0 (Z.of_nat 5 - 2))
    /\ forall i c, (i < 7)%nat -> (c < 5 - Z.to_nat 2 - 1)%nat ->
         at2 out_rf i c = at2 out_gtp i c.
Proof.
  apply (rf_is_gtp_prefix 5 2 rfi_forcing [] [] rfi_years rfi_emissions).
  - split; [reflexivity|repeat constructor].
  - reflexivity.
  - simpl; lia.
  - lia.
Defined.

(** *** ATR and GWP *)

(** X4: the division by [H] cancels in the ATR multipliers: for a
    horizon [0 < H < T], [atr_co2eq] on a temperature table returns
    exactly what [gwp_co2eq] returns when that table is passed as the
    forcing table. *)
Theorem atr_is_gwp_of_temperature (T : nat) (H : Z) (other other' temperature_profiles : ndarray2)
    (years CO2_emissions : ndarray1) :
  shape temperature_profiles 7 T -> length years = T -> (T <= length CO2_emissions)%nat ->
  (0 < H < Z.of_nat T)%Z ->
  atr_co2eq H other temperature_profiles years CO2_emissions
  = gwp_co2eq H temperature_profiles other' years CO2_emissions.
Proof.
  intros Ht Hy HE HH.
  set (h := Z.to_nat H). replace H with (Z.of_nat h) by lia.
  rewrite (atr_co2eq_closed T h other temperature_profiles years CO2_emissions)
    by (try assumption; lia).
  rewrite (gwp_co2eq_closed T h temperature_profiles other' years CO2_emissions)
    by (try assumption; lia).
  f_equal. f_equal. apply map_ext. intros row. apply tab_ext. intros c Hc.
  assert (Hh : IZR (Z.of_nat h) <> 0%R) by (apply not_0_IZR; lia).
  set (a := forward_sum h row c). set (b := forward_sum h (nth 1 temperature_profiles []) c).
  unfold Rdiv. rewrite Rinv_mult, Rinv_inv.
  replace (a * / IZR (Z.of_nat h) * (/ b * IZR (Z.of_nat h)))%R
    with (a * / b * (/ IZR (Z.of_nat h) * IZR (Z.of_nat h)))%R by ring.
  rewrite Rinv_l by exact Hh. ring.
Qed.

Lemma atr_is_gwp_of_temperature_witness :
  atr_co2eq 2 [] rfi_forcing rfi_years rfi_emissions
  = gwp_co2eq 2 rfi_forcing [] rfi_years rfi_emissions.
Proof.
  apply (atr_is_gwp_of_temperature 5 2 [] [] rfi_forcing rfi_years rfi_emissions).
  - split; [reflexivity|repeat constructor].
  - reflexivity.
  - simpl; lia.
  - lia.
Defined.

(** *** The efficacies *)

(** X5: on a well-formed input, each species row of [egwp_co2eq] is
    the same row of [gwp_co2eq] times the efficacy of the species (1 for
    CO2, so the CO2 rows agree), with the same year indices. *)
Theorem egwp_is_scaled_gwp (T : nat) (H : Z) (forcing_profiles temperature_profiles : ndarray2)
    (years CO2_emissions : ndarray1) :
  shape forcing_profiles 7 T -> length years = T -> (T <= length CO2_emissions)%nat ->
  (0 < H < Z.of_nat T)%Z ->
  exists out_gwp out_egwp idx,
    gwp_co2eq H forcing_profiles temperature_profiles years CO2_emissions = Ok (out_gwp, idx)
    /\ egwp_co2eq H forcing_profiles temperature_profiles years CO2_emissions = Ok (out_egwp, idx)
    /\ forall i c, (1 <= i <= 6)%nat -> (c < length idx)%nat ->
         at2 out_egwp i c = (nth (i - 1) efficacies 0 * at2 out_gwp i c)%R.
Proof.
  intros Hf Hy HE HH.
  set (h := Z.to_nat H). replace H with (Z.of_nat h) by lia.
  rewrite (gwp_co2eq_closed T h forcing_profiles temperature_profiles years CO2_emissions)
    by (try assumption; lia).
  rewrite (egwp_co2eq_closed T h forcing_profiles temperature_profiles years CO2_emissions)
    by (try assumption; lia).
  destruct Hf as [Hm _].
  do 3 eexists. split; [reflexivity|]. split; [reflexivity|].
  intros i c Hi Hc. rewrite range_length in Hc.
  rewrite (at2_map_tab forcing_profiles _ _ i _ []) by lia.
  do 7 (destruct i as [|i]; [try lia; rewrite ?at2_cons; rewrite at2_tab by lia;
                             unfold efficacies; cbn [nth Nat.sub];
                             unfold Rdiv; rewrite !Rmult_1_r; ring|]).
  lia.
Qed.

Lemma egwp_is_scaled_gwp_witness :
  exists out_gwp out_egwp idx,
    gwp_co2eq 2 rfi_forcing [] rfi_years rfi_emissions = Ok (out_gwp, idx)
    /\ egwp_co2eq 2 rfi_forcing [] rfi_years rfi_emissions = Ok (out_egwp, idx)
    /\ forall i c, (1 <= i <= 6)%nat -> (c < length idx)%nat ->
         at2 out_egwp i c = (nth (i - 1) efficacies 0 * at2 out_gwp i c)%R.
Proof.
  apply (egwp_is_scaled_gwp 5 2 rfi_forcing [] rfi_years rfi_emissions).
  - split; [reflexivity|repeat constructor].
  - reflexivity.
  - simpl; lia.
  - lia.
Defined.

(** X6: on a well-formed input, each species row of [egwps_co2eq] is
    the same row of [gwps_co2eq] times the efficacy of the species, with
    the same year indices. *)
Theorem egwps_is_scaled_gwps (T : nat) (H : Z) (forcing_profiles temperature_profiles : ndarray2)
    (years CO2_emissions agwph_co2 : ndarray1) :
  shape forcing_profiles 7 T -> length years = T -> (T <= length CO2_emissions)%nat ->
  (1 <= H <= Py.len agwph_co2)%Z ->
  exists out_gwps out_egwps idx,
    gwps_co2eq H forcing_profiles temperature_profiles years CO2_emissions agwph_co2
    = Ok (out_gwps, idx)
    /\ egwps_co2eq H forcing_profiles temperature_profiles years CO2_emissions agwph_co2
       = Ok (out_egwps, idx)
    /\ forall i c, (1 <= i <= 6)%nat -> (c < length idx)%nat ->
         at2 out_egwps i c = (nth (i - 1) efficacies 0 * at2 out_gwps i c)%R.
Proof.
  intros Hf Hy HE HH. unfold Py.len in HH.
  set (h := Z.to_nat H). replace H with (Z.of_nat h) in * by lia.
  assert (Hh : (1 <= h <= length agwph_co2)%nat) by lia.
  rewrite (gwps_co2eq_closed T h forcing_profiles temperature_profiles years
             CO2_emissions agwph_co2 Hf Hy HE Hh).
  rewrite (egwps_co2eq_closed T h forcing_profiles temperature_profiles years
             CO2_emissions agwph_co2 Hf Hy HE Hh).
  do 3 eexists. split; [reflexivity|]. split; [reflexivity|].
  intros i c Hi Hc. rewrite range_length in Hc.
  do 7 (destruct i as [|i]; [try lia; rewrite ?at2_cons; rewrite !at2_tab by lia;
                             unfold efficacies; cbn [nth Nat.sub]; ring|]).
  lia.
Qed.

Lemma egwps_is_scaled_gwps_witness :
  exists out_gwps out_egwps idx,
    gwps_co2eq 100 flow_forcing [] (repeat 0%R 21) (repeat 5%R 21) (repeat 1%R 100)
    = Ok (out_gwps, idx)
    /\ egwps_co2eq 100 flow_forcing [] (repeat 0%R 21) (repeat 5%R 21) (repeat 1%R 100)
       = Ok (out_egwps, idx)
    /\ forall i c, (1 <= i <= 6)%nat -> (c < length idx)%nat ->
         at2 out_egwps i c = (nth (i - 1) efficacies 0 * at2 out_gwps i c)%R.
Proof.
  apply (egwps_is_scaled_gwps 21 100 flow_forcing [] (repeat 0%R 21) (repeat 5%R 21)
           (repeat 1%R 100)).
  - split; [reflexivity|repeat constructor].
  - reflexivity.
  - simpl; lia.
  - unfold Py.len. simpl. lia.
Defined.

(** *** GWP*: the rows that are returned *)

(** X7: on a well-formed input, [gwps_co2eq] returns a [7 x (T-20)]
    array whose rows 2 to 6 are those of the flow formula: overwriting
    the CO2 row and the total leaves them as computed. *)
Theorem gwps_co2eq_species_rows (T : nat) (H : Z) (forcing_profiles temperature_profiles : ndarray2)
    (years CO2_emissions agwph_co2 : ndarray1) :
  shape forcing_profiles 7 T -> length years = T -> (T <= length CO2_emissions)%nat ->
  (1 <= H <= Py.len agwph_co2)%Z ->
  exists formula out idx,
    gwps_formula H forcing_profiles years agwph_co2 = Ok (formula, idx)
    /\ gwps_co2eq H forcing_profiles temperature_profiles years CO2_emissions agwph_co2
       = Ok (out, idx)
    /\ shape out 7 (T - 20)
    /\ forall i c, (2 <= i <= 6)%nat -> (c < T - 20)%nat -> at2 out i c = at2 formula i c.
Proof.
  intros Hf Hy HE HH. unfold Py.len in HH.
  set (h := Z.to_nat H). replace H with (Z.of_nat h) in * by lia.
  assert (Hh : (1 <= h <= length agwph_co2)%nat) by lia.
  rewrite (gwps_co2eq_closed T h forcing_profiles temperature_profiles years
             CO2_emissions agwph_co2 Hf Hy HE Hh).
  rewrite (gwps_formula_closed T h forcing_profiles years agwph_co2 Hf Hy Hh).
  destruct Hf as [Hm _].
  do 3 eexists. split; [reflexivity|]. split; [reflexivity|]. split.
  - split; [reflexivity|]. repeat constructor; apply tab_length.
  - intros i c Hi Hc.
    rewrite (at2_map_tab forcing_profiles _ _ i _ []) by lia.
    do 7 (destruct i as [|i]; [try lia; rewrite ?at2_cons; rewrite at2_tab by lia;
                               reflexivity|]).
    lia.
Qed.

Lemma gwps_co2eq_species_rows_witness :
  exists formula out idx,
    gwps_formula 100 flow_forcing (repeat 0%R 21) (repeat 1%R 100) = Ok (formula, idx)
    /\ gwps_co2eq 100 flow_forcing [] (repeat 0%R 21) (repeat 5%R 21) (repeat 1%R 100)
       = Ok (out, idx)
    /\ shape out 7 (21 - 20)
    /\ forall i c, (2 <= i <= 6)%nat -> (c < 21 - 20)%nat -> at2 out i c = at2 formula i c.
Proof.
  apply (gwps_co2eq_species_rows 21 100 flow_forcing [] (repeat 0%R 21) (repeat 5%R 21)
           (repeat 1%R 100)).
  - split; [reflexivity|repeat constructor].
  - reflexivity.
  - simpl; lia.
  - unfold Py.len. simpl. lia.
Defined.

(** X8: when the forcing of a species row [i] in [2..6] is constantly
    [v] over the years [t-20 .. t], the rate term vanishes and
    [gwps_co2eq] returns [g * (s * (v / 1000) / AGWP_CO2(H))] in the
    column of [t]. *)
Theorem gwps_co2eq_constant_forcing (T : nat) (H : Z)
    (forcing_profiles temperature_profiles : ndarray2)
    (years CO2_emissions agwph_co2 : ndarray1) (i t : nat) (v : R) :
  shape forcing_profiles 7 T -> length years = T -> (T <= length CO2_emissions)%nat ->
  (1 <= H <= Py.len agwph_co2)%Z -> (2 <= i <= 6)%nat -> (20 <= t < T)%nat ->
  (forall k, (t - 20 <= k <= t)%nat -> at2 forcing_profiles i k = v) ->
  exists out idx,
    gwps_co2eq H forcing_profiles temperature_profiles years CO2_emissions agwph_co2
    = Ok (out, idx)
    /\ at2 out i (t - 20)
       = (g * (s * (v / 1000) / (nth (Z.to_nat (H - 1)) agwph_co2 0 * 1e9)))%R.
Proof.
  intros Hf Hy HE HH Hi Ht Hv. unfold Py.len in HH.
  set (h := Z.to_nat H). replace (Z.to_nat (H - 1)) with (h - 1)%nat by lia.
  replace H with (Z.of_nat h) in * by lia.
  assert (Hh : (1 <= h <= length agwph_co2)%nat) by lia.
  rewrite (gwps_co2eq_closed T h forcing_profiles temperature_profiles years
             CO2_emissions agwph_co2 Hf Hy HE Hh).
  do 2 eexists. split; [reflexivity|].
  assert (He : gwps_entry (Z.of_nat h) (nth (h - 1) agwph_co2 0 * 1e9)%R
                 (nth i forcing_profiles []) (t - 20)
               = (g * (s * (v / 1000) / (nth (h - 1) agwph_co2 0 * 1e9)))%R).
  { unfold gwps_entry. unfold at2 in Hv.
    rewrite (Hv (20 + (t - 20))%nat), (Hv (t - 20)%nat) by lia.
    rewrite (big_sum_ext 20 _ (fun _ => v)) by (intros k Hk; apply Hv; lia).
    rewrite big_sum_const. replace (INR 20) with 20%R by (simpl; lra).
    replace ((v - v) / 20 / 1000)%R with 0%R by lra.
    replace (20 * v / 20)%R with v by lra.
    unfold Rdiv. ring. }
  do 7 (destruct i as [|i]; [try lia; rewrite ?at2_cons; rewrite at2_tab by lia;
                             exact He|]).
  lia.
Qed.

Lemma gwps_co2eq_constant_forcing_witness :
  exists out idx,
    gwps_co2eq 100 flow_forcing [] (repeat 0%R 21) (repeat 5%R 21) (repeat 1%R 100)
    = Ok (out, idx)
    /\ at2 out 2 (20 - 20)
       = (g * (s * (2 / 1000) / (nth (Z.to_nat (100 - 1)) (repeat 1%R 100) 0 * 1e9)))%R.
Proof.
  apply (gwps_co2eq_constant_forcing 21 100 flow_forcing [] (repeat 0%R 21) (repeat 5%R 21)
           (repeat 1%R 100) 2 20 2%R).
  - split; [reflexivity|repeat constructor].
  - reflexivity.
  - simpl; lia.
  - unfold Py.len. simpl. lia.
  - lia.
  - lia.
  - intros k Hk. do 21 (destruct k as [|k]; [reflexivity|]). lia.
Defined.

(** ** Exceptions and edge cases of the converters *)

Lemma mapM_raise_nth {A B : Type} (f : A -> result B) (l : list A) (k : nat) (d : A) (e : exn) :
  (k < length l)%nat ->
  (forall j, (j < k)%nat -> exists y, f (nth j l d) = Ok y) ->
  f (nth k l d) = Raise e ->
  mapM f l = Raise e.
Proof.
  revert k. induction l as [|a l IH]; intros k Hk Hok Hbad; [simpl in Hk; lia|].
  destruct k as [|k]; simpl in *.
  - now rewrite Hbad.
  - destruct (Hok 0%nat) as [y Hy]; [lia|]. rewrite Hy. cbn [bind].
    rewrite (IH k); [reflexivity|lia| |exact Hbad].
    intros j Hj. apply (Hok (S j)). lia.
Qed.

Lemma getitem_outside {A : Type} (l : list A) (i : Z) :
  (Py.len l <= i \/ i < - Py.len l)%Z -> Py.getitem l i = Raise IndexError.
Proof.
  unfold Py.getitem, Py.len. intros Hi.
  destruct (Z.ltb_spec i 0).
  - destruct (Z.ltb_spec (i + Z.of_nat (length l)) 0); [reflexivity|lia].
  - destruct (Z.ltb_spec i 0); [lia|].
    destruct (nth_error l (Z.to_nat i)) eqn:Hn; [|reflexivity].
    assert (Z.to_nat i < length l)%nat by (apply nth_error_Some; congruence). lia.
Qed.

Lemma getitem_raises {A : Type} (l : list A) (i : Z) (e : exn) :
  Py.getitem l i = Raise e -> e = IndexError.
Proof.
  unfold Py.getitem.
  destruct (_ <? 0)%Z; [now intros [= <-]|].
  destruct (nth_error l _); [discriminate|now intros [= <-]].
Qed.

Lemma nth_range (a b : Z) (k : nat) (d : Z) :
  (k < Z.to_nat (b - a))%nat -> nth k (Py.range a b) d = (a + Z.of_nat k)%Z.
Proof.
  intros Hk. unfold Py.range.
  rewrite (nth_indep _ d (a + Z.of_nat 0)%Z) by (now rewrite length_map, length_seq).
  now rewrite (map_nth (fun k => (a + Z.of_nat k)%Z)), seq_nth.
Qed.

Lemma range_empty (a b : Z) : (b <= a)%Z -> Py.range a b = [].
Proof. intros Hb. unfold Py.range. now replace (Z.to_nat (b - a)) with 0%nat by lia. Qed.

(** An index array that runs past the end of the array. *)
Lemma take_short {A : Type} (l : list A) (n : Z) :
  (Py.len l < n)%Z -> take l (Py.range 0 n) = Raise IndexError.
Proof.
  intros Hn. unfold take, Py.len in *.
  apply (mapM_raise_nth _ _ (length l) 0%Z).
  - rewrite range_length. lia.
  - intros j Hj. rewrite nth_range by lia. rewrite Z.add_0_l.
    destruct l as [|x l]; [simpl in Hj; lia|].
    exists (nth j (x :: l) x). now apply getitem_nth.
  - rewrite nth_range by lia. rewrite Z.add_0_l.
    apply getitem_outside. unfold Py.len. lia.
Qed.

(** X9: a horizon outside the AGWP table ([H] above its length, or at
    most minus its length) makes [gwps_co2eq] and [egwps_co2eq] raise
    [IndexError], whatever the other arguments. *)
Theorem star_metrics_horizon_outside_table (H : Z)
    (forcing_profiles temperature_profiles : ndarray2)
    (years CO2_emissions agwph_co2 : ndarray1) :
  (Py.len agwph_co2 < H \/ H <= - Py.len agwph_co2)%Z ->
  gwps_co2eq H forcing_profiles temperature_profiles years CO2_emissions agwph_co2
  = Raise IndexError
  /\ egwps_co2eq H forcing_profiles temperature_profiles years CO2_emissions agwph_co2
     = Raise IndexError.
Proof.
  intros HH.
  assert (Hf : gwps_formula H forcing_profiles years agwph_co2 = Raise IndexError).
  { unfold gwps_formula.
    destruct (Py.getitem forcing_profiles 0) as [row0|e] eqn:H0.
    - cbn [bind]. rewrite (getitem_outside agwph_co2 (H - 1)) by lia. reflexivity.
    - apply getitem_raises in H0. now subst e. }
  unfold gwps_co2eq, egwps_co2eq. now rewrite Hf.
Qed.

Lemma star_metrics_horizon_outside_table_witness :
  gwps_co2eq 101 flow_forcing [] (repeat 0%R 21) (repeat 5%R 21) (repeat 1%R 100)
  = Raise IndexError
  /\ egwps_co2eq 101 flow_forcing [] (repeat 0%R 21) (repeat 5%R 21) (repeat 1%R 100)
     = Raise IndexError.
Proof.
  apply (star_metrics_horizon_outside_table 101 flow_forcing [] (repeat 0%R 21)
           (repeat 5%R 21) (repeat 1%R 100)).
  left. unfold Py.len. simpl. lia.
Defined.

(** X10: a table [m] with fewer than two rows makes [rf_co2eq] (with
    [m] as forcing table) and [gtp_co2eq] (with [m] as temperature
    table) raise [IndexError]. *)
Theorem ratio_needs_co2_row (H : Z) (m other other' : ndarray2)
    (years CO2_emissions : ndarray1) :
  (length m < 2)%nat ->
  rf_co2eq H m other years CO2_emissions = Raise IndexError
  /\ gtp_co2eq H other' m years CO2_emissions = Raise IndexError.
Proof.
  intros Hl. unfold rf_co2eq, gtp_co2eq.
  rewrite (getitem_outside m 1) by (unfold Py.len; lia). split; reflexivity.
Qed.

Lemma ratio_needs_co2_row_witness :
  rf_co2eq 1 [[1; 2; 3]]%R [] [2000; 2001; 2002]%R [5; 5; 5]%R = Raise IndexError
  /\ gtp_co2eq 1 [] [[1; 2; 3]]%R [2000; 2001; 2002]%R [5; 5; 5]%R = Raise IndexError.
Proof.
  apply (ratio_needs_co2_row 1 [[1; 2; 3]]%R [] [] [2000; 2001; 2002]%R [5; 5; 5]%R).
  simpl; lia.
Defined.

(** The comprehension over [range(7)] on a table with fewer than seven
    rows, when there is at least one column to compute. *)
Lemma comprehension_short {B : Type} (m : ndarray2) (cols : list Z) (G : Z -> ndarray1 -> B) :
  (length m < 7)%nat -> cols <> [] ->
  mapM (fun j => mapM (fun i => row <- Py.getitem m j ;; Ok (G i row)) cols) (Py.range 0 7)
  = Raise IndexError.
Proof.
  intros Hm Hcols.
  apply (mapM_raise_nth _ _ (length m) 0%Z).
  - rewrite range_length. simpl. lia.
  - intros j Hj. rewrite nth_range by (simpl; lia). rewrite Z.add_0_l.
    exists (map (fun i => G i (nth j m [])) cols).
    apply mapM_pure. intros i _. now rewrite (getitem_nth m j []).
  - rewrite nth_range by (simpl; lia). rewrite Z.add_0_l.
    destruct cols as [|i cols]; [contradiction|]. cbn [mapM].
    rewrite (getitem_outside m (Z.of_nat (length m))); [reflexivity|].
    unfold Py.len. lia.
Qed.

(** X11: with a horizon below the number of years, a table [m] of
    fewer than seven rows makes [gwp_co2eq] and [egwp_co2eq] (with [m]
    as forcing table) and [atr_co2eq] (with [m] as temperature table)
    raise [IndexError]. *)
Theorem sum_metrics_need_seven_rows (H : Z) (m other other' : ndarray2)
    (years CO2_emissions : ndarray1) :
  (H < Py.len years)%Z -> (length m < 7)%nat ->
  gwp_co2eq H m other years CO2_emissions = Raise IndexError
  /\ egwp_co2eq H m other years CO2_emissions = Raise IndexError
  /\ atr_co2eq H other' m years CO2_emissions = Raise IndexError.
Proof.
  intros HH Hl.
  assert (Hcols : Py.range 0 (Py.len years - H) <> []).
  { intros Hc. apply (f_equal (@length Z)) in Hc. rewrite range_length in Hc.
    simpl in Hc. lia. }
  assert (Ha : agwp_lst H m years = Raise IndexError).
  { unfold agwp_lst.
    apply (comprehension_short m _
             (fun i row => sum (Py.slice (Some i) (Some (i + H)%Z) row)) Hl Hcols). }
  assert (Ht : atr_lst H m years = Raise IndexError).
  { unfold atr_lst.
    apply (comprehension_short m _
             (fun i row => (sum (Py.slice (Some i) (Some (i + H)%Z) row) / IZR H)%R)
             Hl Hcols). }
  unfold gwp_co2eq, gwp_lst, egwp_co2eq, aegwp_scaled, atr_co2eq, atrp_lst.
  rewrite Ha, Ht. repeat split; reflexivity.
Qed.

Lemma sum_metrics_need_seven_rows_witness :
  gwp_co2eq 1 [[1; 2]; [1; 2]]%R [] [2000; 2001]%R [5; 5]%R = Raise IndexError
  /\ egwp_co2eq 1 [[1; 2]; [1; 2]]%R [] [2000; 2001]%R [5; 5]%R = Raise IndexError
  /\ atr_co2eq 1 [] [[1; 2]; [1; 2]]%R [2000; 2001]%R [5; 5]%R = Raise IndexError.
Proof.
  apply (sum_metrics_need_seven_rows 1 [[1; 2]; [1; 2]]%R [] [] [2000; 2001]%R [5; 5]%R).
  - unfold Py.len. simpl. lia.
  - simpl; lia.
Defined.

(** X12: a horizon at or beyond the number of years is no error for
    [gwp_co2eq], [egwp_co2eq] and [atr_co2eq]: whatever the tables and
    the emissions, they return seven empty rows and no year index. *)
Theorem sum_metrics_horizon_beyond_years (H : Z)
    (forcing_profiles temperature_profiles : ndarray2) (years CO2_emissions : ndarray1) :
  (Py.len years <= H)%Z ->
  gwp_co2eq H forcing_profiles temperature_profiles years CO2_emissions
  = Ok (repeat [] 7, [])
  /\ egwp_co2eq H forcing_profiles temperature_profiles years CO2_emissions
     = Ok (repeat [] 7, [])
  /\ atr_co2eq H forcing_profiles temperature_profiles years CO2_emissions
     = Ok (repeat [] 7, []).
Proof.
  intros HH.
  unfold gwp_co2eq, gwp_lst, egwp_co2eq, aegwp_scaled, agwp_lst, atr_co2eq, atrp_lst, atr_lst.
  rewrite (range_empty 0 (Py.len years - H)) by lia.
  repeat split; reflexivity.
Qed.

Lemma sum_metrics_horizon_beyond_years_witness :
  gwp_co2eq 5 rfi_forcing rfi_forcing rfi_years rfi_emissions = Ok (repeat [] 7, [])
  /\ egwp_co2eq 5 rfi_forcing rfi_forcing rfi_years rfi_emissions = Ok (repeat [] 7, [])
  /\ atr_co2eq 5 rfi_forcing rfi_forcing rfi_years rfi_emissions = Ok (repeat [] 7, []).
Proof.
  apply (sum_metrics_horizon_beyond_years 5 rfi_forcing rfi_forcing rfi_years rfi_emissions).
  unfold Py.len. simpl. lia.
Defined.

(** The flow formula for a horizon whose table entry is [a]. *)
Lemma gwps_formula_at (T : nat) (H : Z) (a : R) (fp : ndarray2) (years agwph_co2 : ndarray1) :
  shape fp 7 T -> length years = T -> Py.getitem agwph_co2 (H - 1) = Ok a ->
  gwps_formula H fp years agwph_co2
  = Ok (map (fun row => tab (T - 20) (gwps_entry H (a * 1e9)%R row)) fp,
        Py.range 20 (Z.of_nat T)).
Proof.
  intros [Hm Hrows] Hy Ha. unfold gwps_formula.
  change 0%Z with (Z.of_nat 0) at 1.
  rewrite (getitem_nth fp 0 []) by lia. cbn [bind].
  assert (H0 : Py.len (nth 0 fp []) = Z.of_nat T).
  { unfold Py.len. f_equal. rewrite Forall_forall in Hrows. apply Hrows. apply nth_In. lia. }
  rewrite H0, Ha. cbn [bind].
  unfold Py.len. rewrite Hy. unfold dt.
  rewrite (take_cols_range T fp 20 _ Hrows) by lia. cbn [bind].
  rewrite (take_cols_range T fp 0 _ Hrows) by lia. cbn [bind].
  replace (Z.to_nat (Z.of_nat T - 20 - 0)) with (T - 20)%nat by lia.
  replace (Z.to_nat (Z.of_nat T - 20)) with (T - 20)%nat by lia.
  rewrite bcast2_tab. cbn [bind].
  match goal with
  | |- context [mapM ?f (Py.range 0 7)] =>
      assert (HF : mapM f (Py.range 0 7)
                   = Ok (map (fun row => tab (T - 20)
                           (fun c => big_sum 20 (fun j => nth (c + 1 + j) row 0) / 20)%R) fp))
  end.
  { rewrite (comprehension_rows fp _
               (fun i row => Py.sum (Py.slice (Some (i - 20 + 1)%Z) (Some (i + 1)%Z) row) / 20)%R Hm).
    apply f_equal. apply map_ext_in.
    intros row Hrow. rewrite Forall_forall in Hrows. specialize (Hrows row Hrow).
    unfold Py.range, tab. rewrite map_map.
    replace (Z.to_nat (Z.of_nat T - 20)) with (T - 20)%nat by lia.
    apply map_ext_in. intros c Hc. apply in_seq in Hc.
    rewrite (slice_tab _ _ row (c + 1) (c + 21) 0%R).
    - replace (c + 21 - (c + 1))%nat with 20%nat by lia.
      change (Py.sum ?l) with (sum l). now rewrite sum_tab.
    - unfold Py.adjust, Py.len.
      destruct (Z.ltb_spec (20 + Z.of_nat c - 20 + 1) 0); lia.
    - unfold Py.adjust, Py.len.
      destruct (Z.ltb_spec (20 + Z.of_nat c + 1) 0); lia.
    - lia. }
  rewrite HF. cbn [bind].
  rewrite !scalar_tab. rewrite bcast2_tab. cbn [bind]. rewrite scalar_tab.
  reflexivity.
Qed.

Lemma gwps_co2eq_at (T : nat) (H : Z) (a : R) (fp tp : ndarray2)
    (years E agwph_co2 : ndarray1) :
  shape fp 7 T -> length years = T -> (T <= length E)%nat ->
  Py.getitem agwph_co2 (H - 1) = Ok a ->
  let v i := gwps_entry H (a * 1e9)%R (nth i fp []) in
  let e c := nth (20 + c) E 0%R in
  gwps_co2eq H fp tp years E agwph_co2
  = Ok ([tab (T - 20)
           (fun c => (0 + e c + v 2%nat c + v 3%nat c + v 4%nat c + v 5%nat c + v 6%nat c)%R);
         tab (T - 20) e; tab (T - 20) (v 2%nat); tab (T - 20) (v 3%nat);
         tab (T - 20) (v 4%nat); tab (T - 20) (v 5%nat); tab (T - 20) (v 6%nat)],
        Py.range 20 (Z.of_nat T)).
Proof.
  intros Hs Hy HE Ha v e. unfold gwps_co2eq.
  rewrite (gwps_formula_at T H a fp years agwph_co2 Hs Hy Ha). cbn [bind].
  destruct Hs as [Hm Hrows].
  rewrite (take_range E 20 _ 0%R) by (unfold Py.len; lia). cbn [bind].
  replace (Z.to_nat (Z.of_nat T - 20)) with (T - 20)%nat by lia.
  change (Z.to_nat 20) with 20%nat.
  rewrite (seven_rows fp Hm) at 1. cbn [map].
  rewrite assign_row1_tab. cbn [bind]. rewrite set_total_tab. reflexivity.
Qed.

Lemma getitem_wrap {A : Type} (l : list A) (i : Z) (d : A) :
  (- Py.len l <= i < 0)%Z -> Py.getitem l i = Ok (nth (Z.to_nat (i + Py.len l)) l d).
Proof.
  intros Hi. unfold Py.getitem.
  destruct (Z.ltb_spec i 0); [|lia].
  destruct (Z.ltb_spec (i + Py.len l) 0); [lia|].
  destruct (nth_error l (Z.to_nat (i + Py.len l))) as [x|] eqn:Hx.
  - now rewrite (nth_error_nth _ _ d Hx).
  - apply nth_error_None in Hx. unfold Py.len in *. lia.
Qed.

(** X13: a horizon [H <= 0] above minus the length of the AGWP table is
    no error for [gwps_co2eq]: the index [H - 1] wraps around, so the
    species rows are computed with the table entry counted from the end
    ([H = 0] reads the last entry). *)
Theorem gwps_co2eq_horizon_wraps (T : nat) (H : Z)
    (forcing_profiles temperature_profiles : ndarray2)
    (years CO2_emissions agwph_co2 : ndarray1) :
  shape forcing_profiles 7 T -> length years = T -> (T <= length CO2_emissions)%nat ->
  (- Py.len agwph_co2 < H <= 0)%Z ->
  exists out,
    gwps_co2eq H forcing_profiles temperature_profiles years CO2_emissions agwph_co2
    = Ok (out, Py.range 20 (Z.of_nat T))
    /\ forall i c, (2 <= i <= 6)%nat -> (c < T - 20)%nat ->
         at2 out i c
         = gwps_entry H (nth (Z.to_nat (H - 1 + Py.len agwph_co2)) agwph_co2 0 * 1e9)%R
             (nth i forcing_profiles []) c.
Proof.
  intros Hf Hy HE HH.
  rewrite (gwps_co2eq_at T H (nth (Z.to_nat (H - 1 + Py.len agwph_co2)) agwph_co2 0%R)
             forcing_profiles temperature_profiles years CO2_emissions agwph_co2 Hf Hy HE)
    by (apply getitem_wrap; lia).
  eexists. split; [reflexivity|].
  intros i c Hi Hc.
  do 7 (destruct i as [|i]; [try lia; rewrite ?at2_cons; rewrite at2_tab by lia;
                             reflexivity|]).
  lia.
Qed.

Lemma gwps_co2eq_horizon_wraps_witness :
  exists out,
    gwps_co2eq 0 flow_forcing [] (repeat 0%R 21) (repeat 5%R 21) [7; 8; 9]%R
    = Ok (out, Py.range 20 (Z.of_nat 21))
    /\ forall i c, (2 <= i <= 6)%nat -> (c < 21 - 20)%nat ->
         at2 out i c
         = gwps_entry 0 (nth (Z.to_nat (0 - 1 + Py.len [7; 8; 9]%R)) [7; 8; 9]%R 0 * 1e9)%R
             (nth i flow_forcing []) c.
Proof.
  apply (gwps_co2eq_horizon_wraps 21 0 flow_forcing [] (repeat 0%R 21) (repeat 5%R 21)
           [7; 8; 9]%R).
  - split; [reflexivity|repeat constructor].
  - reflexivity.
  - simpl; lia.
  - unfold Py.len. simpl. lia.
Defined.

(** *** The length of the emission series *)

(** X14: when the emission series has fewer than [T - H] values,
    [gwp_co2eq], [egwp_co2eq] and [atr_co2eq] raise [IndexError]: they
    read the emissions through the index array [range(len(years) - H)]. *)
Theorem sum_metrics_short_emissions (T : nat) (H : Z) (m other other' : ndarray2)
    (years CO2_emissions : ndarray1) :
  shape m 7 T -> length years = T -> (0 < H < Z.of_nat T)%Z ->
  (Py.len CO2_emissions < Z.of_nat T - H)%Z ->
  gwp_co2eq H m other years CO2_emissions = Raise IndexError
  /\ egwp_co2eq H m other years CO2_emissions = Raise IndexError
  /\ atr_co2eq H other' m years CO2_emissions = Raise IndexError.
Proof.
  intros Hs Hy HH HE.
  set (h := Z.to_nat H). replace H with (Z.of_nat h) in * by lia.
  assert (Hh : (h <= T)%nat) by lia.
  assert (Ht : take CO2_emissions (Py.range 0 (Py.len years - Z.of_nat h)) = Raise IndexError).
  { apply take_short. unfold Py.len at 2. rewrite Hy. exact HE. }
  pose proof Hs as [Hm _].
  split; [|split].
  - unfold gwp_co2eq, gwp_lst.
    rewrite (agwp_lst_closed T h m years Hs Hy Hh). cbn [bind].
    change 1%Z with (Z.of_nat 1).
    rewrite (getitem_map_tab m _ _ 1 []) by lia. cbn [bind].
    rewrite bcast_rows_tab. cbn [bind]. now rewrite Ht.
  - unfold egwp_co2eq.
    rewrite (aegwp_scaled_closed T h m years Hs Hy Hh). cbn [bind].
    rewrite set_total_tab, getitem_1. cbn [bind].
    rewrite bcast_rows_tab7. cbn [bind]. now rewrite Ht.
  - unfold atr_co2eq, atrp_lst.
    rewrite (atr_lst_closed T h m years Hs Hy Hh). cbn [bind].
    change 1%Z with (Z.of_nat 1).
    rewrite (getitem_map_tab m _ _ 1 []) by lia. cbn [bind].
    rewrite bcast_rows_tab. cbn [bind]. now rewrite Ht.
Qed.

Lemma sum_metrics_short_emissions_witness :
  gwp_co2eq 2 rfi_forcing [] rfi_years [10; 20]%R = Raise IndexError
  /\ egwp_co2eq 2 rfi_forcing [] rfi_years [10; 20]%R = Raise IndexError
  /\ atr_co2eq 2 [] rfi_forcing rfi_years [10; 20]%R = Raise IndexError.
Proof.
  apply (sum_metrics_short_emissions 5 2 rfi_forcing [] [] rfi_years [10; 20]%R).
  - split; [reflexivity|repeat constructor].
  - reflexivity.
  - lia.
  - unfold Py.len. simpl. lia.
Defined.

(** [rf_co2eq] up to the multiplication by the emissions. *)
Lemma rf_co2eq_ratio (T h : nat) (fp tp : ndarray2) (years E : ndarray1) :
  Forall (fun row => length row = T) fp -> (2 <= length fp)%nat -> (h < T)%nat ->
  rf_co2eq (Z.of_nat h) fp tp years E
  = (rf_CO2_eq <- bcast_rows Rmult
                    (map (fun row => tab (T - h - 1)
                            (fun c => nth (h + c) row 0 / nth (h + c) (nth 1 fp []) 0)%R) fp)
                    (Py.slice None (Some (Py.len years - Z.of_nat h - 1)%Z) E) ;;
     Ok (rf_CO2_eq, Py.range 0 (Py.len years - Z.of_nat h - 1))).
Proof.
  intros Hrows Hfp Hh. unfold rf_co2eq.
  change 1%Z with (Z.of_nat 1). rewrite (getitem_nth fp 1 [] Hfp). cbn [bind].
  assert (Hsl : forall row, length row = T ->
            Py.slice (Some (Z.of_nat h)) (Some (-1)%Z) row
            = tab (T - h - 1) (fun k => nth (h + k) row 0%R)).
  { intros row Hrow.
    rewrite (slice_tab _ _ row h (T - 1) 0%R).
    - f_equal. lia.
    - unfold Py.adjust, Py.len. rewrite Hrow. destruct (Z.ltb_spec (Z.of_nat h) 0); lia.
    - unfold Py.adjust, Py.len. rewrite Hrow. destruct (Z.ltb_spec (-1) 0); lia.
    - lia. }
  rewrite (map_ext_in _ (fun row => tab (T - h - 1) (fun k => nth (h + k) row 0%R))).
  2:{ intros row Hrow. apply Hsl. rewrite Forall_forall in Hrows. now apply Hrows. }
  rewrite Hsl.
  2:{ rewrite Forall_forall in Hrows. apply Hrows. apply nth_In. lia. }
  rewrite bcast_rows_tab. reflexivity.
Qed.

(** [gtp_co2eq] up to the multiplication by the emissions. *)
Lemma gtp_co2eq_ratio (T h : nat) (fp tp : ndarray2) (years E : ndarray1) :
  Forall (fun row => length row = T) tp -> (2 <= length tp)%nat -> (h <= T)%nat ->
  gtp_co2eq (Z.of_nat h) fp tp years E
  = (gtp_CO2_eq <- bcast_rows Rmult
                     (map (fun row => tab (T - h)
                             (fun c => nth (h + c) row 0 / nth (h + c) (nth 1 tp []) 0)%R) tp)
                     (Py.slice None (Some (Py.len years - Z.of_nat h)%Z) E) ;;
     Ok (gtp_CO2_eq, Py.range 0 (Py.len years - Z.of_nat h))).
Proof.
  intros Hrows Htp Hh. unfold gtp_co2eq.
  change 1%Z with (Z.of_nat 1). rewrite (getitem_nth tp 1 [] Htp). cbn [bind].
  assert (Hsl : forall row, length row = T ->
            Py.slice (Some (Z.of_nat h)) None row
            = tab (T - h) (fun k => nth (h + k) row 0%R)).
  { intros row Hrow.
    rewrite (slice_tab _ _ row h T 0%R).
    - reflexivity.
    - unfold Py.adjust, Py.len. rewrite Hrow. destruct (Z.ltb_spec (Z.of_nat h) 0); lia.
    - unfold Py.len. now rewrite Hrow.
    - lia. }
  rewrite (map_ext_in _ (fun row => tab (T - h) (fun k => nth (h + k) row 0%R))).
  2:{ intros row Hrow. apply Hsl. rewrite Forall_forall in Hrows. now apply Hrows. }
  rewrite Hsl.
  2:{ rewrite Forall_forall in Hrows. apply Hrows. apply nth_In. lia. }
  rewrite bcast_rows_tab. reflexivity.
Qed.

(** A slice [l[:n]] that reaches the end of [l]. *)
Lemma slice_whole {A : Type} (l : list A) (n : Z) :
  (Py.len l <= n)%Z -> Py.slice None (Some n) l = l.
Proof.
  intros Hn. unfold Py.slice, Py.adjust.
  destruct (Z.ltb_spec n 0); [unfold Py.len in *; lia|].
  rewrite Z.min_r by lia. rewrite Z.sub_0_r. unfold Py.len. rewrite Nat2Z.id.
  cbn [Z.to_nat skipn]. apply firstn_all.
Qed.

Lemma bcast1_single op (a : ndarray1) (y : R) :
  bcast1 op a [y] = Ok (map (fun x => op x y) a).
Proof.
  unfold bcast1. destruct (Nat.eqb_spec (length a) (length [y])) as [Hl|Hl].
  - destruct a as [|x [|x' a]]; try discriminate. reflexivity.
  - destruct a as [|x [|x' a]]; reflexivity.
Qed.

Lemma bcast_rows_single {A : Type} op (m : list A) n (F : A -> nat -> R) (y : R) :
  bcast_rows op (map (fun a => tab n (F a)) m) [y]
  = Ok (map (fun a => tab n (fun k => op (F a k) y)) m).
Proof.
  unfold bcast_rows.
  rewrite (mapM_pure _ (map (fun x => op x y))) by (intros; apply bcast1_single).
  rewrite map_map. apply f_equal. apply map_ext. intros a. apply map_tab.
Qed.

Lemma bcast_rows_mismatch {A : Type} op (m : list A) n (F : A -> nat -> R) (v : ndarray1) :
  m <> [] -> (2 <= n)%nat -> length v <> n -> length v <> 1%nat ->
  bcast_rows op (map (fun a => tab n (F a)) m) v = Raise ValueError.
Proof.
  intros Hm Hn Hv H1. destruct m as [|a m]; [contradiction|].
  unfold bcast_rows. cbn [map mapM].
  assert (Hb : bcast1 op (tab n (F a)) v = Raise ValueError).
  { unfold bcast1. rewrite tab_length.
    destruct (Nat.eqb_spec n (length v)) as [Hl|Hl]; [congruence|].
    pose proof (tab_length n (F a)) as Hl'.
    destruct (tab n (F a)) as [|x [|x' r]]; simpl in Hl'; try lia.
    destruct v as [|y [|y' v]]; simpl in H1; try lia; reflexivity. }
  now rewrite Hb.
Qed.

(** X15: an emission series of a single value is no error for
    [rf_co2eq] and [gtp_co2eq]: the value is broadcast, so every column
    is the ratio times that one value. *)
Theorem ratio_metrics_single_emission (T : nat) (H : Z) (m other other' : ndarray2)
    (years : ndarray1) (e : R) :
  shape m 7 T -> length years = T -> (0 < H < Z.of_nat T - 1)%Z ->
  exists out_rf out_gtp,
    rf_co2eq H m other years [e] = Ok (out_rf, Py.range 0 (Z.of_nat T - H - 1))
    /\ gtp_co2eq H other' m years [e] = Ok (out_gtp, Py.range 0 (Z.of_nat T - H))
    /\ (forall i c, (i < 7)%nat -> (c < T - Z.to_nat H - 1)%nat ->
          at2 out_rf i c = (at2 m i (Z.to_nat H + c) / at2 m 1 (Z.to_nat H + c) * e)%R)
    /\ (forall i c, (i < 7)%nat -> (c < T - Z.to_nat H)%nat ->
          at2 out_gtp i c = (at2 m i (Z.to_nat H + c) / at2 m 1 (Z.to_nat H + c) * e)%R).
Proof.
  intros [Hm Hrows] Hy HH.
  set (h := Z.to_nat H). replace H with (Z.of_nat h) by lia.
  rewrite (rf_co2eq_ratio T h m other years [e]) by (try assumption; lia).
  rewrite (gtp_co2eq_ratio T h other' m years [e]) by (try assumption; lia).
  rewrite !slice_whole by (unfold Py.len; rewrite Hy; simpl; lia).
  rewrite !bcast_rows_single. cbn [bind]. unfold Py.len. rewrite Hy.
  do 2 eexists. split; [reflexivity|]. split; [reflexivity|].
  split; intros i c Hi Hc; now rewrite (at2_map_tab m _ _ i _ []) by lia.
Qed.

Lemma ratio_metrics_single_emission_witness :
  exists out_rf out_gtp,
    rf_co2eq 2 rfi_forcing [] rfi_years [10]%R = Ok (out_rf, Py.range 0 (Z.of_nat 5 - 2 - 1))
    /\ gtp_co2eq 2 [] rfi_forcing rfi_years [10]%R = Ok (out_gtp, Py.range 0 (Z.of_nat 5 - 2))
    /\ (forall i c, (i < 7)%nat -> (c < 5 - Z.to_nat 2 - 1)%nat ->
          at2 out_rf i c
          = (at2 rfi_forcing i (Z.to_nat 2 + c) / at2 rfi_forcing 1 (Z.to_nat 2 + c) * 10)%R)
    /\ (forall i c, (i < 7)%nat -> (c < 5 - Z.to_nat 2)%nat ->
          at2 out_gtp i c
          = (at2 rfi_forcing i (Z.to_nat 2 + c) / at2 rfi_forcing 1 (Z.to_nat 2 + c) * 10)%R).
Proof.
  apply (ratio_metrics_single_emission 5 2 rfi_forcing [] [] rfi_years 10%R).
  - split; [reflexivity|repeat constructor].
  - reflexivity.
  - lia.
Defined.

(** X16: when at least two columns are computed and the emission series
    is shorter than that, without being a single value, [rf_co2eq] and
    [gtp_co2eq] raise [ValueError] (the shapes do not broadcast), not
    [IndexError]. *)
Theorem ratio_metrics_short_emissions (T : nat) (H : Z) (m other other' : ndarray2)
    (years CO2_emissions : ndarray1) :
  shape m 7 T -> length years = T -> (0 < H)%Z -> (H + 3 <= Z.of_nat T)%Z ->
  (Py.len CO2_emissions < Z.of_nat T - H - 1)%Z -> length CO2_emissions <> 1%nat ->
  rf_co2eq H m other years CO2_emissions = Raise ValueError
  /\ gtp_co2eq H other' m years CO2_emissions = Raise ValueError.
Proof.
  intros [Hm Hrows] Hy H0 HH HE H1. unfold Py.len in HE.
  set (h := Z.to_nat H). replace H with (Z.of_nat h) in * by lia.
  rewrite (rf_co2eq_ratio T h m other years CO2_emissions) by (try assumption; lia).
  rewrite (gtp_co2eq_ratio T h other' m years CO2_emissions) by (try assumption; lia).
  rewrite !slice_whole by (unfold Py.len; rewrite Hy; lia).
  assert (Hne : m <> []) by (intros ->; discriminate).
  rewrite !bcast_rows_mismatch by (try assumption; lia).
  split; reflexivity.
Qed.

Lemma ratio_metrics_short_emissions_witness :
  rf_co2eq 1 rfi_forcing [] rfi_years [10; 20]%R = Raise ValueError
  /\ gtp_co2eq 1 [] rfi_forcing rfi_years [10; 20]%R = Raise ValueError.
Proof.
  apply (ratio_metrics_short_emissions 5 1 rfi_forcing [] [] rfi_years [10; 20]%R).
  - split; [reflexivity|repeat constructor].
  - reflexivity.
  - lia.
  - lia.
  - unfold Py.len. simpl. lia.
  - simpl. lia.
Defined.

(** ** Further properties of the loader *)

Lemma loadtxt_regular (fs : filesystem) (name : string) (f : file) (n k : nat) :
  fs name = Some f -> regular_file n f -> n <> 1%nat -> (k < 2)%nat ->
  loadtxt fs name 2 k = Ok (Vec1 (column k f)).
Proof.
  intros Hf [Hn Hl] H1 Hk. unfold loadtxt. rewrite Hf. cbv zeta.
  rewrite (mapM_pure _ (fun l => nth k l 0%R)).
  - cbn [bind]. fold (column k f).
    assert (Hc : length (column k f) = n).
    { unfold column. rewrite length_map. exact Hn. }
    destruct (column k f) as [|x [|y col]]; simpl in Hc; try reflexivity. lia.
  - intros l Hin. rewrite Forall_forall in Hl. specialize (Hl l Hin).
    rewrite (nth_error_nth' l 0%R) by lia. reflexivity.
Qed.

Lemma assign_row_same (m : ndarray2) (r n k : nat) (v : ndarray1) :
  shape m r n -> (k < r)%nat -> length v = n ->
  assign_row m (Z.of_nat k) v = Ok (set_row m k v).
Proof.
  intros [Hm Hrows] Hk Hv. unfold assign_row. rewrite assign_row_index.
  rewrite (getitem_nth m k []) by lia. cbn [bind].
  rewrite Forall_forall in Hrows. rewrite (Hrows (nth k m [])) by (apply nth_In; lia).
  rewrite Hv, Nat.eqb_refl. reflexivity.
Qed.

Lemma column_length (n k : nat) (f : file) : regular_file n f -> length (column k f) = n.
Proof. intros [Hn _]. unfold column. now rewrite length_map. Qed.

Section RegularDirectory.
Variables (fs : filesystem) (directory : string) (n : nat) (frf fdt : string -> file).
Hypothesis Hn : n <> 1%nat.
Hypothesis Hfiles : forall species, In species emission_species ->
  fs (directory ++ rf_name species)%string = Some (frf species)
  /\ fs (directory ++ dt_name species)%string = Some (fdt species)
  /\ regular_file n (frf species) /\ regular_file n (fdt species).

(** The loop on a directory whose files are all regular. *)
Lemma populate_regular (idx : list nat) :
  (forall i, In i idx -> (i < 6)%nat) ->
  forall rf_arr dt_arr, shape rf_arr 7 n -> shape dt_arr 7 n ->
    populate fs directory idx rf_arr dt_arr
    = Ok (fold_left (fun m i => set_row m (i + 1)
                                  (column 1 (frf (nth i emission_species EmptyString))))
                    idx rf_arr,
          fold_left (fun m i => set_row m (i + 1)
                                  (column 1 (fdt (nth i emission_species EmptyString))))
                    idx dt_arr).
Proof.
  induction idx as [|i idx IH]; intros Hidx rf dt Hrf Hdt; [reflexivity|].
  cbn [populate fold_left].
  assert (Hi : (i < 6)%nat) by (apply Hidx; now left).
  destruct (Hfiles (nth i emission_species EmptyString)) as (F1 & F2 & R1 & R2).
  { apply nth_In. simpl. lia. }
  rewrite (loadtxt_regular fs _ _ n 1 F1 R1 Hn) by lia. cbn [bind].
  rewrite (loadtxt_regular fs _ _ n 1 F2 R2 Hn) by lia. cbn [bind].
  unfold assign_loaded.
  rewrite (assign_row_same rf 7 n (i + 1)) by (try assumption; try lia; now apply column_length).
  cbn [bind].
  rewrite (assign_row_same dt 7 n (i + 1)) by (try assumption; try lia; now apply column_length).
  cbn [bind].
  apply IH.
  - intros j Hj. apply Hidx. now right.
  - apply set_row_shape; [exact Hrf|now apply column_length].
  - apply set_row_shape; [exact Hdt|now apply column_length].
Qed.

(** X17: in a directory whose twelve species files all hold the same
    number [n <> 1] of year entries, each with a year and a value,
    [load_rf_dt] returns; the years are column 0 of the CO2 forcing
    file, and row [i + 1] of each array is column 1 of the file of
    species [i], in the order CO2, H2O, O3, CH4, Cont, PMO. *)
Theorem load_rf_dt_regular :
  exists rf_arr dt_arr,
    load_rf_dt fs directory = Ok (rf_arr, dt_arr, column 0 (frf "CO2"%string))
    /\ forall i, (i < 6)%nat ->
         nth (i + 1) rf_arr [] = column 1 (frf (nth i emission_species EmptyString))
         /\ nth (i + 1) dt_arr [] = column 1 (fdt (nth i emission_species EmptyString)).
Proof.
  destruct (Hfiles "CO2"%string) as (F1 & _ & R1 & _); [simpl; tauto|].
  unfold load_rf_dt.
  change (directory ++ "RF_CO2_taumean_rfmean.txt")%string
    with (directory ++ rf_name "CO2")%string.
  rewrite (loadtxt_regular fs _ _ n 0 F1 R1 Hn) by lia.
  cbn [bind loaded_len]. rewrite (column_length n 0 _ R1).
  rewrite populate_regular; try apply zeros_shape.
  2:{ intros i Hi. apply in_seq in Hi. simpl in Hi. lia. }
  cbn [bind]. do 2 eexists. split; [reflexivity|].
  intros i Hi.
  do 6 (destruct i as [|i]; [split; reflexivity|]). lia.
Qed.

End RegularDirectory.

Lemma load_rf_dt_regular_witness :
  exists rf_arr dt_arr,
    load_rf_dt aligned_fs "CORSIA/"%string
    = Ok (rf_arr, dt_arr, column 0 (series_file [1; 2]%R))
    /\ forall i, (i < 6)%nat ->
         nth (i + 1) rf_arr [] = column 1 (series_file [1; 2]%R)
         /\ nth (i + 1) dt_arr [] = column 1 (series_file [1; 2]%R).
Proof.
  apply (load_rf_dt_regular aligned_fs "CORSIA/"%string 2
           (fun _ => series_file [1; 2]%R) (fun _ => series_file [1; 2]%R)).
  - lia.
  - intros species _. repeat split; try reflexivity; repeat constructor.
Defined.

(** X18: whenever [load_rf_dt] returns, both arrays have seven rows,
    every row has one entry per year, and there is not exactly one
    year. *)
Theorem load_rf_dt_returns_aligned (fs : filesystem) (directory : string)
    (rf_arr dt_arr : ndarray2) (years : ndarray1) :
  load_rf_dt fs directory = Ok (rf_arr, dt_arr, years) ->
  shape rf_arr 7 (length years) /\ shape dt_arr 7 (length years)
  /\ length years <> 1%nat.
Proof.
  intros Hload.
  destruct (load_rf_dt_shape fs directory rf_arr dt_arr years Hload) as [Hrf Hdt].
  split; [exact Hrf|]. split; [exact Hdt|].
  unfold load_rf_dt, loadtxt in Hload.
  destruct (fs _) as [f|]; [|discriminate]. cbv zeta in Hload.
  match type of Hload with
  | context [mapM ?read ?rows] => destruct (mapM read rows) as [col|e]
  end; [|discriminate]. cbn [bind] in Hload.
  destruct col as [|x [|x' col]]; cbn [bind loaded_len] in Hload; try discriminate.
  - destruct (populate _ _ _ _ _) as [[rf dt]|e]; [|discriminate].
    cbn [bind] in Hload. injection Hload as <- <- <-. discriminate.
  - destruct (populate _ _ _ _ _) as [[rf dt]|e]; [|discriminate].
    cbn [bind] in Hload. injection Hload as <- <- <-. discriminate.
Qed.

Lemma load_rf_dt_returns_aligned_witness :
  exists rf_arr dt_arr years,
    load_rf_dt aligned_fs "CORSIA/"%string = Ok (rf_arr, dt_arr, years)
    /\ shape rf_arr 7 (length years) /\ shape dt_arr 7 (length years)
    /\ length years <> 1%nat.
Proof.
  do 3 eexists. split.
  - cbv -[Rplus IZR]. reflexivity.
  - apply (load_rf_dt_returns_aligned aligned_fs "CORSIA/"%string).
    cbv -[Rplus IZR]. reflexivity.
Defined.

Lemma loadtxt_missing (fs : filesystem) (name : string) (skiprows usecols : nat) :
  fs name = None -> loadtxt fs name skiprows usecols = Raise OSError.
Proof. intros Hf. unfold loadtxt. now rewrite Hf. Qed.

(** The loop fails when it reaches a species one of whose files is
    missing. *)
Lemma populate_missing (fs : filesystem) (directory : string) (i : nat) (name : string)
    (idx : list nat) :
  (name = rf_name (nth i emission_species EmptyString)
   \/ name = dt_name (nth i emission_species EmptyString)) ->
  fs (directory ++ name)%string = None -> In i idx ->
  forall rf_arr dt_arr, exists e, populate fs directory idx rf_arr dt_arr = Raise e.
Proof.
  intros Hname Hf. induction idx as [|j idx IH]; intros Hin rf dt; [contradiction|].
  cbn [populate].
  destruct (loadtxt fs (directory ++ rf_name (nth j emission_species EmptyString)) 2 1)
    as [rf_lst|e] eqn:Lrf; [|now exists e]. cbn [bind].
  destruct (loadtxt fs (directory ++ dt_name (nth j emission_species EmptyString)) 2 1)
    as [dt_lst|e] eqn:Ldt; [|now exists e]. cbn [bind].
  destruct (Nat.eq_dec j i) as [->|Hji].
  - destruct Hname as [-> | ->].
    + rewrite (loadtxt_missing fs _ 2 1 Hf) in Lrf. discriminate.
    + rewrite (loadtxt_missing fs _ 2 1 Hf) in Ldt. discriminate.
  - destruct (assign_loaded rf (j + 1) rf_lst) as [rf1|e]; [|now exists e]. cbn [bind].
    destruct (assign_loaded dt (j + 1) dt_lst) as [dt1|e]; [|now exists e]. cbn [bind].
    apply IH. destruct Hin; [contradiction|assumption].
Qed.

(** X19: when the forcing or the temperature file of some species is
    missing, [load_rf_dt] raises an exception. *)
Theorem load_rf_dt_missing_file (fs : filesystem) (directory : string) (species name : string) :
  In species emission_species ->
  name = rf_name species \/ name = dt_name species ->
  fs (directory ++ name)%string = None ->
  exists e, load_rf_dt fs directory = Raise e.
Proof.
  intros Hsp Hname Hf. unfold load_rf_dt.
  destruct (loadtxt fs _ 2 0) as [y|e]; [|now exists e]. cbn [bind].
  destruct (loaded_len y) as [n|e]; [|now exists e]. cbn [bind].
  apply (In_nth _ _ EmptyString) in Hsp. destruct Hsp as (i & Hi & <-).
  destruct (populate_missing fs directory i name (seq 0 (length emission_species)) Hname Hf)
    with (rf_arr := zeros 7 n) (dt_arr := zeros 7 n) as [e He].
  - apply in_seq. lia.
  - exists e. now rewrite He.
Qed.

Lemma load_rf_dt_missing_file_witness :
  exists e, load_rf_dt incomplete_fs "CORSIA/"%string = Raise e.
Proof.
  apply (load_rf_dt_missing_file incomplete_fs "CORSIA/"%string "O3"%string
           (dt_name "O3"%string)).
  - simpl. tauto.
  - right. reflexivity.
  - reflexivity.
Defined.

(** Column 0 of a file is always read: a data line is not blank. *)
Lemma loadtxt_column0 (fs : filesystem) (name : string) (f : file) :
  fs name = Some f ->
  loadtxt fs name 2 0
  = Ok (match column 0 f with
        | [x] => Scalar0 x
        | col => Vec1 col
        end).
Proof.
  intros Hf. unfold loadtxt. rewrite Hf. cbv zeta.
  rewrite (mapM_pure _ (fun l => nth 0 l 0%R)).
  { cbn [bind]. fold (column 0 f). destruct (column 0 f) as [|x [|x' col]]; reflexivity. }
  intros l Hl. unfold data_lines in Hl. apply filter_In in Hl.
  destruct l as [|x l]; [destruct Hl; discriminate|reflexivity].
Qed.

(** X20: a CO2 forcing file with exactly one year entry makes
    [load_rf_dt] raise [TypeError], whatever the other files hold: the
    single year is read as a zero-dimensional array, which has no
    length. *)
Theorem load_rf_dt_single_year (fs : filesystem) (directory : string) (f_co2 : file) :
  fs (directory ++ "RF_CO2_taumean_rfmean.txt")%string = Some f_co2 ->
  entries f_co2 = 1%nat ->
  load_rf_dt fs directory = Raise TypeError.
Proof.
  intros Hf He. unfold load_rf_dt.
  rewrite (loadtxt_column0 fs _ f_co2 Hf).
  assert (Hc : length (column 0 f_co2) = 1%nat).
  { unfold column. rewrite length_map. exact He. }
  destruct (column 0 f_co2) as [|x [|x' col]]; try discriminate. reflexivity.
Qed.

Lemma load_rf_dt_single_year_witness :
  load_rf_dt one_year_fs "CORSIA/"%string = Raise TypeError.
Proof.
  apply (load_rf_dt_single_year one_year_fs "CORSIA/"%string (series_file [1]%R)).
  - reflexivity.
  - reflexivity.
Defined.

(** ** The loader and the converters together *)

Lemma returns_columns_map {A : Type} (m : list A) (n : nat) (F : A -> nat -> R) (a b : Z) :
  length m = 7%nat -> Z.to_nat (b - a) = n ->
  returns_columns n (Ok (map (fun x => tab n (F x)) m, Py.range a b)).
Proof.
  intros Hm Hn. do 2 eexists. split; [reflexivity|]. split; [split|].
  - now rewrite length_map.
  - apply Forall_forall. intros row Hrow. apply in_map_iff in Hrow.
    destruct Hrow as (x & <- & _). apply tab_length.
  - now rewrite range_length.
Qed.

Lemma returns_columns_rows (n : nat) (f0 f1 f2 f3 f4 f5 f6 : nat -> R) (a b : Z) :
  Z.to_nat (b - a) = n ->
  returns_columns n
    (Ok ([tab n f0; tab n f1; tab n f2; tab n f3; tab n f4; tab n f5; tab n f6],
         Py.range a b)).
Proof.
  intros Hn. do 2 eexists. split; [reflexivity|]. split; [split|].
  - reflexivity.
  - repeat constructor; apply tab_length.
  - now rewrite range_length.
Qed.

(** All seven converters return on tables of seven rows aligned with
    the years. *)
Lemma converters_return (T : nat) (H : Z) (fp tp : ndarray2)
    (years E agwph_co2 : ndarray1) :
  shape fp 7 T -> shape tp 7 T -> length years = T -> (T <= length E)%nat ->
  (0 < H < Z.of_nat T)%Z -> (H <= Py.len agwph_co2)%Z ->
  returns_columns (T - Z.to_nat H - 1) (rf_co2eq H fp tp years E)
  /\ returns_columns (T - Z.to_nat H) (gwp_co2eq H fp tp years E)
  /\ returns_columns (T - Z.to_nat H) (egwp_co2eq H fp tp years E)
  /\ returns_columns (T - Z.to_nat H) (gtp_co2eq H fp tp years E)
  /\ returns_columns (T - Z.to_nat H) (atr_co2eq H fp tp years E)
  /\ returns_columns (T - 20) (gwps_co2eq H fp tp years E agwph_co2)
  /\ returns_columns (T - 20) (egwps_co2eq H fp tp years E agwph_co2).
Proof.
  intros Hf Ht Hy HE HH Htab. unfold Py.len in Htab.
  set (h := Z.to_nat H). replace H with (Z.of_nat h) by lia.
  assert (Hh : (1 <= h <= length agwph_co2)%nat) by lia.
  pose proof Hf as [Hfm Hfrows]. pose proof Ht as [Htm Htrows].
  rewrite (rf_co2eq_closed T h fp tp years E) by (try assumption; lia).
  rewrite (gwp_co2eq_closed T h fp tp years E) by (try assumption; lia).
  rewrite (egwp_co2eq_closed T h fp tp years E) by (try assumption; lia).
  rewrite (gtp_co2eq_closed T h fp tp years E) by (try assumption; lia).
  rewrite (atr_co2eq_closed T h fp tp years E) by (try assumption; lia).
  rewrite (gwps_co2eq_closed T h fp tp years E agwph_co2 Hf Hy HE Hh).
  rewrite (egwps_co2eq_closed T h fp tp years E agwph_co2 Hf Hy HE Hh).
  repeat split;
    first [apply returns_columns_map; [assumption|lia] | apply returns_columns_rows; lia].
Qed.

(** X21: the arrays that [load_rf_dt] returns are accepted by all
    seven converters: for a horizon [0 < H < len(years)] inside the AGWP
    table and at least as many emission values as years, each converter
    returns seven rows, with [len(years) - H - 1] columns for RFI,
    [len(years) - H] for GWP, EGWP, GTP and ATR, and [len(years) - 20]
    for GWP* and EGWP*. *)
Theorem loaded_arrays_convert (fs : filesystem) (directory : string) (H : Z)
    (rf_arr dt_arr : ndarray2) (years co2_emis agwph_co2 : ndarray1) :
  load_rf_dt fs directory = Ok (rf_arr, dt_arr, years) ->
  (length years <= length co2_emis)%nat ->
  (0 < H < Py.len years)%Z -> (H <= Py.len agwph_co2)%Z ->
  let T := length years in
  returns_columns (T - Z.to_nat H - 1) (rf_co2eq H rf_arr dt_arr years co2_emis)
  /\ returns_columns (T - Z.to_nat H) (gwp_co2eq H rf_arr dt_arr years co2_emis)
  /\ returns_columns (T - Z.to_nat H) (egwp_co2eq H rf_arr dt_arr years co2_emis)
  /\ returns_columns (T - Z.to_nat H) (gtp_co2eq H rf_arr dt_arr years co2_emis)
  /\ returns_columns (T - Z.to_nat H) (atr_co2eq H rf_arr dt_arr years co2_emis)
  /\ returns_columns (T - 20) (gwps_co2eq H rf_arr dt_arr years co2_emis agwph_co2)
  /\ returns_columns (T - 20) (egwps_co2eq H rf_arr dt_arr years co2_emis agwph_co2).
Proof.
  intros Hload HE HH Htab T.
  destruct (load_rf_dt_shape fs directory rf_arr dt_arr years Hload) as [Hrf Hdt].
  apply converters_return; try assumption; reflexivity.
Qed.

Lemma loaded_arrays_convert_witness :
  exists rf_arr dt_arr years,
    load_rf_dt aligned_fs "CORSIA/"%string = Ok (rf_arr, dt_arr, years)
    /\ returns_columns (length years - Z.to_nat 1 - 1)
         (rf_co2eq 1 rf_arr dt_arr years [10; 20]%R)
    /\ returns_columns (length years - Z.to_nat 1) (gwp_co2eq 1 rf_arr dt_arr years [10; 20]%R)
    /\ returns_columns (length years - Z.to_nat 1) (egwp_co2eq 1 rf_arr dt_arr years [10; 20]%R)
    /\ returns_columns (length years - Z.to_nat 1) (gtp_co2eq 1 rf_arr dt_arr years [10; 20]%R)
    /\ returns_columns (length years - Z.to_nat 1) (atr_co2eq 1 rf_arr dt_arr years [10; 20]%R)
    /\ returns_columns (length years - 20)
         (gwps_co2eq 1 rf_arr dt_arr years [10; 20]%R [3; 4]%R)
    /\ returns_columns (length years - 20)
         (egwps_co2eq 1 rf_arr dt_arr years [10; 20]%R [3; 4]%R).
Proof.
  do 3 eexists. split.
  - cbv -[Rplus IZR]. reflexivity.
  - apply (loaded_arrays_convert aligned_fs "CORSIA/"%string 1).
    + cbv -[Rplus IZR]. reflexivity.
    + simpl; lia.
    + unfold Py.len. simpl. lia.
    + unfold Py.len. simpl. lia.
Defined.

(** ** The CO2 row and the scale of the forcing *)

(** X22: in a column where the CO2 response is not zero, row 1 of the
    output of [rf_co2eq], [gtp_co2eq] and [egwp_co2eq] is the CO2
    emission of that column. *)
Theorem co2_row_is_emission (T : nat) (H : Z) (forcing_profiles temperature_profiles : ndarray2)
    (years CO2_emissions : ndarray1) :
  shape forcing_profiles 7 T -> shape temperature_profiles 7 T ->
  length years = T -> (T <= length CO2_emissions)%nat -> (0 < H < Z.of_nat T)%Z ->
  exists out_rf out_gtp out_egwp,
    rf_co2eq H forcing_profiles temperature_profiles years CO2_emissions
    = Ok (out_rf, Py.range 0 (Z.of_nat T - H - 1))
    /\ gtp_co2eq H forcing_profiles temperature_profiles years CO2_emissions
       = Ok (out_gtp, Py.range 0 (Z.of_nat T - H))
    /\ egwp_co2eq H forcing_profiles temperature_profiles years CO2_emissions
       = Ok (out_egwp, Py.range 0 (Z.of_nat T - H))
    /\ (forall c, (c < T - Z.to_nat H - 1)%nat ->
          at2 forcing_profiles 1 (Z.to_nat H + c) <> 0%R ->
          at2 out_rf 1 c = nth c CO2_emissions 0%R)
    /\ (forall c, (c < T - Z.to_nat H)%nat ->
          at2 temperature_profiles 1 (Z.to_nat H + c) <> 0%R ->
          at2 out_gtp 1 c = nth c CO2_emissions 0%R)
    /\ (forall c, (c < T - Z.to_nat H)%nat ->
          forward_sum (Z.to_nat H) (nth 1 forcing_profiles []) c <> 0%R ->
          at2 out_egwp 1 c = nth c CO2_emissions 0%R).
Proof.
  intros Hf Ht Hy HE HH.
  set (h := Z.to_nat H). replace H with (Z.of_nat h) by lia.
  pose proof Hf as [Hfm Hfrows]. pose proof Ht as [Htm Htrows].
  rewrite (rf_co2eq_closed T h forcing_profiles temperature_profiles years CO2_emissions)
    by (try assumption; lia).
  rewrite (gtp_co2eq_closed T h forcing_profiles temperature_profiles years CO2_emissions)
    by (try assumption; lia).
  rewrite (egwp_co2eq_closed T h forcing_profiles temperature_profiles years CO2_emissions)
    by (try assumption; lia).
  replace (Z.of_nat T - Z.of_nat h - 1)%Z with (Z.of_nat (T - h - 1)) by lia.
  replace (Z.of_nat T - Z.of_nat h)%Z with (Z.of_nat (T - h)) by lia.
  do 3 eexists. repeat (split; [reflexivity|]). repeat split.
  - intros c Hc Hnz. rewrite (at2_map_tab forcing_profiles _ _ 1 _ []) by lia.
    rewrite Rdiv_diag by exact Hnz. lra.
  - intros c Hc Hnz. rewrite (at2_map_tab temperature_profiles _ _ 1 _ []) by lia.
    rewrite Rdiv_diag by exact Hnz. lra.
  - intros c Hc Hnz. rewrite at2_cons, at2_tab by lia.
    rewrite Rmult_1_r, Rdiv_diag by exact Hnz. lra.
Qed.

Lemma co2_row_is_emission_witness :
  exists out_rf out_gtp out_egwp,
    rf_co2eq 2 rfi_forcing rfi_forcing rfi_years rfi_emissions
    = Ok (out_rf, Py.range 0 (Z.of_nat 5 - 2 - 1))
    /\ gtp_co2eq 2 rfi_forcing rfi_forcing rfi_years rfi_emissions
       = Ok (out_gtp, Py.range 0 (Z.of_nat 5 - 2))
    /\ egwp_co2eq 2 rfi_forcing rfi_forcing rfi_years rfi_emissions
       = Ok (out_egwp, Py.range 0 (Z.of_nat 5 - 2))
    /\ (forall c, (c < 5 - Z.to_nat 2 - 1)%nat ->
          at2 rfi_forcing 1 (Z.to_nat 2 + c) <> 0%R ->
          at2 out_rf 1 c = nth c rfi_emissions 0%R)
    /\ (forall c, (c < 5 - Z.to_nat 2)%nat ->
          at2 rfi_forcing 1 (Z.to_nat 2 + c) <> 0%R ->
          at2 out_gtp 1 c = nth c rfi_emissions 0%R)
    /\ (forall c, (c < 5 - Z.to_nat 2)%nat ->
          forward_sum (Z.to_nat 2) (nth 1 rfi_forcing []) c <> 0%R ->
          at2 out_egwp 1 c = nth c rfi_emissions 0%R).
Proof.
  apply (co2_row_is_emission 5 2 rfi_forcing rfi_forcing rfi_years rfi_emissions).
  - split; [reflexivity|repeat constructor].
  - split; [reflexivity|repeat constructor].
  - reflexivity.
  - simpl; lia.
  - lia.
Defined.

Lemma nth_scaled (k : R) (row : ndarray1) (j : nat) :
  nth j (map (Rmult k) row) 0%R = (k * nth j row 0)%R.
Proof.
  rewrite <- (Rmult_0_r k) at 1. apply (map_nth (Rmult k)).
Qed.

Lemma big_sum_scale (n : nat) (f : nat -> R) (k : R) :
  big_sum n (fun j => k * f j)%R = (k * big_sum n f)%R.
Proof. induction n as [|n IH]; simpl; [lra|rewrite IH; lra]. Qed.

Lemma forward_sum_scaled (k : R) (h : nat) (row : ndarray1) (c : nat) :
  forward_sum h (map (Rmult k) row) c = (k * forward_sum h row c)%R.
Proof.
  unfold forward_sum. rewrite <- big_sum_scale. apply big_sum_ext.
  intros j _. apply nth_scaled.
Qed.

Lemma scaled_ratio (k a b : R) : k <> 0%R -> (k * a / (k * b))%R = (a / b)%R.
Proof.
  intros Hk. unfold Rdiv. rewrite Rinv_mult.
  replace (k * a * (/ k * / b))%R with (a * / b * (k * / k))%R by ring.
  rewrite Rinv_r by exact Hk. ring.
Qed.

Lemma scalar_shape (f : R -> R) (m : ndarray2) (r n : nat) :
  shape m r n -> shape (scalar f m) r n.
Proof.
  intros [Hm Hrows]. unfold scalar. split; [now rewrite length_map|].
  apply Forall_forall. intros row Hrow. apply in_map_iff in Hrow.
  destruct Hrow as (x & <- & Hx). rewrite length_map.
  rewrite Forall_forall in Hrows. now apply Hrows.
Qed.

Lemma nth_scalar (f : R -> R) (m : ndarray2) (i : nat) :
  nth i (scalar f m) [] = map f (nth i m []).
Proof. unfold scalar. apply (map_nth (map f) m []). Qed.

(** X23: [rf_co2eq], [gwp_co2eq], [gtp_co2eq] and [atr_co2eq] do not
    depend on the unit of the table they read: multiplying every entry
    of the table by a factor [k <> 0] leaves the result unchanged. *)
Theorem ratio_metrics_scale_invariant (T : nat) (H : Z) (k : R) (m other : ndarray2)
    (years CO2_emissions : ndarray1) :
  shape m 7 T -> length years = T -> (T <= length CO2_emissions)%nat ->
  (0 < H < Z.of_nat T)%Z -> k <> 0%R ->
  rf_co2eq H (scalar (Rmult k) m) other years CO2_emissions
  = rf_co2eq H m other years CO2_emissions
  /\ gwp_co2eq H (scalar (Rmult k) m) other years CO2_emissions
     = gwp_co2eq H m other years CO2_emissions
  /\ gtp_co2eq H other (scalar (Rmult k) m) years CO2_emissions
     = gtp_co2eq H other m years CO2_emissions
  /\ atr_co2eq H other (scalar (Rmult k) m) years CO2_emissions
     = atr_co2eq H other m years CO2_emissions.
Proof.
  intros Hs Hy HE HH Hk.
  set (h := Z.to_nat H). replace H with (Z.of_nat h) by lia.
  pose proof (scalar_shape (Rmult k) m 7 T Hs) as Hs'.
  pose proof Hs as [Hm Hrows]. pose proof Hs' as [Hm' Hrows'].
  rewrite (rf_co2eq_closed T h (scalar (Rmult k) m) other years CO2_emissions),
          (rf_co2eq_closed T h m other years CO2_emissions) by (try assumption; lia).
  rewrite (gwp_co2eq_closed T h (scalar (Rmult k) m) other years CO2_emissions),
          (gwp_co2eq_closed T h m other years CO2_emissions) by (try assumption; lia).
  rewrite (gtp_co2eq_closed T h other (scalar (Rmult k) m) years CO2_emissions),
          (gtp_co2eq_closed T h other m years CO2_emissions) by (try assumption; lia).
  rewrite (atr_co2eq_closed T h other (scalar (Rmult k) m) years CO2_emissions),
          (atr_co2eq_closed T h other m years CO2_emissions) by (try assumption; lia).
  rewrite !nth_scalar. unfold scalar. rewrite !map_map.
  repeat split; do 2 f_equal; apply map_ext; intros row; apply tab_ext; intros c Hc.
  - rewrite !nth_scaled. now rewrite scaled_ratio.
  - rewrite !forward_sum_scaled. now rewrite scaled_ratio.
  - rewrite !nth_scaled. now rewrite scaled_ratio.
  - rewrite !forward_sum_scaled.
    replace (k * forward_sum h row c / IZR (Z.of_nat h))%R
      with (k * (forward_sum h row c / IZR (Z.of_nat h)))%R by (unfold Rdiv; ring).
    replace (k * forward_sum h (nth 1 m []) c / IZR (Z.of_nat h))%R
      with (k * (forward_sum h (nth 1 m []) c / IZR (Z.of_nat h)))%R by (unfold Rdiv; ring).
    now rewrite scaled_ratio.
Qed.

Lemma ratio_metrics_scale_invariant_witness :
  rf_co2eq 2 (scalar (Rmult 1000) rfi_forcing) [] rfi_years rfi_emissions
  = rf_co2eq 2 rfi_forcing [] rfi_years rfi_emissions
  /\ gwp_co2eq 2 (scalar (Rmult 1000) rfi_forcing) [] rfi_years rfi_emissions
     = gwp_co2eq 2 rfi_forcing [] rfi_years rfi_emissions
  /\ gtp_co2eq 2 [] (scalar (Rmult 1000) rfi_forcing) rfi_years rfi_emissions
     = gtp_co2eq 2 [] rfi_forcing rfi_years rfi_emissions
  /\ atr_co2eq 2 [] (scalar (Rmult 1000) rfi_forcing) rfi_years rfi_emissions
     = atr_co2eq 2 [] rfi_forcing rfi_years rfi_emissions.
Proof.
  apply (ratio_metrics_scale_invariant 5 2 1000%R rfi_forcing [] rfi_years rfi_emissions).
  - split; [reflexivity|repeat constructor].
  - reflexivity.
  - simpl; lia.
  - lia.
  - lra.
Defined.

Lemma gwps_entry_scaled (H : Z) (a k : R) (row : ndarray1) (c : nat) :
  gwps_entry H a (map (Rmult k) row) c = (k * gwps_entry H a row c)%R.
Proof.
  unfold gwps_entry. rewrite !nth_scaled.
  rewrite (big_sum_ext 20 _ (fun j => k * nth (c + 1 + j) row 0)%R)
    by (intros j _; apply nth_scaled).
  rewrite big_sum_scale. unfold Rdiv. ring.
Qed.

(** X24: GWP* is not a ratio: multiplying every entry of the forcing
    table by [k] multiplies the species rows 2 to 6 of [gwps_co2eq] by
    [k], while the CO2 row stays the emission series. *)
Theorem gwps_co2eq_homogeneous (T : nat) (H : Z) (k : R)
    (forcing_profiles temperature_profiles : ndarray2)
    (years CO2_emissions agwph_co2 : ndarray1) :
  shape forcing_profiles 7 T -> length years = T -> (T <= length CO2_emissions)%nat ->
  (1 <= H <= Py.len agwph_co2)%Z ->
  exists out out_k idx,
    gwps_co2eq H forcing_profiles temperature_profiles years CO2_emissions agwph_co2
    = Ok (out, idx)
    /\ gwps_co2eq H (scalar (Rmult k) forcing_profiles) temperature_profiles years
         CO2_emissions agwph_co2
       = Ok (out_k, idx)
    /\ forall c, (c < length idx)%nat ->
         at2 out_k 1 c = at2 out 1 c
         /\ forall i, (2 <= i <= 6)%nat -> at2 out_k i c = (k * at2 out i c)%R.
Proof.
  intros Hf Hy HE HH. unfold Py.len in HH.
  set (h := Z.to_nat H). replace H with (Z.of_nat h) in * by lia.
  assert (Hh : (1 <= h <= length agwph_co2)%nat) by lia.
  pose proof (scalar_shape (Rmult k) forcing_profiles 7 T Hf) as Hf'.
  rewrite (gwps_co2eq_closed T h forcing_profiles temperature_profiles years
             CO2_emissions agwph_co2 Hf Hy HE Hh).
  rewrite (gwps_co2eq_closed T h (scalar (Rmult k) forcing_profiles) temperature_profiles
             years CO2_emissions agwph_co2 Hf' Hy HE Hh).
  do 3 eexists. split; [reflexivity|]. split; [reflexivity|].
  intros c Hc. rewrite range_length in Hc. split.
  - now rewrite !at2_cons, !at2_tab by lia.
  - intros i Hi.
    do 7 (destruct i as [|i]; [try lia; rewrite ?at2_cons; rewrite !at2_tab by lia;
                               rewrite nth_scalar; apply gwps_entry_scaled|]).
    lia.
Qed.

Lemma gwps_co2eq_homogeneous_witness :
  exists out out_k idx,
    gwps_co2eq 100 flow_forcing [] (repeat 0%R 21) (repeat 5%R 21) (repeat 1%R 100)
    = Ok (out, idx)
    /\ gwps_co2eq 100 (scalar (Rmult 3) flow_forcing) [] (repeat 0%R 21) (repeat 5%R 21)
         (repeat 1%R 100)
       = Ok (out_k, idx)
    /\ forall c, (c < length idx)%nat ->
         at2 out_k 1 c = at2 out 1 c
         /\ forall i, (2 <= i <= 6)%nat -> at2 out_k i c = (3 * at2 out i c)%R.
Proof.
  apply (gwps_co2eq_homogeneous 21 100 3%R flow_forcing [] (repeat 0%R 21) (repeat 5%R 21)
           (repeat 1%R 100)).
  - split; [reflexivity|repeat constructor].
  - reflexivity.
  - simpl; lia.
  - unfold Py.len. simpl. lia.
Defined.
